(** * ForeSight: the multi-file orchestration engine, embedded in Rocq

    A shallow embedding of [agents/meta_agent.py] and of the four analysis
    agents it drives ([image_deepfake_agent.py], [audio_agent.py],
    [doc_misinfo_agent.py], [video_agent.py]), with the properties of the
    specification stated and proved over it.

    Conventions of the embedding:
    - a Python [str] is a [string]; a character is a code point below 256;
    - a Python [float] is the rational number the double denotes; the
      arithmetic operations, [float] and [round] return the double nearest
      to the exact result, ties to even.  NaN and the infinities are not
      represented: a number read from JSON is taken to lie within the
      range of doubles;
    - a JSON-shaped Python value is a [json]; a [dict] is an association list
      in insertion order, as CPython keeps it;
    - remote services, the file system and OpenCV are collaborators: each call
      reads and changes an abstract [World] and either returns or raises. *)

From Stdlib Require Import String Ascii List ZArith QArith Qround Bool Lia.
From Stdlib Require Import Qreduction.
From Stdlib Require Import Permutation Sorted DecimalString.
Import ListNotations.

Set Warnings "-register-all,-abstract-large-number".

Local Open Scope list_scope.
Local Open Scope string_scope.

(** ** Python string operations *)

Module PyStr.

Definition code (c : ascii) : N := N_of_ascii c.

(** [str.lower] on one code point below 256: A-Z and the Latin-1 capitals
    (U+00C0..U+00DE, U+00D7 excepted) move up by 32. *)
Definition lower_char (c : ascii) : ascii :=
  let n := code c in
  if ((65 <=? n) && (n <=? 90))%N then ascii_of_N (n + 32)
  else if ((192 <=? n) && (n <=? 222) && negb (n =? 215))%N
       then ascii_of_N (n + 32)
       else c.

Fixpoint lower (s : string) : string :=
  match s with
  | EmptyString => EmptyString
  | String c s' => String (lower_char c) (lower s')
  end.

(** [needle in hay] *)
Fixpoint contains (needle hay : string) : bool :=
  String.prefix needle hay ||
  match hay with
  | EmptyString => false
  | String _ hay' => contains needle hay'
  end.

(** [any(w in s for w in ws)] *)
Definition any_in (ws : list string) (s : string) : bool :=
  existsb (fun w => contains w s) ws.

(** [t in l] for a list of strings *)
Definition mem (t : string) (l : list string) : bool :=
  existsb (String.eqb t) l.

(** [s[:n]] *)
Fixpoint take (n : nat) (s : string) : string :=
  match n, s with
  | O, _ => EmptyString
  | _, EmptyString => EmptyString
  | S n', String c s' => String c (take n' s')
  end.

(** The part of [s] after the last occurrence of [sep], and whether [sep]
    occurs at all: [s.rsplit(sep, 1)[-1]] and [sep in s] in one pass. *)
Fixpoint after_last (sep : ascii) (s : string) : option string :=
  match s with
  | EmptyString => None
  | String c s' =>
      match after_last sep s' with
      | Some t => Some t
      | None => if Ascii.eqb c sep then Some s' else None
      end
  end.

(** [os.path.basename] on a POSIX path *)
Definition basename (p : string) : string :=
  match after_last "/" p with
  | Some t => t
  | None => p
  end.

(** [str.isspace] on a code point below 256 *)
Definition is_space (c : ascii) : bool :=
  let n := code c in
  (((9 <=? n) && (n <=? 13)) || ((28 <=? n) && (n <=? 32))
   || (n =? 133) || (n =? 160))%N.

(** [bool(s.strip())]: some character of [s] is not white space *)
Fixpoint strip_nonempty (s : string) : bool :=
  match s with
  | EmptyString => false
  | String c s' => negb (is_space c) || strip_nonempty s'
  end.

(** [s.endswith(suffix)] *)
Fixpoint endswith (s suffix : string) : bool :=
  String.eqb s suffix ||
  match s with
  | EmptyString => false
  | String _ s' => endswith s' suffix
  end.

(** [repr(s)]: single quotes unless the string has one and no double
    quote; the backslash, the quote in use, the control characters and
    the code points that do not print are escaped. *)
Definition hex_digit (n : N) : ascii :=
  if (n <? 10)%N then ascii_of_N (48 + n) else ascii_of_N (87 + n).

Definition has_char (c : ascii) (s : string) : bool :=
  contains (String c EmptyString) s.

Definition repr_char (quote c : ascii) : string :=
  let n := code c in
  let backslash := ascii_of_N 92 in
  if (n =? 92)%N then String backslash (String backslash EmptyString)
  else if Ascii.eqb c quote then String backslash (String c EmptyString)
  else if (n =? 10)%N then String backslash "n"
  else if (n =? 13)%N then String backslash "r"
  else if (n =? 9)%N then String backslash "t"
  else if ((n <? 32) || (n =? 127) || ((128 <=? n) && (n <=? 160))
           || (n =? 173))%N
       then String backslash
              (String "x" (String (hex_digit (n / 16))
                             (String (hex_digit (n mod 16)) EmptyString)))
       else String c EmptyString.

Fixpoint repr_chars (quote : ascii) (s : string) : string :=
  match s with
  | EmptyString => EmptyString
  | String c s' => repr_char quote c ++ repr_chars quote s'
  end.

Definition repr (s : string) : string :=
  let single := ascii_of_N 39 in
  let double := ascii_of_N 34 in
  let quote :=
    if has_char single s && negb (has_char double s) then double
    else single in
  String quote (repr_chars quote s ++ String quote EmptyString).

End PyStr.

(** ** The priority order ([_parse_priority_from_instructions]) *)

(** [buckets.append(t)] under a condition *)
Definition append_if (b : bool) (t : string) (buckets : list string)
  : list string :=
  if b then buckets ++ [t] else buckets.

Definition audio_words : list string := ["transcript"; "audio"].
Definition images_words : list string := ["image"; "photo"; "fake"].
Definition video_words : list string := ["video"; "clip"; "mp4"].
Definition documents_words : list string := ["doc"; "file"; "text"].

Definition fallback_order : list string :=
  ["documents"; "video"; "images"; "audio"].

(** The instructions may be [None]: [(instructions or "")]. *)
Definition _parse_priority_from_instructions (instructions : option string)
  : list string :=
  let instr := PyStr.lower (match instructions with
                            | Some s => s
                            | None => ""
                            end) in
  let buckets := [] in
  let buckets := append_if (PyStr.any_in audio_words instr) "audio" buckets in
  let buckets := append_if (PyStr.any_in images_words instr) "images" buckets in
  let buckets := append_if (PyStr.any_in video_words instr) "video" buckets in
  let buckets :=
    append_if (PyStr.any_in documents_words instr) "documents" buckets in
  fold_left (fun buckets t =>
               append_if (negb (PyStr.mem t buckets)) t buckets)
            fallback_order buckets.

(** A category is mentioned when one of its keywords occurs in the
    lower-cased instructions. *)
Definition mentioned (instructions : option string) (t : string) : bool :=
  let instr := PyStr.lower (match instructions with
                            | Some s => s
                            | None => ""
                            end) in
  if String.eqb t "audio" then PyStr.any_in audio_words instr
  else if String.eqb t "images" then PyStr.any_in images_words instr
  else if String.eqb t "video" then PyStr.any_in video_words instr
  else if String.eqb t "documents" then PyStr.any_in documents_words instr
  else false.

Definition categories : list string :=
  ["audio"; "images"; "video"; "documents"].

(** ** Exceptions, results and the collaborator monad *)

(** The exception classes the agents raise or single out in an [except]
    clause.  All of them derive from [Exception]; [Timeout] derives from
    [RequestException] and [JSONDecodeError] from [ValueError]. *)
Inductive exn_class : Type :=
| Timeout | RequestException | HTTPException | AssemblyAIError
| ValueError | JSONDecodeError | TypeError | AttributeError
| ZeroDivisionError | OverflowError | OtherException.

(** An exception instance: its class and [str(e)]. *)
Record exn : Type := mk_exn { exn_cls : exn_class; exn_str : string }.

(** [isinstance(e, RequestException)] *)
Definition is_RequestException (e : exn) : bool :=
  match exn_cls e with
  | Timeout | RequestException => true
  | _ => false
  end.

Inductive result (A : Type) : Type :=
| Ok (a : A)
| Raise (e : exn).
Arguments Ok {A} a.
Arguments Raise {A} e.

(** A computation reads and changes the world outside the process and
    returns or raises. *)
Definition M (World A : Type) : Type := World -> result A * World.

Definition ret {World A : Type} (a : A) : M World A := fun w => (Ok a, w).

Definition raise {World A : Type} (e : exn) : M World A :=
  fun w => (Raise e, w).

Definition bind {World A B : Type} (m : M World A) (k : A -> M World B)
  : M World B :=
  fun w => match m w with
           | (Ok a, w') => k a w'
           | (Raise e, w') => (Raise e, w')
           end.

(** [try: m  except Exception as e: h e] *)
Definition try_except {World A : Type} (m : M World A) (h : exn -> M World A)
  : M World A :=
  fun w => match m w with
           | (Ok a, w') => (Ok a, w')
           | (Raise e, w') => h e w'
           end.

(** A pure step that may raise, run inside a computation. *)
Definition lift {World A : Type} (r : result A) : M World A := fun w => (r, w).

Declare Scope py_scope.
Delimit Scope py_scope with py.
Notation "x <- m ;; k" := (bind m (fun x => k))
  (at level 100, m at next level, right associativity) : py_scope.
Notation "' p <- m ;; k" := (bind m (fun x => match x with p => k end))
  (at level 100, p pattern, m at next level, right associativity) : py_scope.
Notation "m ;;; k" := (bind m (fun _ => k))
  (at level 100, right associativity) : py_scope.

(** ** JSON-shaped values *)

Inductive json : Type :=
| JNull
| JBool (b : bool)
| JInt (z : Z)
| JFloat (q : Q)
| JStr (s : string)
| JList (l : list json)
| JDict (d : list (string * json)).

Definition dict : Type := list (string * json).

Module PyDict.

(** [d.get(k)] on the items of a dict *)
Fixpoint get (k : string) (d : dict) : option json :=
  match d with
  | [] => None
  | (k', v) :: d' => if String.eqb k k' then Some v else get k d'
  end.

(** [d.get(k, default)] *)
Definition get_or (k : string) (d : dict) (default : json) : json :=
  match get k d with Some v => v | None => default end.

(** [k in d] *)
Definition mem (k : string) (d : dict) : bool :=
  match get k d with Some _ => true | None => false end.

(** [d[k] = v]: an existing key keeps its place, a new key goes last. *)
Fixpoint set (k : string) (v : json) (d : dict) : dict :=
  match d with
  | [] => [(k, v)]
  | (k', v') :: d' =>
      if String.eqb k k' then (k, v) :: d' else (k', v') :: set k v d'
  end.

(** [d.update(m)] for a dict [m] *)
Definition update (d m : dict) : dict :=
  fold_left (fun acc kv => set (fst kv) (snd kv) acc) m d.

Definition keys (d : dict) : list string := map fst d.

End PyDict.

(** [bool(v)] *)
Definition truthy (v : json) : bool :=
  match v with
  | JNull => false
  | JBool b => b
  | JInt z => negb (z =? 0)%Z
  | JFloat q => negb (Qeq_bool q 0)
  | JStr s => negb (String.eqb s "")
  | JList l => match l with [] => false | _ => true end
  | JDict d => match d with [] => false | _ => true end
  end.

(** [v.get(k, default)]: only a dict has the method. *)
Definition py_get (v : json) (k : string) (default : json) : result json :=
  match v with
  | JDict d => Ok (PyDict.get_or k d default)
  | _ => Raise (mk_exn AttributeError "object has no attribute 'get'")
  end.

(** A Python number as a rational: [bool] is a subclass of [int]. *)
Definition as_number (v : json) : result Q :=
  match v with
  | JInt z => Ok (inject_Z z)
  | JFloat q => Ok q
  | JBool b => Ok (if b then 1 else 0)
  | _ => Raise (mk_exn TypeError "unsupported operand type(s)")
  end.

(** [round(x)] to the nearest integer, ties to even *)
Definition round_half_even (x : Q) : Z :=
  let f := Qfloor x in
  let d := (x - inject_Z f)%Q in
  match Qcompare d (1 # 2) with
  | Lt => f
  | Gt => (f + 1)%Z
  | Eq => if Z.even f then f else (f + 1)%Z
  end.

(** ** Double-precision arithmetic

    A double is a rational of the form [m * 2 ^ e] with [m] below [2 ^ 53]
    and [e] no less than [-1074].  [ilog2 q] is [floor(log2 q)] for a
    positive [q], and [ulp_exponent q] the exponent of the last place of
    the doubles around [q]. *)

Definition ilog2 (q : Q) : Z :=
  let n := Qnum q in
  let d := Zpos (Qden q) in
  let k := (Z.log2 n - Z.log2 d)%Z in
  if (if 0 <=? k then 2 ^ k * d <=? n else d <=? n * 2 ^ (- k))%Z
  then k else (k - 1)%Z.

Definition ulp_exponent (q : Q) : Z := Z.max (ilog2 q - 52) (-1074).

(** The double nearest to a positive rational, ties to even. *)
Definition nearest_double_pos (q : Q) : Q :=
  let e := ulp_exponent q in
  if (0 <=? e)%Z
  then inject_Z (round_half_even (q / inject_Z (2 ^ e)) * 2 ^ e)
  else (inject_Z (round_half_even (q * inject_Z (2 ^ (- e))))
        / inject_Z (2 ^ (- e)))%Q.

Definition nearest_double (q : Q) : Q :=
  match Qcompare q 0 with
  | Eq => 0
  | Gt => Qred (nearest_double_pos q)
  | Lt => Qred (- nearest_double_pos (- q))
  end.

(** [x - y], [x * y] and [x / y] on floats *)
Definition float_sub (x y : Q) : Q := nearest_double (x - y).
Definition float_mul (x y : Q) : Q := nearest_double (x * y).
Definition float_div (x y : Q) : Q := nearest_double (x / y).

(** [round(x, 2)]: the exact value of [x] is rounded to two decimals, ties
    to even, and the result is the double nearest to that decimal. *)
Definition round2 (x : Q) : Q :=
  nearest_double (inject_Z (round_half_even (x * 100)) / 100).

(** [int(x)] for a float: truncation toward zero *)
Definition py_int (x : Q) : Z :=
  if Qle_bool 0 x then Qfloor x else Qceiling x.

(** [str(n)] for an [int] *)
Definition int_repr (z : Z) : string := NilZero.string_of_int (Z.to_int z).

(** ** The interpreter's library, taken as given

    The digest, the textual form of floats, the parsers and [repr] of a list
    or dict are Python's own; the program only calls them.  [json_loads]
    raises [JSONDecodeError] on text that is not JSON. *)
Record PyLib : Type := {
  sha256_hexdigest : string -> string;
  float_repr : Q -> string;
  float_of_str : string -> option Q;
  json_loads : string -> result json;
  container_repr : json -> string
}.

(** [str(v)], as an f-string formats a value *)
Definition py_str (lib : PyLib) (v : json) : string :=
  match v with
  | JNull => "None"
  | JBool true => "True"
  | JBool false => "False"
  | JInt z => int_repr z
  | JFloat q => float_repr lib q
  | JStr s => s
  | JList _ | JDict _ => container_repr lib v
  end.

(** [float(n)] for an [int]: the nearest double, or [OverflowError] when
    that would be an infinity. *)
Definition float_of_int (z : Z) : result Q :=
  let x := nearest_double (inject_Z z) in
  if Qle_bool (inject_Z (2 ^ 1024)) x || Qle_bool x (- inject_Z (2 ^ 1024))
  then Raise (mk_exn OverflowError "int too large to convert to float")
  else Ok x.

Definition not_a_number (type_name : string) : exn :=
  mk_exn TypeError
         ("float() argument must be a string or a real number, not '"
          ++ type_name ++ "'").

(** [float(v)].  A number read from JSON is the double nearest to the
    decimal that was written. *)
Definition py_float (lib : PyLib) (v : json) : result Q :=
  match v with
  | JInt z => float_of_int z
  | JFloat q => Ok (nearest_double q)
  | JBool b => Ok (if b then 1 else 0)
  | JStr s => match float_of_str lib s with
              | Some q => Ok q
              | None => Raise (mk_exn ValueError
                                 ("could not convert string to float: "
                                  ++ PyStr.repr s))
              end
  | JNull => Raise (not_a_number "NoneType")
  | JList _ => Raise (not_a_number "list")
  | JDict _ => Raise (not_a_number "dict")
  end.

(** [round(v, 2)] on a number: an [int] stays an [int]. *)
Definition py_round2 (v : json) : json :=
  match v with
  | JFloat q => JFloat (round2 q)
  | JBool b => JInt (if b then 1 else 0)
  | _ => v
  end.

Definition nl : string := String (ascii_of_N 10) EmptyString.

(** ** The canonical serialization and the proof hash

    [json.dumps(obj, sort_keys=True, separators=(",", ":"))] with the default
    [ensure_ascii=True]. *)

Module Json.

Definition hex_digit (n : N) : ascii :=
  if (n <? 10)%N then ascii_of_N (48 + n) else ascii_of_N (87 + n).

Definition quote : string := String (ascii_of_N 34) EmptyString.
Definition backslash : string := String (ascii_of_N 92) EmptyString.

(** One character inside a string literal: the short escapes, the
    printable ASCII characters as they are, everything else as a
    backslash, [u00] and two hexadecimal digits. *)
Definition escape_char (c : ascii) : string :=
  let n := PyStr.code c in
  if (n =? 34)%N then backslash ++ quote
  else if (n =? 92)%N then backslash ++ backslash
  else if (n =? 10)%N then backslash ++ "n"
  else if (n =? 13)%N then backslash ++ "r"
  else if (n =? 9)%N then backslash ++ "t"
  else if (n =? 8)%N then backslash ++ "b"
  else if (n =? 12)%N then backslash ++ "f"
  else if ((32 <=? n) && (n <=? 126))%N then String c EmptyString
  else backslash ++ "u00"
       ++ String (hex_digit (n / 16))
            (String (hex_digit (n mod 16)) EmptyString).

Fixpoint escape (s : string) : string :=
  match s with
  | EmptyString => EmptyString
  | String c s' => escape_char c ++ escape s'
  end.

Definition encode_str (s : string) : string := quote ++ escape s ++ quote.

(** The items of a dict sorted by key, by code point order. *)
Fixpoint insert_item {A : Type} (x : string * A) (l : list (string * A))
  : list (string * A) :=
  match l with
  | [] => [x]
  | y :: l' =>
      if String.leb (fst x) (fst y) then x :: l else y :: insert_item x l'
  end.

Definition sort_items {A : Type} (l : list (string * A))
  : list (string * A) :=
  fold_right insert_item [] l.

Definition render_item (kv : string * string) : string :=
  encode_str (fst kv) ++ ":" ++ snd kv.

Section Dumps.
Variable lib : PyLib.

Fixpoint dumps (j : json) : string :=
  match j with
  | JNull => "null"
  | JBool true => "true"
  | JBool false => "false"
  | JInt z => int_repr z
  | JFloat q => float_repr lib q
  | JStr s => encode_str s
  | JList l => "[" ++ String.concat "," (map dumps l) ++ "]"
  | JDict d =>
      "{" ++ String.concat ","
               (map render_item
                  (sort_items (map (fun kv => (fst kv, dumps (snd kv))) d)))
          ++ "}"
  end.

End Dumps.

End Json.

(** [_make_hash]: the digest of the canonical serialization.  The text is
    ASCII only, so [s.encode()] leaves it as it is. *)
Definition _make_hash (lib : PyLib) (obj : json) : string :=
  sha256_hexdigest lib (Json.dumps lib obj).

(** ** Process configuration and collaborators *)

(** Environment variables and which agent modules were importable when
    [meta_agent] was loaded (a name is [None] when its import failed). *)
Record Config : Type := {
  GEMINI_API_KEY : option string;
  ASSEMBLYAI_API_KEY : option string;
  image_agent_loaded : bool;
  audio_agent_loaded : bool;
  doc_agent_loaded : bool;
  video_agent_loaded : bool;
  ledger_loaded : bool
}.

(** Truth value of an optional string: [None] and the empty string are
    false. *)
Definition is_set (o : option string) : bool :=
  match o with
  | Some s => negb (String.eqb s "")
  | None => false
  end.

(** [a or b] on optional strings *)
Definition or_else (a b : option string) : option string :=
  if is_set a then a else b.

(** What [cv2.VideoCapture] exposes of an opened file: the properties read
    with [cap.get] and the frames [cap.read()] yields until it reports
    [False]. *)
Record Capture (Frame : Type) : Type := {
  cap_fps : Q;
  cap_frame_count : Q;
  cap_width : Q;
  cap_height : Q;
  cap_frames : list Frame
}.
Arguments cap_fps {Frame} c.
Arguments cap_frame_count {Frame} c.
Arguments cap_width {Frame} c.
Arguments cap_height {Frame} c.
Arguments cap_frames {Frame} c.

(** The calls that leave the process.  Each is one blocking call that
    returns or raises; what it does to the world is its own business. *)
Record Services (World Frame : Type) : Type := {
  (* Reality Defender and Gemini, image_deepfake_agent.py *)
  request_presigned_url : string -> M World (string * option string);
  upload_file_to_signed_url : string -> string -> M World unit;
  extract_request_id_from_url : string -> option string;
  get_rd_result : string -> M World json;
  generate_explanation : string -> Q -> M World string;
  (* AssemblyAI, audio_agent.py *)
  upload_file_to_assemblyai : string -> string -> M World string;
  request_transcription_from_assemblyai :
    string -> string -> json -> M World json;
  poll_transcript_status : json -> string -> M World dict;
  (* file readers and Gemini, doc_misinfo_agent.py *)
  read_txt : string -> M World string;
  pdf_pages_text : string -> M World string;
  docx_paragraphs_text : string -> M World string;
  doc_generate_content : string -> M World string;
  (* OpenCV and the temporary snapshot, video_agent.py *)
  cv2_VideoCapture : string -> M World (option (Capture Frame));
  cv2_imwrite : string -> Frame -> M World unit;
  remove_if_exists : string -> World -> World;
  (* Gemini and the ledger, meta_agent.py *)
  meta_generate_content : string -> M World string;
  log_verification_hash : string -> M World json
}.
Arguments request_presigned_url {World Frame} s.
Arguments upload_file_to_signed_url {World Frame} s.
Arguments extract_request_id_from_url {World Frame} s.
Arguments get_rd_result {World Frame} s.
Arguments generate_explanation {World Frame} s.
Arguments upload_file_to_assemblyai {World Frame} s.
Arguments request_transcription_from_assemblyai {World Frame} s.
Arguments poll_transcript_status {World Frame} s.
Arguments read_txt {World Frame} s.
Arguments pdf_pages_text {World Frame} s.
Arguments docx_paragraphs_text {World Frame} s.
Arguments doc_generate_content {World Frame} s.
Arguments cv2_VideoCapture {World Frame} s.
Arguments cv2_imwrite {World Frame} s.
Arguments remove_if_exists {World Frame} s.
Arguments meta_generate_content {World Frame} s.
Arguments log_verification_hash {World Frame} s.

(** ** The image agent ([image_deepfake_agent.py]) *)

Module ImageAgent.
Section Agent.
Context {World Frame : Type}.
Variable lib : PyLib.
Variable svc : Services World Frame.
Local Open Scope py_scope.

Definition verdict_of (tamper_pct : Q) : string :=
  if Qlt_le_dec tamper_pct 25 then "Likely Original"
  else if Qlt_le_dec tamper_pct 60 then "Possibly Manipulated"
  else "Likely Deepfake / Manipulated".

(** [max(0.0, min(1.0, x))] *)
Definition clamp01 (x : Q) : Q :=
  let m := if Qlt_le_dec x 1 then x else 1 in
  if Qlt_le_dec 0 m then m else 0.

(** The body of the [try] block. *)
Definition analysis (file_path : string) : M World json :=
  let original_name := PyStr.basename file_path in
  ' (signed_url, request_id) <- request_presigned_url svc original_name ;;
  upload_file_to_signed_url svc signed_url file_path ;;;
  let request_id :=
    match request_id with
    | Some r => Some r
    | None => extract_request_id_from_url svc signed_url
    end in
  match request_id with
  | None =>
      raise (mk_exn HTTPException "Request ID missing from RD response.")
  | Some request_id =>
      rd_data <- get_rd_result svc request_id ;;
      summary <- lift (py_get rd_data "resultsSummary" (JDict [])) ;;
      md <- lift (py_get summary "metadata" (JDict [])) ;;
      let metadata := if truthy md then md else JDict [] in
      final_score <- lift (py_get metadata "finalScore" (JFloat 0)) ;;
      tamper_pct <- lift (py_float lib final_score) ;;
      explanation <- generate_explanation svc file_path tamper_pct ;;
      let authenticity_score :=
        clamp01 (float_div (float_sub 100 tamper_pct) 100) in
      ret (JDict [("verdict", JStr (verdict_of tamper_pct));
                  ("authenticity_score", JFloat (round2 authenticity_score));
                  ("tamperingPercentage", JFloat tamper_pct);
                  ("explanation", JStr explanation);
                  ("rd_raw", rd_data)])
  end.

Definition degraded (verdict explanation rd_error : string) : json :=
  JDict [("verdict", JStr verdict);
         ("authenticity_score", JFloat 0);
         ("tamperingPercentage", JFloat 0);
         ("explanation", JStr explanation);
         ("rd_raw", JDict [("error", JStr rd_error)])].

(** The [except] clauses, in the order of the source. *)
Definition on_error (e : exn) : json :=
  match exn_cls e with
  | Timeout =>
      degraded "Unknown"
        "Image analysis service (Reality Defender) timed out. Please retry after some time."
        "RD timeout"
  | HTTPException =>
      degraded "Error" ("Image analysis failed: " ++ exn_str e) (exn_str e)
  | RequestException =>
      degraded "Error"
        ("Network error while calling Reality Defender: " ++ exn_str e)
        (exn_str e)
  | _ =>
      degraded "Error"
        ("Unexpected error in image analysis: " ++ exn_str e) (exn_str e)
  end.

Definition analyze_image_with_rd_and_gemini (file_path : string)
  : M World json :=
  try_except (analysis file_path) (fun e => ret (on_error e)).

End Agent.
End ImageAgent.

(** ** The audio agent ([audio_agent.py]) *)

Module AudioAgent.
Section Agent.
Context {World Frame : Type}.
Variable cfg : Config.
Variable lib : PyLib.
Variable svc : Services World Frame.
Local Open Scope py_scope.

Definition key_not_found : exn :=
  mk_exn ValueError
         ("AssemblyAI API key not found. Set the ASSEMBLYAI_API_KEY "
          ++ "environment variable or pass api_key argument to "
          ++ "analyze_audio_file().").

Definition _get_api_key (provided_key : option string) : result string :=
  match or_else provided_key (ASSEMBLYAI_API_KEY cfg) with
  | Some key =>
      if String.eqb key ""
      then Raise key_not_found
      else Ok key
  | None => Raise key_not_found
  end.

(** [x or []] *)
Definition or_empty_list (v : json) : json :=
  if truthy v then v else JList [].

Definition normalize_transcript_output (transcript_data : dict) : json :=
  let text := PyDict.get_or "text" transcript_data (JStr "") in
  let utterances :=
    or_empty_list (PyDict.get_or "utterances" transcript_data JNull) in
  let sentiment_results :=
    or_empty_list
      (PyDict.get_or "sentiment_analysis_results" transcript_data JNull)
  in
  JDict [("text", text);
         ("utterances", utterances);
         ("sentiment_analysis_results", sentiment_results);
         ("raw", JDict transcript_data)].

Definition default_features : json :=
  JDict [("sentiment_analysis", JBool true);
         ("speaker_labels", JBool true);
         ("punctuate", JBool true);
         ("format_text", JBool true)].

(** There is no [try] in this function: what the remote calls raise
    leaves it. *)
Definition analyze_audio_file (file_path : string) (api_key : option string)
  : M World json :=
  key <- lift (_get_api_key api_key) ;;
  let features := default_features in
  upload_url <- upload_file_to_assemblyai svc file_path key ;;
  transcript_initial <-
    request_transcription_from_assemblyai svc upload_url key features ;;
  transcript_id <- lift (py_get transcript_initial "id" JNull) ;;
  if negb (truthy transcript_id)
  then raise (mk_exn AssemblyAIError
                ("Transcription request returned no id: "
                 ++ py_str lib transcript_initial))
  else
    transcript_final <- poll_transcript_status svc transcript_id key ;;
    let normalized := normalize_transcript_output transcript_final in
    ret (JDict [("fileName", JStr (PyStr.basename file_path));
                ("transcript_id", transcript_id);
                ("transcript", normalized);
                ("status",
                 PyDict.get_or "status" transcript_final (JStr "unknown"))]).

End Agent.
End AudioAgent.

(** ** The document agent ([doc_misinfo_agent.py]) *)

Module DocAgent.
Section Agent.
Context {World Frame : Type}.
Variable cfg : Config.
Variable lib : PyLib.
Variable svc : Services World Frame.
Local Open Scope py_scope.

Definition read_pdf (path : string) : M World string :=
  try_except (pdf_pages_text svc path) (fun _ => ret "").

Definition read_docx (path : string) : M World string :=
  try_except (docx_paragraphs_text svc path) (fun _ => ret "").

Definition file_block (filepath content : string) : string :=
  nl ++ "--- START OF FILE: " ++ PyStr.basename filepath ++ " ---" ++ nl
     ++ content
     ++ nl ++ "--- END OF FILE: " ++ PyStr.basename filepath ++ " ---" ++ nl.

(** One turn of the [for] loop: a file that cannot be read, or whose name
    ends in none of the three suffixes, leaves [full_text] as it was. *)
Definition read_one (full_text filepath : string) : M World string :=
  try_except
    (if PyStr.endswith filepath ".txt" then
       content <- read_txt svc filepath ;;
       ret (full_text ++ file_block filepath content)
     else if PyStr.endswith filepath ".pdf" then
       content <- read_pdf filepath ;;
       ret (full_text ++ file_block filepath content)
     else if PyStr.endswith filepath ".docx" then
       content <- read_docx filepath ;;
       ret (full_text ++ file_block filepath content)
     else ret full_text)
    (fun _ => ret full_text).

Fixpoint read_files_loop (paths_list : list string) (full_text : string)
  : M World string :=
  match paths_list with
  | [] => ret full_text
  | filepath :: rest =>
      full_text' <- read_one full_text filepath ;;
      read_files_loop rest full_text'
  end.

Definition read_files_from_paths (filepaths : list string) : M World string :=
  read_files_loop filepaths "".

Definition _init_gemini : result unit :=
  if is_set (GEMINI_API_KEY cfg) then Ok tt
  else Raise (mk_exn ValueError
                "GEMINI_API_KEY environment variable not set.").

Definition empty_structure : json :=
  JDict [("misinformationAnalysis",
          JDict [("dangerScore", JInt 0);
                 ("flags", JList []);
                 ("explanation", JStr "No text content found.")]);
         ("summary", JStr "Empty file.");
         ("finalReport",
          JDict [("findings", JStr "No content.");
                 ("recommendations", JStr "Check file input.")])].

(** The "robust fallback" of the [except] clause. *)
Definition fallback (e : exn) : json :=
  JDict [("misinformationAnalysis",
          JDict [("dangerScore", JInt 50);
                 ("flags",
                  JList [JDict [("claim", JStr "Analysis Error");
                                ("reasoning", JStr (exn_str e))]]);
                 ("explanation",
                  JStr "AI Analysis failed to process this file.")]);
         ("summary", JStr "Error during analysis.");
         ("finalReport",
          JDict [("findings", JStr "System Error.");
                 ("recommendations", JStr "Retry analysis.")])].

(** The body of the [try] block: the call, the parse and the sanity
    check that reads [dangerScore]. *)
Definition scoring (text_content : string) : M World json :=
  response_text <- doc_generate_content svc text_content ;;
  result_json <- lift (json_loads lib response_text) ;;
  analysis <- lift (py_get result_json "misinformationAnalysis" (JDict [])) ;;
  score <- lift (py_get analysis "dangerScore" (JInt 0)) ;;
  ret result_json.

Definition run_gemini_analysis (text_content : string) : M World json :=
  lift _init_gemini ;;;
  if negb (PyStr.strip_nonempty text_content) then ret empty_structure
  else try_except (scoring text_content) (fun e => ret (fallback e)).

End Agent.
End DocAgent.

(** ** The video agent ([video_agent.py]) *)

Module VideoAgent.
Section Agent.
Context {World Frame : Type}.
Variable lib : PyLib.
Variable svc : Services World Frame.
Local Open Scope py_scope.

Definition metadata_of (cap : Capture Frame) : json :=
  let fps := cap_fps cap in
  let frame_count := py_int (cap_frame_count cap) in
  let width := py_int (cap_width cap) in
  let height := py_int (cap_height cap) in
  let duration :=
    if Qlt_le_dec 0 fps
    then JFloat (float_div (nearest_double (inject_Z frame_count)) fps)
    else JInt 0
  in
  JDict [("duration_sec", py_round2 duration);
         ("resolution", JStr (int_repr width ++ "x" ++ int_repr height));
         ("fps", JFloat (round2 fps));
         ("total_frames", JInt frame_count)].

Definition extract_basic_metadata (video_path : string) : M World json :=
  try_except
    (cap <- cv2_VideoCapture svc video_path ;;
     match cap with
     | None => ret (JDict [("error", JStr "Could not open video file.")])
     | Some cap => ret (metadata_of cap)
     end)
    (fun e => ret (JDict [("error", JStr (exn_str e))])).

(** The counters of the sampling loop. *)
Record scan : Type := {
  total_analyzed : Z;
  fake_frames : Z;
  highest_fake_score : json;
  frame_idx : Z
}.

Definition scan_start : scan :=
  {| total_analyzed := 0; fake_frames := 0;
     highest_fake_score := JFloat 0; frame_idx := 0 |}.

(** The per-frame [try] block, first half: the snapshot is written, the
    image agent analyses it and the score is read off its report. *)
Definition frame_tamper_score (temp_img : string) (frame : Frame)
  : M World json :=
  cv2_imwrite svc temp_img frame ;;;
  result <- ImageAgent.analyze_image_with_rd_and_gemini lib svc temp_img ;;
  lift (py_get result "tamperingPercentage" (JFloat 0)).

(** Second half: the two comparisons and the counters.  A score that is
    not a number makes the first comparison raise, before any counter has
    changed. *)
Definition count_frame (tamper_score : json) (st : scan) : result scan :=
  match as_number tamper_score, as_number (highest_fake_score st) with
  | Ok score, Ok highest =>
      Ok {| total_analyzed := total_analyzed st + 1;
            fake_frames :=
              if Qlt_le_dec 60 score then fake_frames st + 1
              else fake_frames st;
            highest_fake_score :=
              if Qlt_le_dec highest score then tamper_score
              else highest_fake_score st;
            frame_idx := frame_idx st |}
  | Raise e, _ => Raise e
  | _, Raise e => Raise e
  end.

Definition analyze_frame (temp_img : string) (frame : Frame) (st : scan)
  : M World scan :=
  tamper_score <- frame_tamper_score temp_img frame ;;
  lift (count_frame tamper_score st).

Definition next_frame (st : scan) : scan :=
  {| total_analyzed := total_analyzed st;
     fake_frames := fake_frames st;
     highest_fake_score := highest_fake_score st;
     frame_idx := frame_idx st + 1 |}.

(** One turn of the [while] loop for a frame that was read.  The test
    [frame_idx % frame_interval] is outside the [try]. *)
Definition scan_frame (frame_interval : Z) (temp_img : string)
           (frame : Frame) (st : scan) : M World scan :=
  if (frame_interval =? 0)%Z
  then raise (mk_exn ZeroDivisionError "integer modulo by zero")
  else
    st' <- (if (frame_idx st mod frame_interval =? 0)%Z
            then try_except (analyze_frame temp_img frame st)
                            (fun _ => ret st)
            else ret st) ;;
    ret (next_frame st').

Fixpoint scan_frames (frame_interval : Z) (temp_img : string)
         (frames : list Frame) (st : scan) : M World scan :=
  match frames with
  | [] => ret st
  | frame :: rest =>
      st' <- scan_frame frame_interval temp_img frame st ;;
      scan_frames frame_interval temp_img rest st'
  end.

Definition fake_ratio_of (st : scan) : json :=
  if (0 <? total_analyzed st)%Z
  then JFloat (float_mul
                 (float_div (inject_Z (fake_frames st))
                            (inject_Z (total_analyzed st))) 100)
  else JInt 0.

Definition analyze_video_frames (video_path : string) : M World json :=
  cap <- cv2_VideoCapture svc video_path ;;
  match cap with
  | None => ret (JDict [("error", JStr "Could not open video file")])
  | Some cap =>
      let fps := if Qlt_le_dec 0 (cap_fps cap) then cap_fps cap else 30 in
      let frame_interval := py_int (fps * 2) in
      let temp_img := video_path ++ "_temp.jpg" in
      st <- scan_frames frame_interval temp_img (cap_frames cap) scan_start ;;
      (fun w => (Ok tt, remove_if_exists svc temp_img w)) ;;;
      let fake_ratio := fake_ratio_of st in
      ret (JDict [("frames_analyzed", JInt (total_analyzed st));
                  ("fake_frames_count", JInt (fake_frames st));
                  ("fake_ratio_percent", py_round2 fake_ratio);
                  ("max_fake_score", py_round2 (highest_fake_score st));
                  ("analysis_strategy",
                   JStr "Full Timeline (1 frame / 2s)")])
  end.

Definition run_video_forensics (video_path : string) : M World json :=
  meta <- extract_basic_metadata video_path ;;
  visuals <- analyze_video_frames video_path ;;
  count <- lift (py_get visuals "fake_frames_count" (JInt 0)) ;;
  count <- lift (as_number count) ;;
  let verdict :=
    if Qlt_le_dec 0 count then "Tampering Detected" else "Likely Original"
  in
  max_score <- lift (py_get visuals "max_fake_score" (JInt 0)) ;;
  max_score <- lift (as_number max_score) ;;
  ret (JDict [("verdict", JStr verdict);
              ("authenticity_score",
               JFloat (float_div (float_sub 100 max_score) 100));
              ("metadata", meta);
              ("visual_analysis", visuals)]).

End Agent.
End VideoAgent.

(** ** [dict.update] with a parsed value

    [results.update(meta_output)] receives whatever the parser returned.  A
    dict is merged key by key; any other value is read as a sequence of
    two-element sequences.  A pair whose key is not a string is accepted by
    [update] itself, but the bundle then holds keys of two types and the
    sort inside [json.dumps(..., sort_keys=True)] raises [TypeError] on the
    next line: the model raises at the merge. *)

Definition update_pair (x : json) : result (string * json) :=
  match x with
  | JList [JStr k; v] => Ok (k, v)
  | JList [_; _] =>
      Raise (mk_exn TypeError
               "'<' not supported between instances of two key types")
  | JDict [(k1, _); (k2, _)] => Ok (k1, JStr k2)
  | JStr (String c1 (String c2 EmptyString)) =>
      Ok (String c1 EmptyString, JStr (String c2 EmptyString))
  | JList _ | JDict _ | JStr _ =>
      Raise (mk_exn ValueError
               "dictionary update sequence element has the wrong length")
  | _ =>
      Raise (mk_exn TypeError
               "cannot convert dictionary update sequence element to a sequence")
  end.

Fixpoint update_pairs (d : dict) (xs : list json) : result dict :=
  match xs with
  | [] => Ok d
  | x :: xs' =>
      match update_pair x with
      | Ok (k, v) => update_pairs (PyDict.set k v d) xs'
      | Raise e => Raise e
      end
  end.

Fixpoint chars_of (s : string) : list json :=
  match s with
  | EmptyString => []
  | String c s' => JStr (String c EmptyString) :: chars_of s'
  end.

Definition py_update (d : dict) (m : json) : result dict :=
  match m with
  | JDict kvs => Ok (PyDict.update d kvs)
  | JList xs => update_pairs d xs
  | JStr s => update_pairs d (chars_of s)
  | _ => Raise (mk_exn TypeError "object is not iterable")
  end.

(** ** The orchestrator ([meta_agent.py]) *)

Module MetaAgent.

(** The [buckets] dict of [meta_process]: one list of paths per key. *)
Record Buckets : Type := {
  images : list string;
  audio : list string;
  documents : list string;
  video : list string;
  unsupported : list string
}.

Definition empty_buckets : Buckets :=
  {| images := []; audio := []; documents := []; video := [];
     unsupported := [] |}.

(** [p.rsplit(".", 1)[-1].lower() if "." in p else ""] *)
Definition extension (p : string) : string :=
  match PyStr.after_last "." p with
  | Some e => PyStr.lower e
  | None => ""
  end.

(** The category a path is filed under. *)
Definition category_of (p : string) : string :=
  let ext := extension p in
  if PyStr.mem ext ["png"; "jpg"; "jpeg"; "gif"] then "images"
  else if PyStr.mem ext ["mp4"; "mov"; "avi"; "mkv"] then "video"
  else if PyStr.mem ext ["mp3"; "wav"; "m4a"] then "audio"
  else if PyStr.mem ext ["txt"; "pdf"; "docx"] then "documents"
  else "unsupported".

(** One turn of the classification loop: [buckets[...].append(p)]. *)
Definition file_into (b : Buckets) (p : string) : Buckets :=
  let ext := extension p in
  if PyStr.mem ext ["png"; "jpg"; "jpeg"; "gif"] then
    {| images := images b ++ [p]; audio := audio b;
       documents := documents b; video := video b;
       unsupported := unsupported b |}
  else if PyStr.mem ext ["mp4"; "mov"; "avi"; "mkv"] then
    {| images := images b; audio := audio b;
       documents := documents b; video := video b ++ [p];
       unsupported := unsupported b |}
  else if PyStr.mem ext ["mp3"; "wav"; "m4a"] then
    {| images := images b; audio := audio b ++ [p];
       documents := documents b; video := video b;
       unsupported := unsupported b |}
  else if PyStr.mem ext ["txt"; "pdf"; "docx"] then
    {| images := images b; audio := audio b;
       documents := documents b ++ [p]; video := video b;
       unsupported := unsupported b |}
  else
    {| images := images b; audio := audio b;
       documents := documents b; video := video b;
       unsupported := unsupported b ++ [p] |}.

Definition classify (file_paths : list string) : Buckets :=
  fold_left file_into file_paths empty_buckets.

(** [buckets.get(t, [])] *)
Definition bucket (b : Buckets) (t : string) : list string :=
  if String.eqb t "images" then images b
  else if String.eqb t "audio" then audio b
  else if String.eqb t "documents" then documents b
  else if String.eqb t "video" then video b
  else if String.eqb t "unsupported" then unsupported b
  else [].

(** What the dispatch loop accumulates. *)
Record Gathered : Type := {
  results_list : list json;
  aggregate_text_parts : list string;
  file_summaries : list string
}.

Definition nothing_gathered : Gathered :=
  {| results_list := []; aggregate_text_parts := []; file_summaries := [] |}.

Definition evidence_limit : nat := 25000.

(** [json.dumps(file_summaries, indent=2)] for a list of strings *)
Definition dumps_indent2 (l : list string) : string :=
  match l with
  | [] => "[]"
  | _ => "[" ++ nl ++ "  "
             ++ String.concat ("," ++ nl ++ "  ") (map Json.encode_str l)
             ++ nl ++ "]"
  end.

Definition format_instructions (user_instructions : option string) : string :=
  match user_instructions with
  | Some s => s
  | None => "None"
  end.

(** The prompt up to and including the [EVIDENCE:] label, and after the
    evidence. *)
Definition prompt_head (user_instructions : option string)
           (file_summaries : list string) : string :=
  nl ++ "    You are the 'Meta-Investigator' AI."
     ++ nl ++ "    USER INSTRUCTIONS: "
     ++ format_instructions user_instructions
     ++ nl ++ "    FILE SUMMARIES: " ++ dumps_indent2 file_summaries
     ++ nl ++ "    EVIDENCE: ".

Definition prompt_tail : string := nl ++ "    ".

(** The f-string [context] of [_generate_meta_intelligence]. *)
Definition context_of (aggregate_text : string)
           (user_instructions : option string)
           (file_summaries : list string) : string :=
  prompt_head user_instructions file_summaries
    ++ PyStr.take evidence_limit aggregate_text
    ++ prompt_tail.

Section Agent.
Context {World Frame : Type}.
Variable cfg : Config.
Variable lib : PyLib.
Variable svc : Services World Frame.
Local Open Scope py_scope.

(** [api_keys.get("assemblyai")] *)
Fixpoint keys_get (k : string) (api_keys : list (string * option string))
  : option string :=
  match api_keys with
  | [] => None
  | (k', v) :: rest => if String.eqb k k' then v else keys_get k rest
  end.

(** The body of the [try] block of [_run_pipeline_for_file]. *)
Definition pipeline (file_path ftype : string)
           (api_keys : list (string * option string)) : M World dict :=
  let fname := PyStr.basename file_path in
  if String.eqb ftype "images" then
    if negb (image_agent_loaded cfg)
    then ret [("file", JStr fname); ("error", JStr "Image Agent missing")]
    else
      res <- ImageAgent.analyze_image_with_rd_and_gemini lib svc file_path ;;
      ret [("file", JStr fname); ("type", JStr "image"); ("report", res)]
  else if String.eqb ftype "audio" then
    if negb (audio_agent_loaded cfg)
    then ret [("file", JStr fname); ("error", JStr "Audio Agent missing")]
    else
      let key := or_else (keys_get "assemblyai" api_keys)
                         (ASSEMBLYAI_API_KEY cfg) in
      res <- AudioAgent.analyze_audio_file cfg lib svc file_path key ;;
      ret [("file", JStr fname); ("type", JStr "audio"); ("report", res)]
  else if String.eqb ftype "video" then
    if negb (video_agent_loaded cfg)
    then ret [("file", JStr fname); ("error", JStr "Video Agent missing")]
    else
      res <- VideoAgent.run_video_forensics lib svc file_path ;;
      ret [("file", JStr fname); ("type", JStr "video"); ("report", res)]
  else if String.eqb ftype "documents" then
    if negb (doc_agent_loaded cfg)
    then ret [("file", JStr fname); ("error", JStr "Doc Agent missing")]
    else
      text <- DocAgent.read_files_from_paths svc [file_path] ;;
      res <- DocAgent.run_gemini_analysis cfg lib svc text ;;
      ret [("file", JStr fname); ("type", JStr "document");
           ("report", res); ("text", JStr text)]
  else ret [("file", JStr fname); ("type", JStr "unsupported")].

(** The [except Exception as e] clause. *)
Definition failed_item (file_path ftype : string) (e : exn) : dict :=
  [("file", JStr (PyStr.basename file_path));
   ("type", JStr ftype);
   ("error", JStr (exn_str e))].

Definition _run_pipeline_for_file (file_path ftype : string)
           (api_keys : list (string * option string)) : M World dict :=
  try_except (pipeline file_path ftype api_keys)
             (fun e => ret (failed_item file_path ftype e)).

(** Lines 126-135: what one item adds to the evidence text and to the
    summaries. *)
Definition gather (t fname : string) (item : dict) (g : Gathered)
  : M World Gathered :=
  if String.eqb t "documents" && PyDict.mem "text" item then
    let block := "--- DOCUMENT: " ++ fname ++ " ---" ++ nl
                   ++ py_str lib (PyDict.get_or "text" item JNull) ++ nl in
    analysis <- lift (py_get (PyDict.get_or "report" item (JDict []))
                             "misinformationAnalysis" (JDict [])) ;;
    danger <- lift (py_get analysis "dangerScore" (JInt 0)) ;;
    ret {| results_list := results_list g;
           aggregate_text_parts := aggregate_text_parts g ++ [block];
           file_summaries :=
             file_summaries g
               ++ [fname ++ ": DANGER SCORE " ++ py_str lib danger
                         ++ "/100."] |}
  else if String.eqb t "audio" && PyDict.mem "report" item then
    tr <- lift (py_get (PyDict.get_or "report" item JNull)
                       "transcript" (JDict [])) ;;
    transcript <- lift (py_get tr "text" (JStr "")) ;;
    ret {| results_list := results_list g;
           aggregate_text_parts :=
             if truthy transcript
             then aggregate_text_parts g
                    ++ ["--- AUDIO: " ++ fname ++ " ---" ++ nl
                          ++ py_str lib transcript ++ nl]
             else aggregate_text_parts g;
           file_summaries := file_summaries g |}
  else if String.eqb t "video" && PyDict.mem "report" item then
    va <- lift (py_get (PyDict.get_or "report" item JNull)
                       "visual_analysis" (JDict [])) ;;
    fake_ratio <- lift (py_get va "fake_ratio_percent" (JInt 0)) ;;
    ret {| results_list := results_list g;
           aggregate_text_parts := aggregate_text_parts g;
           file_summaries :=
             file_summaries g
               ++ [fname ++ ": Video Fake Ratio: " ++ py_str lib fake_ratio
                         ++ "%"] |}
  else ret g.

Definition append_result (item : dict) (g : Gathered) : Gathered :=
  {| results_list := results_list g ++ [JDict item];
     aggregate_text_parts := aggregate_text_parts g;
     file_summaries := file_summaries g |}.

(** The inner loop: the files of one category, in the order supplied. *)
Fixpoint dispatch_files (t : string) (files : list string)
         (api_keys : list (string * option string)) (g : Gathered)
  : M World Gathered :=
  match files with
  | [] => ret g
  | f :: rest =>
      item <- _run_pipeline_for_file f t api_keys ;;
      g' <- gather t (PyStr.basename f) item (append_result item g) ;;
      dispatch_files t rest api_keys g'
  end.

(** The outer loop: the categories in priority order. *)
Fixpoint dispatch (ordered_types : list string) (buckets : Buckets)
         (api_keys : list (string * option string)) (g : Gathered)
  : M World Gathered :=
  match ordered_types with
  | [] => ret g
  | t :: rest =>
      g' <- dispatch_files t (bucket buckets t) api_keys g ;;
      dispatch rest buckets api_keys g'
  end.

Definition key_missing_report : json :=
  JDict [("final_summary", JStr "AI key missing.");
         ("entities", JList []);
         ("relations", JList [])].

Definition unparsed_report (response_text : string) : json :=
  JDict [("final_summary", JStr (PyStr.take 500 response_text));
         ("entities", JList []);
         ("relations", JList [])].

Definition _generate_meta_intelligence (aggregate_text : string)
           (user_instructions : option string)
           (file_summaries : list string) : M World json :=
  if negb (is_set (GEMINI_API_KEY cfg)) then ret key_missing_report
  else
    let context :=
      context_of aggregate_text user_instructions file_summaries in
    response_text <- meta_generate_content svc context ;;
    match json_loads lib response_text with
    | Ok v => ret v
    | Raise e =>
        match exn_cls e with
        | JSONDecodeError => ret (unparsed_report response_text)
        | _ => raise e
        end
    end.

(** Lines 104-141: everything up to and including the merge of the meta
    report into the bundle. *)
Definition assemble (session_id : string) (file_paths : list string)
           (user_instructions : option string)
           (api_keys : option (list (string * option string)))
  : M World dict :=
  let api_keys := match api_keys with Some k => k | None => [] end in
  let ordered_types := _parse_priority_from_instructions user_instructions in
  let buckets := classify file_paths in
  g <- dispatch ordered_types buckets api_keys nothing_gathered ;;
  let full_text := String.concat nl (aggregate_text_parts g) in
  meta_output <-
    _generate_meta_intelligence full_text user_instructions
                                (file_summaries g) ;;
  lift (py_update [("session_id", JStr session_id);
                   ("results", JList (results_list g))]
                  meta_output).

(** Lines 142-146: the hash, then the ledger receipt. *)
Definition stamp (results : dict) : M World dict :=
  let proof_hash := _make_hash lib (JDict results) in
  let results := PyDict.set "proof_hash" (JStr proof_hash) results in
  if ledger_loaded cfg then
    try_except
      (tx <- log_verification_hash svc ("0x" ++ proof_hash) ;;
       ret (PyDict.set "blockchain_tx" tx results))
      (fun e =>
         ret (PyDict.set "blockchain_tx"
                         (JDict [("error", JStr (exn_str e))]) results))
  else ret results.

Definition meta_process (session_id : string) (file_paths : list string)
           (user_instructions : option string)
           (api_keys : option (list (string * option string)))
  : M World dict :=
  results <- assemble session_id file_paths user_instructions api_keys ;;
  stamp results.

End Agent.
End MetaAgent.

(** ** Definitions used to state the properties *)

(** The sixteen outcomes of the four keyword tests. *)
Definition order_for (a i v d : bool) : list string :=
  fold_left (fun buckets t =>
               append_if (negb (PyStr.mem t buckets)) t buckets)
            fallback_order
            (append_if d "documents"
               (append_if v "video"
                  (append_if i "images" (append_if a "audio" [])))).


(** Two values with the same content: equal up to the order in which the
    items of each dict, at any depth, were inserted. *)
Inductive same_content : json -> json -> Prop :=
| same_value (j : json) : same_content j j
| same_list (l l' : list json) :
    Forall2 same_content l l' -> same_content (JList l) (JList l')
| same_dict (d d1 d' : dict) :
    Permutation d d1 ->
    Forall2 (fun kv kv' =>
               fst kv = fst kv' /\ same_content (snd kv) (snd kv')) d1 d' ->
    same_content (JDict d) (JDict d').

(** A value Python can hold: no dict, at any depth, has a key twice. *)
Inductive distinct_keys : json -> Prop :=
| dk_null : distinct_keys JNull
| dk_bool (b : bool) : distinct_keys (JBool b)
| dk_int (z : Z) : distinct_keys (JInt z)
| dk_float (q : Q) : distinct_keys (JFloat q)
| dk_str (s : string) : distinct_keys (JStr s)
| dk_list (l : list json) :
    Forall distinct_keys l -> distinct_keys (JList l)
| dk_dict (d : dict) :
    NoDup (map fst d) ->
    Forall (fun kv => distinct_keys (snd kv)) d ->
    distinct_keys (JDict d).

(** The order of the keys in the output of [Json.dumps]. *)
Definition key_le {A : Type} (x y : string * A) : Prop :=
  String.leb (fst x) (fst y) = true.

(** The same services with another ledger. *)
Definition with_ledger {World Frame : Type} (svc : Services World Frame)
           (ledger : string -> M World json) : Services World Frame :=
  {| request_presigned_url := request_presigned_url svc;
     upload_file_to_signed_url := upload_file_to_signed_url svc;
     extract_request_id_from_url := extract_request_id_from_url svc;
     get_rd_result := get_rd_result svc;
     generate_explanation := generate_explanation svc;
     upload_file_to_assemblyai := upload_file_to_assemblyai svc;
     request_transcription_from_assemblyai :=
       request_transcription_from_assemblyai svc;
     poll_transcript_status := poll_transcript_status svc;
     read_txt := read_txt svc;
     pdf_pages_text := pdf_pages_text svc;
     docx_paragraphs_text := docx_paragraphs_text svc;
     doc_generate_content := doc_generate_content svc;
     cv2_VideoCapture := cv2_VideoCapture svc;
     cv2_imwrite := cv2_imwrite svc;
     remove_if_exists := remove_if_exists svc;
     meta_generate_content := meta_generate_content svc;
     log_verification_hash := ledger |}.

(** *** Reading the scheduler's output *)

(** The [file] field of an entry of [results]. *)
Definition file_name (entry : json) : option string :=
  match entry with
  | JDict d => match PyDict.get "file" d with
               | Some (JStr s) => Some s
               | _ => None
               end
  | _ => None
  end.

(** An entry with [error] populated; a normal entry carries a [report] and
    no [error]. *)
Definition has_error (entry : json) : bool :=
  match entry with
  | JDict d => PyDict.mem "error" d
  | _ => false
  end.

Definition is_normal (entry : json) : bool :=
  match entry with
  | JDict d => PyDict.mem "report" d && negb (PyDict.mem "error" d)
  | _ => false
  end.

(** The files of one category, in the order supplied. *)
Definition files_of (file_paths : list string) (t : string) : list string :=
  filter (fun p => String.eqb (MetaAgent.category_of p) t) file_paths.

(** A classified file is one that is not unsupported. *)
Definition classified (p : string) : bool :=
  negb (String.eqb (MetaAgent.category_of p) "unsupported").

(** The (file, category) pairs in the order the scheduler visits them. *)
Definition jobs_of (ordered_types : list string) (buckets : MetaAgent.Buckets)
  : list (string * string) :=
  flat_map (fun t => map (fun f => (f, t)) (MetaAgent.bucket buckets t))
           ordered_types.

(** Whether the agent a category needs was importable. *)
Definition agent_loaded (cfg : Config) (t : string) : bool :=
  if String.eqb t "images" then image_agent_loaded cfg
  else if String.eqb t "audio" then audio_agent_loaded cfg
  else if String.eqb t "video" then video_agent_loaded cfg
  else if String.eqb t "documents" then doc_agent_loaded cfg
  else false.

(** A category whose agent was not importable: [_run_pipeline_for_file]
    then returns the entry [{file, error}] without calling anything. *)
Definition agent_missing (cfg : Config) (t : string) : bool :=
  if String.eqb t "images" then negb (image_agent_loaded cfg)
  else if String.eqb t "audio" then negb (audio_agent_loaded cfg)
  else if String.eqb t "video" then negb (video_agent_loaded cfg)
  else if String.eqb t "documents" then negb (doc_agent_loaded cfg)
  else false.

Definition raised {A : Type} (r : result A) : bool :=
  match r with Ok _ => false | Raise _ => true end.

(** The keys [py_update] writes when it is given [m]. *)
Definition update_keys (m : json) : list string :=
  let pair_key x := match update_pair x with
                    | Ok (k, _) => [k]
                    | Raise _ => []
                    end in
  match m with
  | JDict kvs => PyDict.keys kvs
  | JList xs => flat_map pair_key xs
  | JStr s => flat_map pair_key (chars_of s)
  | _ => []
  end.

Section Observed.
Context {World Frame : Type}.
Variable cfg : Config.
Variable lib : PyLib.
Variable svc : Services World Frame.

(** What the body of the [try] block of [_run_pipeline_for_file] does for
    each job in turn, each call starting in the world the one before left:
    the outcomes, and the world after the last. *)
Fixpoint outcomes (jobs : list (string * string))
         (api_keys : list (string * option string)) (w : World)
  : list (result dict) :=
  match jobs with
  | [] => []
  | (f, t) :: rest =>
      let (r, w') := MetaAgent.pipeline cfg lib svc f t api_keys w in
      r :: outcomes rest api_keys w'
  end.

Fixpoint world_after (jobs : list (string * string))
         (api_keys : list (string * option string)) (w : World) : World :=
  match jobs with
  | [] => w
  | (f, t) :: rest =>
      world_after rest api_keys
                  (snd (MetaAgent.pipeline cfg lib svc f t api_keys w))
  end.

(** The entry the scheduler files for a job, given what its call did. *)
Definition entry_of (job : string * string) (r : result dict) : json :=
  match r with
  | Ok item => JDict item
  | Raise e => JDict (MetaAgent.failed_item (fst job) (snd job) e)
  end.

Definition entries (jobs : list (string * string))
           (api_keys : list (string * option string)) (w : World)
  : list json :=
  map (fun jr => entry_of (fst jr) (snd jr))
      (combine jobs (outcomes jobs api_keys w)).

(** The tampering scores of the frames the sampling loop analyses
    successfully, in order: each sampled frame is scored in the world the
    one before left, and a frame whose scoring raises, or whose score is
    not a number, is left out. *)
Fixpoint observed_scores (frame_interval : Z) (temp_img : string)
         (frames : list Frame) (idx : Z) (w : World) : list Q :=
  match frames with
  | [] => []
  | frame :: rest =>
      if (idx mod frame_interval =? 0)%Z then
        let (r, w') := VideoAgent.frame_tamper_score lib svc temp_img frame w in
        match r with
        | Ok v => match as_number v with
                  | Ok q => q :: observed_scores frame_interval temp_img rest
                                                 (idx + 1) w'
                  | Raise _ => observed_scores frame_interval temp_img rest
                                               (idx + 1) w'
                  end
        | Raise _ => observed_scores frame_interval temp_img rest (idx + 1) w'
        end
      else observed_scores frame_interval temp_img rest (idx + 1) w
  end.

End Observed.

(** The number of scores above the 60 % threshold, and the highest score
    (the loop starts from 0.0). *)
Definition count_over_60 (scores : list Q) : Z :=
  Z.of_nat (List.length (filter (fun q => if Qlt_le_dec 60 q then true else false)
                                scores)).

Definition highest_score (scores : list Q) : Q :=
  fold_left (fun h q => if Qlt_le_dec h q then q else h) scores 0.

(** The counters after the loop has gone over [n] frames and analysed
    those with the given scores. *)
Definition scan_after (st : VideoAgent.scan) (scores : list Q) (n : nat)
  : VideoAgent.scan :=
  {| VideoAgent.total_analyzed :=
       VideoAgent.total_analyzed st + Z.of_nat (List.length scores);
     VideoAgent.fake_frames :=
       VideoAgent.fake_frames st + count_over_60 scores;
     VideoAgent.highest_fake_score :=
       JFloat (fold_left (fun h q => if Qlt_le_dec h q then q else h) scores
                         match VideoAgent.highest_fake_score st with
                         | JFloat h => h
                         | _ => 0
                         end);
     VideoAgent.frame_idx := VideoAgent.frame_idx st + Z.of_nat n |}.

(** Fields of the report of [run_video_forensics]. *)
Definition verdict_of_report (report : json) : option string :=
  match report with
  | JDict d => match PyDict.get "verdict" d with
               | Some (JStr s) => Some s
               | _ => None
               end
  | _ => None
  end.

Definition authenticity_of_report (report : json) : option Q :=
  match report with
  | JDict d => match PyDict.get "authenticity_score" d with
               | Some (JFloat q) => Some q
               | _ => None
               end
  | _ => None
  end.

(** Fields of a document report. *)
Definition danger_score_of (report : json) : option json :=
  match report with
  | JDict d => match PyDict.get "misinformationAnalysis" d with
               | Some (JDict a) => PyDict.get "dangerScore" a
               | _ => None
               end
  | _ => None
  end.

Definition flags_of (report : json) : option json :=
  match report with
  | JDict d => match PyDict.get "misinformationAnalysis" d with
               | Some (JDict a) => PyDict.get "flags" a
               | _ => None
               end
  | _ => None
  end.

(** The [rd_raw.error] field of an image report. *)
Definition rd_error_of (report : json) : option json :=
  match report with
  | JDict d => match PyDict.get "rd_raw" d with
               | Some (JDict a) => PyDict.get "error" a
               | _ => None
               end
  | _ => None
  end.

(** ** Stand-ins used to run the program on concrete inputs

    A world that only counts the calls made, a library whose digest returns
    the text itself, and services that answer every call successfully; the
    examples below override one service at a time. *)

Module Fixture.

Definition World : Type := nat.
Definition Frame : Type := Q.

Definition tick {A : Type} (a : A) : M World A := fun w => (Ok a, S w).
Definition fail {A : Type} (c : exn_class) (msg : string) : M World A :=
  fun w => (Raise (mk_exn c msg), S w).

(** The text of a meta report that carries a [results] field of its own. *)
Definition report_with_results : string :=
  "{" ++ Json.quote ++ "results" ++ Json.quote ++ ": []}".

(** The text of a meta report that carries a [blockchain_tx] field. *)
Definition report_with_receipt : string :=
  "{" ++ Json.quote ++ "blockchain_tx" ++ Json.quote ++ ": "
      ++ Json.quote ++ "0xforged" ++ Json.quote ++ "}".

Definition lib : PyLib :=
  {| sha256_hexdigest := fun s => s;
     float_repr := fun q => int_repr (Qnum q) ++ "/"
                              ++ int_repr (Zpos (Qden q));
     float_of_str := fun _ => None;
     json_loads := fun s =>
       if String.eqb s "{}" then Ok (JDict [])
       else if String.eqb s report_with_results
            then Ok (JDict [("results", JList [])])
            else if String.eqb s report_with_receipt
                 then Ok (JDict [("blockchain_tx", JStr "0xforged")])
                 else Raise (mk_exn JSONDecodeError "Expecting value");
     container_repr := fun _ => "<container>" |}.

Definition cfg : Config :=
  {| GEMINI_API_KEY := Some "g-key";
     ASSEMBLYAI_API_KEY := Some "a-key";
     image_agent_loaded := true;
     audio_agent_loaded := true;
     doc_agent_loaded := true;
     video_agent_loaded := true;
     ledger_loaded := true |}.

(** OpenCV is not installed: importing the video agent raised
    [ImportError] and the orchestrator runs without it. *)
Definition cfg_no_opencv : Config :=
  {| GEMINI_API_KEY := Some "g-key";
     ASSEMBLYAI_API_KEY := Some "a-key";
     image_agent_loaded := true;
     audio_agent_loaded := true;
     doc_agent_loaded := true;
     video_agent_loaded := false;
     ledger_loaded := true |}.

(** Reality Defender's answer for a media item with the given score. *)
Definition rd_answer (final_score : Q) : json :=
  JDict [("resultsSummary",
          JDict [("status", JStr "AUTHENTIC");
                 ("metadata", JDict [("finalScore", JFloat final_score)])])].

(** A video of [frames] at [fps] frames per second; a frame is the score
    Reality Defender will give its snapshot. *)
Definition clip (fps : Q) (frames : list Frame) : Capture Frame :=
  {| cap_fps := fps;
     cap_frame_count := inject_Z (Z.of_nat (List.length frames));
     cap_width := 640; cap_height := 480;
     cap_frames := frames |}.

(** The services, with the calls the examples vary left open. *)
Definition services_with
           (rd_result : string -> M World json)
           (upload_audio : string -> string -> M World string)
           (doc_model : string -> M World string)
           (capture : string -> M World (option (Capture Frame)))
           (meta_model : string -> M World string)
           (ledger : string -> M World json)
  : Services World Frame :=
  {| request_presigned_url :=
       fun name => tick ("https://rd/" ++ name, Some "r1");
     upload_file_to_signed_url := fun _ _ => tick tt;
     extract_request_id_from_url := fun _ => None;
     get_rd_result := rd_result;
     generate_explanation := fun _ _ => tick "looks original";
     upload_file_to_assemblyai := upload_audio;
     request_transcription_from_assemblyai :=
       fun _ _ _ => tick (JDict [("id", JStr "t1")]);
     poll_transcript_status :=
       fun _ _ => tick [("status", JStr "completed"); ("text", JStr "hello")];
     read_txt := fun _ => tick "some text";
     pdf_pages_text := fun _ => tick "pdf text";
     docx_paragraphs_text := fun _ => tick "docx text";
     doc_generate_content := doc_model;
     cv2_VideoCapture := capture;
     cv2_imwrite := fun _ _ => tick tt;
     remove_if_exists := fun _ w => w;
     meta_generate_content := meta_model;
     log_verification_hash := ledger |}.

Definition rd_ok : string -> M World json := fun _ => tick (rd_answer 10).
Definition upload_ok : string -> string -> M World string :=
  fun _ _ => tick "https://aai/upload/1".
Definition model_ok : string -> M World string := fun _ => tick "{}".
Definition capture_ok : string -> M World (option (Capture Frame)) :=
  fun _ => tick (Some (clip 30 [10])).
Definition ledger_ok : string -> M World json :=
  fun h => tick (JDict [("tx_hash", JStr "0xabc"); ("proof_hash", JStr h)]).

(** Every call succeeds. *)
Definition svc : Services World Frame :=
  services_with rd_ok upload_ok model_ok capture_ok model_ok ledger_ok.

(** AssemblyAI refuses uploads. *)
Definition svc_audio_down : Services World Frame :=
  services_with rd_ok
                (fun _ _ => fail AssemblyAIError "Upload failed")
                model_ok capture_ok model_ok ledger_ok.

(** The document model answers with text that is not JSON. *)
Definition svc_doc_garbled : Services World Frame :=
  services_with rd_ok upload_ok (fun _ => tick "I cannot help with that")
                capture_ok model_ok ledger_ok.

(** The meta model answers with a report that has a [results] field. *)
Definition svc_meta_overwrites : Services World Frame :=
  services_with rd_ok upload_ok model_ok capture_ok
                (fun _ => tick report_with_results) ledger_ok.



(** Reality Defender scores every snapshot 33.337; the video has one
    frame. *)
Definition svc_score_33337 : Services World Frame :=
  services_with (fun _ => tick (rd_answer (33337 # 1000))) upload_ok model_ok
                (fun _ => tick (Some (clip 30 [33337 # 1000])))
                model_ok ledger_ok.

(** A video that reports a quarter of a frame per second. *)
Definition svc_slow_video : Services World Frame :=
  services_with rd_ok upload_ok model_ok
                (fun _ => tick (Some (clip (1 # 4) [10])))
                model_ok ledger_ok.

(** A video file that opens and holds no frame. *)
Definition svc_empty_video : Services World Frame :=
  services_with rd_ok upload_ok model_ok
                (fun _ => tick (Some (clip 30 [])))
                model_ok ledger_ok.

End Fixture.

(** ** Further definitions used to state properties *)

(** How many of the [n] frame indices from [idx] on are multiples of the
    sampling interval. *)
Fixpoint sampled (frame_interval idx : Z) (n : nat) : nat :=
  match n with
  | O => O
  | S n' => ((if (idx mod frame_interval =? 0)%Z then 1 else 0)
             + sampled frame_interval (idx + 1) n')%nat
  end.

(** ** A helper of the image agent

    [get_mime_type]: the part of the lower-cased path after its last dot
    (the whole path when it has none) decides between the two types. *)
Definition get_mime_type (file_path : string) : string :=
  let lowered := PyStr.lower file_path in
  let ext := match PyStr.after_last "." lowered with
             | Some e => e
             | None => lowered
             end in
  if PyStr.mem ext ["jpg"; "jpeg"] then "image/jpeg" else "image/png".

(** ** The ledger agent ([blockchain_agent.py]) *)

(** The environment variables read when the module is loaded. *)
Record LedgerConfig : Type := {
  RPC : option string;
  PRIVATE_KEY : option string;
  ACCOUNT : option string;
  CONTRACT_ADDRESS : option string;
  CONTRACT_ABI_PATH : option string
}.

(** What the agent uses of [web3]: the two converters are pure and may
    raise; everything else is a call to the node or to the file system.
    [Call] is the prepared contract call [registerProof(data)]. *)
Record Web3 (World Call : Type) : Type := {
  is_connected : M World bool;
  to_checksum_address : string -> result string;
  to_bytes : string -> result string;
  get_transaction_count : string -> M World Z;
  path_exists : string -> M World bool;
  load_abi : string -> M World json;
  register_proof : string -> json -> string -> M World Call;
  gas_price : M World Z;
  build_transaction : Call -> dict -> M World json;
  sign_transaction : json -> string -> M World string;
  send_raw_transaction : string -> M World string;
  chain_id : M World Z
}.
Arguments is_connected {World Call} w.
Arguments to_checksum_address {World Call} w.
Arguments to_bytes {World Call} w.
Arguments get_transaction_count {World Call} w.
Arguments path_exists {World Call} w.
Arguments load_abi {World Call} w.
Arguments register_proof {World Call} w.
Arguments gas_price {World Call} w.
Arguments build_transaction {World Call} w.
Arguments sign_transaction {World Call} w.
Arguments send_raw_transaction {World Call} w.
Arguments chain_id {World Call} w.

(** The string behind an optional setting that is known to be set. *)
Definition setting (o : option string) : string :=
  match o with
  | Some s => s
  | None => ""
  end.

Module BlockchainAgent.
Section Agent.
Context {World Call : Type}.
Variable lib : PyLib.
Variable lcfg : LedgerConfig.
Variable web3 : Web3 World Call.
Local Open Scope py_scope.

Definition create_report_hash (data : json) : string :=
  sha256_hexdigest lib (Json.dumps lib data).

(** The condition of the first [if]: the three settings are tested before
    the node is asked whether it is connected. *)
Definition use_stub : M World bool :=
  if negb (is_set (RPC lcfg)) then ret true
  else if negb (is_set (PRIVATE_KEY lcfg)) then ret true
  else if negb (is_set (ACCOUNT lcfg)) then ret true
  else
    connected <- is_connected web3 ;;
    ret (negb connected).

Definition stub_receipt (report_hash_hex : string) : json :=
  JDict [("tx_hash", JStr ("mock_tx_0x" ++ PyStr.take 16 report_hash_hex));
         ("chain_id", JStr "STUB_TESTNET");
         ("proof_hash", JStr report_hash_hex)].

Definition invalid_address_receipt (report_hash_hex : string) : json :=
  JDict [("tx_hash", JStr "mock_tx_0xerror");
         ("error", JStr "Invalid Address Configuration");
         ("proof_hash", JStr report_hash_hex)].

Definition live_error_receipt (e : exn) (report_hash_hex : string) : json :=
  JDict [("error", JStr ("Live TX failed: " ++ exn_str e));
         ("tx_hash", JStr "mock_tx_0xerror");
         ("proof_hash", JStr report_hash_hex)].

(** The body of the first [try]: the two checksum addresses. *)
Definition checksum_addresses : result (string * option string) :=
  match to_checksum_address web3 (setting (ACCOUNT lcfg)) with
  | Raise e => Raise e
  | Ok checksum_account =>
      if is_set (CONTRACT_ADDRESS lcfg) then
        match to_checksum_address web3 (setting (CONTRACT_ADDRESS lcfg)) with
        | Raise e => Raise e
        | Ok checksum_contract => Ok (checksum_account, Some checksum_contract)
        end
      else Ok (checksum_account, None)
  end.

(** The body of the second [try] up to the sending of the transaction:
    the result is the transaction hash in hexadecimal. *)
Definition submit (checksum_account : string)
           (checksum_contract : option string) (data_to_log : string)
  : M World string :=
  nonce <- get_transaction_count web3 checksum_account ;;
  use_contract <-
    (if is_set checksum_contract && is_set (CONTRACT_ABI_PATH lcfg)
     then path_exists web3 (setting (CONTRACT_ABI_PATH lcfg))
     else ret false) ;;
  tx <-
    (if use_contract then
       abi <- load_abi web3 (setting (CONTRACT_ABI_PATH lcfg)) ;;
       call <- register_proof web3 (setting checksum_contract) abi
                              data_to_log ;;
       price <- gas_price web3 ;;
       build_transaction web3 call
         [("from", JStr checksum_account);
          ("nonce", JInt nonce);
          ("gas", JInt 300000);
          ("gasPrice", JInt price)]
     else
       price <- gas_price web3 ;;
       ret (JDict [("to", JStr checksum_account);
                   ("value", JInt 0);
                   ("data", JStr data_to_log);
                   ("gas", JInt 200000);
                   ("gasPrice", JInt price);
                   ("nonce", JInt nonce)])) ;;
  signed <- sign_transaction web3 tx (setting (PRIVATE_KEY lcfg)) ;;
  send_raw_transaction web3 signed.

(** The rest of the second [try]: the chain id is read while the receipt
    is built, after the transaction has been sent. *)
Definition live (report_hash_hex checksum_account : string)
           (checksum_contract : option string) (data_to_log : string)
  : M World json :=
  tx_hash_result <- submit checksum_account checksum_contract data_to_log ;;
  chain <- chain_id web3 ;;
  ret (JDict [("tx_hash", JStr tx_hash_result);
              ("chain_id", JInt chain);
              ("proof_hash", JStr report_hash_hex);
              ("success", JBool true)]).

Definition log_verification_hash (report_hash_hex : string) : M World json :=
  stub <- use_stub ;;
  if stub then ret (stub_receipt report_hash_hex)
  else
    match checksum_addresses with
    | Raise _ => ret (invalid_address_receipt report_hash_hex)
    | Ok (checksum_account, checksum_contract) =>
        data_to_log <- lift (to_bytes web3 report_hash_hex) ;;
        try_except
          (live report_hash_hex checksum_account checksum_contract
                data_to_log)
          (fun e => ret (live_error_receipt e report_hash_hex))
    end.

End Agent.
End BlockchainAgent.

(** ** The retrieval store ([rag_agent.py]) *)

(** Whether the LangChain imports succeeded, the text splitter (local, may
    raise) and the creation of the embedding model followed by
    [Chroma.from_documents]; a document is a chunk with its source file
    and case id. *)
Record RagBackend (World : Type) : Type := {
  RAG_AVAILABLE : bool;
  split_text : string -> result (list string);
  chroma_from_documents :
    list (string * string * string) -> string -> M World unit
}.
Arguments RAG_AVAILABLE {World} r.
Arguments split_text {World} r.
Arguments chroma_from_documents {World} r.

Module RagAgent.
Section Agent.
Context {World : Type}.
Variable cfg : Config.
Variable rag : RagBackend World.
Local Open Scope py_scope.

(** The key test of [get_embedding_function]. *)
Definition embedding_key : result string :=
  if is_set (GEMINI_API_KEY cfg) then Ok (setting (GEMINI_API_KEY cfg))
  else Raise (mk_exn ValueError "GEMINI_API_KEY missing.").

Definition ingest_text_to_rag (case_id text filename : string)
  : M World bool :=
  if negb (RAG_AVAILABLE rag) || negb (PyStr.strip_nonempty text)
  then ret false
  else
    try_except
      (chunks <- lift (split_text rag text) ;;
       let docs := map (fun chunk => (chunk, filename, case_id)) chunks in
       key <- lift embedding_key ;;
       chroma_from_documents rag docs key ;;;
       ret true)
      (fun _ => ret false).

End Agent.
End RagAgent.

(** ** The single-file pipelines ([app.py])

    The functions below are reached only when every agent module was
    imported ([AGENTS_LOADED]); the names they use are then all bound. *)

Module App.

Definition ALLOWED_EXTENSIONS : list string :=
  ["png"; "jpg"; "jpeg"; "gif"; "mp3"; "wav"; "m4a";
   "mp4"; "mov"; "avi"; "mkv"; "txt"; "pdf"; "docx"; "json"].

(** ['.' in filename and filename.rsplit('.', 1)[1].lower() in ...] *)
Definition allowed_file (filename : string) : bool :=
  match PyStr.after_last "." filename with
  | Some e => PyStr.mem (PyStr.lower e) ALLOWED_EXTENSIONS
  | None => false
  end.

(** [json.dumps(data, sort_keys=True, indent=None)]: the default
    separators, a comma and a colon each followed by a space. *)
Definition render_item (kv : string * string) : string :=
  Json.encode_str (fst kv) ++ ": " ++ snd kv.

Section Dumps.
Variable lib : PyLib.

Fixpoint dumps (j : json) : string :=
  match j with
  | JNull => "null"
  | JBool true => "true"
  | JBool false => "false"
  | JInt z => int_repr z
  | JFloat q => float_repr lib q
  | JStr s => Json.encode_str s
  | JList l => "[" ++ String.concat ", " (map dumps l) ++ "]"
  | JDict d =>
      "{" ++ String.concat ", "
               (map render_item
                  (Json.sort_items
                     (map (fun kv => (fst kv, dumps (snd kv))) d)))
          ++ "}"
  end.

Definition create_report_hash (data : json) : string :=
  sha256_hexdigest lib (dumps data).

End Dumps.

Section Pipelines.
Context {World Frame : Type}.
Variable cfg : Config.
Variable lib : PyLib.
Variable svc : Services World Frame.
Variable rag : RagBackend World.
Local Open Scope py_scope.

(** The ledger receipt is attached when the call returns; when it raises
    the report goes out as it is. *)
Definition _finalize_report (report_data : dict) : M World dict :=
  try_except
    (tx <- log_verification_hash svc
             ("0x" ++ create_report_hash lib (JDict report_data)) ;;
     ret (PyDict.set "blockchain_tx" tx report_data))
    (fun _ => ret report_data).

Definition run_forensight_pipeline_image (file_path : string)
  : M World dict :=
  results <- ImageAgent.analyze_image_with_rd_and_gemini lib svc file_path ;;
  verdict <- lift (py_get results "verdict" (JStr "Unknown")) ;;
  score <- lift (py_get results "authenticity_score" (JFloat 0)) ;;
  _finalize_report
    [("verdict", verdict);
     ("authenticity_score", score);
     ("details", JDict [("file_type", JStr "Image");
                        ("full_analysis", results)])].

Definition run_forensight_pipeline_audio (file_path : string)
  : M World dict :=
  if negb (is_set (ASSEMBLYAI_API_KEY cfg))
  then raise (mk_exn ValueError "ASSEMBLYAI_API_KEY missing")
  else
    audio_results <-
      AudioAgent.analyze_audio_file cfg lib svc file_path
                                    (ASSEMBLYAI_API_KEY cfg) ;;
    transcript_id <- lift (py_get audio_results "transcript_id" JNull) ;;
    transcript <- lift (py_get audio_results "transcript" (JDict [])) ;;
    full_transcript <- lift (py_get transcript "text" (JStr "")) ;;
    _finalize_report
      [("verdict", JStr "Audio Processed");
       ("authenticity_score", JFloat 0);
       ("details", JDict [("file_type", JStr "Audio");
                          ("transcript_id", transcript_id);
                          ("full_transcript", full_transcript)])].

Definition run_forensight_pipeline_video (file_path : string)
  : M World dict :=
  video_results <- VideoAgent.run_video_forensics lib svc file_path ;;
  verdict <- lift (py_get video_results "verdict" (JStr "Unknown")) ;;
  score <- lift (py_get video_results "authenticity_score" (JFloat 0)) ;;
  analysis <- lift (py_get video_results "visual_analysis" (JDict [])) ;;
  _finalize_report
    [("verdict", verdict);
     ("authenticity_score", score);
     ("details", JDict [("file_type", JStr "Video");
                        ("analysis", analysis)])].

(** The ingestion into the retrieval store: its result is not used and
    its exceptions are swallowed. *)
Definition ingest (file_path text_content : string)
           (case_id : option string) : M World unit :=
  if is_set case_id then
    try_except
      (RagAgent.ingest_text_to_rag cfg rag (setting case_id) text_content
                                   (PyStr.basename file_path) ;;;
       ret tt)
      (fun _ => ret tt)
  else ret tt.

(** [100 - danger]: exact on an [int], in double arithmetic on a
    [float]. *)
Definition hundred_minus (danger : json) : result json :=
  match danger with
  | JInt z => Ok (JInt (100 - z))
  | JBool b => Ok (JInt (100 - (if b then 1 else 0)))
  | JFloat q => Ok (JFloat (float_sub 100 q))
  | _ => Raise (mk_exn TypeError "unsupported operand type(s)")
  end.

(** [difference / 100.0]: an [int] is converted to a double first. *)
Definition over_hundred (difference : json) : result Q :=
  match difference with
  | JInt z => match float_of_int z with
              | Ok x => Ok (float_div x 100)
              | Raise e => Raise e
              end
  | JFloat q => Ok (float_div q 100)
  | _ => Raise (mk_exn TypeError "unsupported operand type(s)")
  end.

Definition run_forensight_pipeline_document (file_path : string)
           (case_id : option string) : M World dict :=
  text_content <- DocAgent.read_files_from_paths svc [file_path] ;;
  gemini_data <- DocAgent.run_gemini_analysis cfg lib svc text_content ;;
  analysis <-
    lift (py_get gemini_data "misinformationAnalysis" (JDict [])) ;;
  danger <- lift (py_get analysis "dangerScore" (JInt 0)) ;;
  ingest file_path text_content case_id ;;;
  let verdict := "Danger Score: " ++ py_str lib danger ++ "/100" in
  difference <- lift (hundred_minus danger) ;;
  authenticity_score <- lift (over_hundred difference) ;;
  _finalize_report
    [("verdict", JStr verdict);
     ("authenticity_score", JFloat authenticity_score);
     ("details", JDict [("file_type", JStr "Document");
                        ("analysis", gemini_data)])].

End Pipelines.
End App.

(** ** Further stand-ins

    Variations of the services of [Fixture], a node for the ledger agent
    and a retrieval store; the world still counts the calls made. *)

Module Scenario.

Definition with_presigned
           (svc : Services Fixture.World Fixture.Frame)
           (presigned : string -> M Fixture.World (string * option string))
  : Services Fixture.World Fixture.Frame :=
  {| request_presigned_url := presigned;
     upload_file_to_signed_url := upload_file_to_signed_url svc;
     extract_request_id_from_url := extract_request_id_from_url svc;
     get_rd_result := get_rd_result svc;
     generate_explanation := generate_explanation svc;
     upload_file_to_assemblyai := upload_file_to_assemblyai svc;
     request_transcription_from_assemblyai :=
       request_transcription_from_assemblyai svc;
     poll_transcript_status := poll_transcript_status svc;
     read_txt := read_txt svc;
     pdf_pages_text := pdf_pages_text svc;
     docx_paragraphs_text := docx_paragraphs_text svc;
     doc_generate_content := doc_generate_content svc;
     cv2_VideoCapture := cv2_VideoCapture svc;
     cv2_imwrite := cv2_imwrite svc;
     remove_if_exists := remove_if_exists svc;
     meta_generate_content := meta_generate_content svc;
     log_verification_hash := log_verification_hash svc |}.

Definition with_readers
           (svc : Services Fixture.World Fixture.Frame)
           (txt pdf : string -> M Fixture.World string)
  : Services Fixture.World Fixture.Frame :=
  {| request_presigned_url := request_presigned_url svc;
     upload_file_to_signed_url := upload_file_to_signed_url svc;
     extract_request_id_from_url := extract_request_id_from_url svc;
     get_rd_result := get_rd_result svc;
     generate_explanation := generate_explanation svc;
     upload_file_to_assemblyai := upload_file_to_assemblyai svc;
     request_transcription_from_assemblyai :=
       request_transcription_from_assemblyai svc;
     poll_transcript_status := poll_transcript_status svc;
     read_txt := txt;
     pdf_pages_text := pdf;
     docx_paragraphs_text := docx_paragraphs_text svc;
     doc_generate_content := doc_generate_content svc;
     cv2_VideoCapture := cv2_VideoCapture svc;
     cv2_imwrite := cv2_imwrite svc;
     remove_if_exists := remove_if_exists svc;
     meta_generate_content := meta_generate_content svc;
     log_verification_hash := log_verification_hash svc |}.

(** No Gemini key in the environment, and an image agent that could not
    be imported: its own imports come before its key checks and one of
    them raised [ImportError].  The video agent, which imports the image
    agent, is absent with it. *)
Definition cfg_no_gemini : Config :=
  {| GEMINI_API_KEY := None;
     ASSEMBLYAI_API_KEY := Some "a-key";
     image_agent_loaded := false;
     audio_agent_loaded := true;
     doc_agent_loaded := true;
     video_agent_loaded := false;
     ledger_loaded := true |}.

(** No AssemblyAI key in the environment. *)
Definition cfg_no_assemblyai : Config :=
  {| GEMINI_API_KEY := Some "g-key";
     ASSEMBLYAI_API_KEY := None;
     image_agent_loaded := true;
     audio_agent_loaded := true;
     doc_agent_loaded := true;
     video_agent_loaded := true;
     ledger_loaded := true |}.

(** The meta model answers in prose. *)
Definition svc_meta_prose : Services Fixture.World Fixture.Frame :=
  Fixture.services_with Fixture.rd_ok Fixture.upload_ok Fixture.model_ok
                        Fixture.capture_ok
                        (fun _ => Fixture.tick "The files look consistent.")
                        Fixture.ledger_ok.

(** Reality Defender refuses every request for a signed URL. *)
Definition svc_rd_down : Services Fixture.World Fixture.Frame :=
  with_presigned Fixture.svc
                 (fun _ => Fixture.fail RequestException "connection refused").

(** Reality Defender hands out a signed URL without a request id. *)
Definition svc_no_request_id : Services Fixture.World Fixture.Frame :=
  with_presigned Fixture.svc
                 (fun name => Fixture.tick ("https://rd/" ++ name, None)).

(** No video file can be opened. *)
Definition svc_no_video : Services Fixture.World Fixture.Frame :=
  Fixture.services_with Fixture.rd_ok Fixture.upload_ok Fixture.model_ok
                        (fun _ => Fixture.tick None)
                        Fixture.model_ok Fixture.ledger_ok.

(** A video of five frames at one frame per second; Reality Defender
    scores every snapshot 70. *)
Definition svc_five_frames : Services Fixture.World Fixture.Frame :=
  Fixture.services_with (fun _ => Fixture.tick (Fixture.rd_answer 70))
                        Fixture.upload_ok Fixture.model_ok
                        (fun _ => Fixture.tick
                                    (Some (Fixture.clip 1 [70; 70; 70; 70; 70])))
                        Fixture.model_ok Fixture.ledger_ok.

(** No text file and no PDF can be read. *)
Definition svc_unreadable : Services Fixture.World Fixture.Frame :=
  with_readers Fixture.svc
               (fun _ => Fixture.fail OtherException "Permission denied")
               (fun _ => Fixture.fail OtherException "EOF marker not found").

(** A library whose parser reads one more text: a report whose danger
    score is a word. *)
Definition worded_report : string := "{danger: high}".

Definition lib_worded : PyLib :=
  {| sha256_hexdigest := sha256_hexdigest Fixture.lib;
     float_repr := float_repr Fixture.lib;
     float_of_str := float_of_str Fixture.lib;
     json_loads := fun s =>
       if String.eqb s worded_report
       then Ok (JDict [("misinformationAnalysis",
                        JDict [("dangerScore", JStr "high")])])
       else json_loads Fixture.lib s;
     container_repr := container_repr Fixture.lib |}.

Definition svc_worded : Services Fixture.World Fixture.Frame :=
  Fixture.services_with Fixture.rd_ok Fixture.upload_ok
                        (fun _ => Fixture.tick worded_report)
                        Fixture.capture_ok Fixture.model_ok Fixture.ledger_ok.

(** A retrieval store that accepts everything. *)
Definition rag : RagBackend Fixture.World :=
  {| RAG_AVAILABLE := true;
     split_text := fun text => Ok [text];
     chroma_from_documents := fun _ _ => Fixture.tick tt |}.

(** A node that answers every call; a prepared contract call is [tt]. *)
Definition node (chain : M Fixture.World Z) : Web3 Fixture.World unit :=
  {| is_connected := Fixture.tick true;
     to_checksum_address := fun a => Ok a;
     to_bytes := fun h => Ok h;
     get_transaction_count := fun _ => Fixture.tick 7%Z;
     path_exists := fun _ => Fixture.tick false;
     load_abi := fun _ => Fixture.tick (JList []);
     register_proof := fun _ _ _ => Fixture.tick tt;
     gas_price := Fixture.tick 100%Z;
     build_transaction := fun _ params => Fixture.tick (JDict params);
     sign_transaction := fun _ _ => Fixture.tick "signed";
     send_raw_transaction := fun _ => Fixture.tick "0xfeed";
     chain_id := chain |}.

Definition node_ok : Web3 Fixture.World unit :=
  node (Fixture.tick 11155111%Z).

(** The node sends the transaction and then fails to report its chain. *)
Definition node_chain_down : Web3 Fixture.World unit :=
  node (Fixture.fail Timeout "read timed out").

Definition ledger_configured : LedgerConfig :=
  {| RPC := Some "https://rpc";
     PRIVATE_KEY := Some "key";
     ACCOUNT := Some "0xabc";
     CONTRACT_ADDRESS := None;
     CONTRACT_ABI_PATH := None |}.

Definition ledger_unconfigured : LedgerConfig :=
  {| RPC := Some "https://rpc";
     PRIVATE_KEY := None;
     ACCOUNT := Some "0xabc";
     CONTRACT_ADDRESS := None;
     CONTRACT_ABI_PATH := None |}.

End Scenario.
(* ================================================================== *)
(** * Properties *)

(** ** The priority order *)

Lemma order_for_permutation (a i v d : bool) :
  Permutation (order_for a i v d) categories /\ NoDup (order_for a i v d).
Proof.
  assert (Hcat : NoDup categories).
  { unfold categories. repeat constructor; simpl; intuition discriminate. }
  assert (Hnd : NoDup (order_for a i v d)).
  { destruct a, i, v, d; vm_compute;
      repeat constructor; simpl; intuition discriminate. }
  split; [| exact Hnd].
  apply NoDup_Permutation; [exact Hnd | exact Hcat |].
  intros x. destruct a, i, v, d; vm_compute; tauto.
Qed.

Lemma order_for_split (a i v d : bool) :
  order_for a i v d
  = (filter (fun t => if String.eqb t "audio" then a
                      else if String.eqb t "images" then i
                      else if String.eqb t "video" then v
                      else if String.eqb t "documents" then d
                      else false) categories
     ++ filter (fun t => negb (if String.eqb t "audio" then a
                               else if String.eqb t "images" then i
                               else if String.eqb t "video" then v
                               else if String.eqb t "documents" then d
                               else false)) fallback_order)%list.
Proof. destruct a, i, v, d; reflexivity. Qed.

Lemma parsed_order_permutation (instructions : option string) :
  Permutation (_parse_priority_from_instructions instructions) categories.
Proof.
  apply (order_for_permutation (mentioned instructions "audio")
           (mentioned instructions "images")
           (mentioned instructions "video")
           (mentioned instructions "documents")).
Qed.

(** C2. Whatever the instructions are ([None] and the empty string
    included), the priority order is a permutation of the four categories
    without repetition; the categories whose keywords occur come first, and
    the others follow in the order documents, video, images, audio. *)
Theorem priority_order_is_permutation (instructions : option string) :
  let order := _parse_priority_from_instructions instructions in
  Permutation order categories
  /\ NoDup order
  /\ order = (filter (mentioned instructions) categories
              ++ filter (fun t => negb (mentioned instructions t))
                        fallback_order)%list.
Proof.
  cbv zeta.
  assert (E : _parse_priority_from_instructions instructions
              = order_for (mentioned instructions "audio")
                          (mentioned instructions "images")
                          (mentioned instructions "video")
                          (mentioned instructions "documents"))
    by reflexivity.
  rewrite E.
  destruct (order_for_permutation (mentioned instructions "audio")
              (mentioned instructions "images")
              (mentioned instructions "video")
              (mentioned instructions "documents")) as [Hp Hn].
  repeat split; try assumption.
  rewrite order_for_split.
  f_equal; apply filter_ext_in; intros t Ht; simpl in Ht;
    repeat (destruct Ht as [<- | Ht]; [reflexivity |]); contradiction.
Qed.

(** ** The canonical serialization *)

Section StringOrder.

Lemma ascii_compare_refl (c : ascii) : Ascii.compare c c = Eq.
Proof. unfold Ascii.compare. apply N.compare_refl. Qed.

Lemma ascii_compare_lt_trans (a b c : ascii) :
  Ascii.compare a b = Lt -> Ascii.compare b c = Lt -> Ascii.compare a c = Lt.
Proof.
  unfold Ascii.compare. rewrite !N.compare_lt_iff. apply N.lt_trans.
Qed.

Lemma string_compare_lt_trans (a : string) :
  forall b c, String.compare a b = Lt -> String.compare b c = Lt ->
              String.compare a c = Lt.
Proof.
  induction a as [| x a IH]; intros [| y b] [| z c]; simpl;
    try discriminate; try reflexivity.
  destruct (Ascii.compare x y) eqn:Exy; try discriminate;
    destruct (Ascii.compare y z) eqn:Eyz; try discriminate; intros H1 H2.
  - apply Ascii.compare_eq_iff in Exy, Eyz. subst.
    rewrite ascii_compare_refl. eauto.
  - apply Ascii.compare_eq_iff in Exy. subst. now rewrite Eyz.
  - apply Ascii.compare_eq_iff in Eyz. subst. now rewrite Exy.
  - now rewrite (ascii_compare_lt_trans _ _ _ Exy Eyz).
Qed.

Lemma string_leb_trans (a b c : string) :
  String.leb a b = true -> String.leb b c = true -> String.leb a c = true.
Proof.
  unfold String.leb.
  destruct (String.compare a b) eqn:Eab; try discriminate;
    destruct (String.compare b c) eqn:Ebc; try discriminate; intros _ _.
  - apply String.compare_eq_iff in Eab. subst. now rewrite Ebc.
  - apply String.compare_eq_iff in Eab. subst. now rewrite Ebc.
  - apply String.compare_eq_iff in Ebc. subst. now rewrite Eab.
  - now rewrite (string_compare_lt_trans _ _ _ Eab Ebc).
Qed.

End StringOrder.

Section SortItems.
Context {A : Type}.

Lemma insert_item_perm (x : string * A) (l : list (string * A)) :
  Permutation (Json.insert_item x l) (x :: l).
Proof.
  induction l as [| y l IH]; simpl; [reflexivity |].
  destruct (String.leb (fst x) (fst y)); [reflexivity |].
  rewrite IH. apply perm_swap.
Qed.

Lemma sort_items_perm (l : list (string * A)) :
  Permutation (Json.sort_items l) l.
Proof.
  induction l as [| x l IH]; simpl; [reflexivity |].
  rewrite insert_item_perm. now constructor.
Qed.

Lemma insert_item_sorted (x : string * A) (l : list (string * A)) :
  StronglySorted key_le l -> StronglySorted key_le (Json.insert_item x l).
Proof.
  induction 1 as [| y l Hs IH Hall]; simpl.
  - repeat constructor.
  - destruct (String.leb (fst x) (fst y)) eqn:E.
    + constructor; [now constructor |].
      constructor; [exact E |].
      eapply Forall_impl; [| exact Hall].
      intros z Hz. unfold key_le in *. eapply string_leb_trans; eauto.
    + constructor; [exact IH |].
      apply (Permutation_Forall (Permutation_sym (insert_item_perm x l))).
      constructor; [| exact Hall].
      unfold key_le.
      destruct (String.leb_total (fst x) (fst y)) as [H | H];
        [congruence | exact H].
Qed.

(** The items leave [sort_items] in the order of their keys. *)
Lemma sort_items_sorted (l : list (string * A)) :
  StronglySorted key_le (Json.sort_items l).
Proof.
  induction l as [| x l IH]; simpl; [constructor |].
  now apply insert_item_sorted.
Qed.

Lemma same_key_same_item (l : list (string * A)) (x y : string * A) :
  NoDup (map fst l) -> In x l -> In y l -> fst x = fst y -> x = y.
Proof.
  induction l as [| z l IH]; simpl; [contradiction |].
  intros Hnd [-> | Hx] [-> | Hy] E; inversion Hnd; subst.
  - reflexivity.
  - exfalso. match goal with H : ~ In _ _ |- _ => apply H end.
    rewrite E. now apply in_map.
  - exfalso. match goal with H : ~ In _ _ |- _ => apply H end.
    rewrite <- E. now apply in_map.
  - now apply IH.
Qed.

Lemma sorted_perm_unique (l1 : list (string * A)) :
  forall l2,
    StronglySorted key_le l1 -> StronglySorted key_le l2 ->
    Permutation l1 l2 -> NoDup (map fst l1) -> l1 = l2.
Proof.
  induction l1 as [| x l1 IH]; intros l2 S1 S2 P Hnd.
  - now apply Permutation_nil in P.
  - destruct l2 as [| y l2].
    { symmetry in P. now apply Permutation_nil in P. }
    assert (Hxy : x = y).
    { apply (same_key_same_item (x :: l1)); auto.
      - now left.
      - apply (Permutation_in _ (Permutation_sym P)). now left.
      - apply String.leb_antisym.
        + assert (Hy : In y (x :: l1))
            by (apply (Permutation_in _ (Permutation_sym P)); now left).
          destruct Hy as [<- | Hy].
          * destruct (String.leb_total (fst x) (fst x)); assumption.
          * inversion S1 as [| ? ? _ Hall]; subst.
            rewrite Forall_forall in Hall. now apply Hall.
        + assert (Hx : In x (y :: l2))
            by (apply (Permutation_in _ P); now left).
          destruct Hx as [<- | Hx].
          * destruct (String.leb_total (fst y) (fst y)); assumption.
          * inversion S2 as [| ? ? _ Hall]; subst.
            rewrite Forall_forall in Hall. now apply Hall. }
    subst y. f_equal.
    apply IH.
    + now inversion S1.
    + now inversion S2.
    + now apply Permutation_cons_inv in P.
    + now inversion Hnd.
Qed.

(** With no key twice, the order of insertion does not show after the
    sort. *)
Lemma sort_items_insertion_order (l1 l2 : list (string * A)) :
  Permutation l1 l2 -> NoDup (map fst l1) ->
  Json.sort_items l1 = Json.sort_items l2.
Proof.
  intros P Hnd.
  apply sorted_perm_unique; try apply sort_items_sorted.
  - rewrite !sort_items_perm. exact P.
  - apply (Permutation_NoDup (l := map fst l1)); [| exact Hnd].
    apply Permutation_map. symmetry. apply sort_items_perm.
Qed.

End SortItems.

Lemma json_nested_ind (P : json -> Prop) :
  P JNull ->
  (forall b, P (JBool b)) ->
  (forall z, P (JInt z)) ->
  (forall q, P (JFloat q)) ->
  (forall s, P (JStr s)) ->
  (forall l, Forall P l -> P (JList l)) ->
  (forall d, Forall (fun kv => P (snd kv)) d -> P (JDict d)) ->
  forall j, P j.
Proof.
  intros Hn Hb Hi Hf Hs Hl Hd.
  fix IH 1.
  intros [| b | z | q | s | l | d].
  - exact Hn.
  - apply Hb.
  - apply Hi.
  - apply Hf.
  - apply Hs.
  - apply Hl. induction l as [| x l IHl]; constructor; [apply IH | exact IHl].
  - apply Hd. induction d as [| [k v] d IHd]; constructor;
      [apply IH | exact IHd].
Qed.

Lemma map_dumps_same (lib : PyLib) (l l' : list json) :
  Forall (fun a => forall b, distinct_keys a -> same_content a b ->
                             Json.dumps lib a = Json.dumps lib b) l ->
  Forall distinct_keys l ->
  Forall2 same_content l l' ->
  map (Json.dumps lib) l = map (Json.dumps lib) l'.
Proof.
  intros HI HK H2. induction H2 as [| a b l l' Hab _ IH]; [reflexivity |].
  inversion HI; inversion HK; subst. simpl. f_equal; auto.
Qed.

Lemma map_items_same (lib : PyLib) (d d' : dict) :
  Forall (fun kv => forall b, distinct_keys (snd kv) ->
                              same_content (snd kv) b ->
                              Json.dumps lib (snd kv) = Json.dumps lib b) d ->
  Forall (fun kv => distinct_keys (snd kv)) d ->
  Forall2 (fun kv kv' =>
             fst kv = fst kv' /\ same_content (snd kv) (snd kv')) d d' ->
  map (fun kv => (fst kv, Json.dumps lib (snd kv))) d
  = map (fun kv => (fst kv, Json.dumps lib (snd kv))) d'.
Proof.
  intros HI HK H2. induction H2 as [| a b l l' [Hk Hv] _ IH]; [reflexivity |].
  inversion HI; inversion HK; subst. simpl. f_equal; auto.
  f_equal; auto.
Qed.

(** The serialization does not see the order of insertion. *)
Lemma dumps_same_content (lib : PyLib) :
  forall a b, distinct_keys a -> same_content a b ->
              Json.dumps lib a = Json.dumps lib b.
Proof.
  intros a. pattern a. apply json_nested_ind; clear a.
  1-5: intros; match goal with H : same_content _ _ |- _ => now inversion H end.
  - intros l IH b HK HS. inversion HS; subst; [reflexivity |].
    inversion HK; subst. simpl.
    now rewrite (map_dumps_same lib l l').
  - intros d IH b HK HS. inversion HS as [| | ? d1 d' HP H2]; subst;
      [reflexivity |].
    inversion HK as [| | | | | | ? Hnd Hall]; subst. simpl.
    rewrite <- (map_items_same lib d1 d').
    + rewrite (sort_items_insertion_order
                 (map (fun kv => (fst kv, Json.dumps lib (snd kv))) d)
                 (map (fun kv => (fst kv, Json.dumps lib (snd kv))) d1));
        [reflexivity | now apply Permutation_map |].
      rewrite map_map. simpl. exact Hnd.
    + exact (Permutation_Forall HP IH).
    + exact (Permutation_Forall HP Hall).
    + exact H2.
Qed.

(** C5. Two bundles with the same keys mapped to the same values, whatever
    the order their fields were inserted in, get the same proof hash: the
    serialization that is hashed emits the items of every dict in the order
    of their keys. *)
Theorem proof_hash_ignores_insertion_order
        (lib : PyLib) (bundle bundle' : json) :
  distinct_keys bundle ->
  same_content bundle bundle' ->
  _make_hash lib bundle = _make_hash lib bundle'.
Proof.
  intros HK HS. unfold _make_hash. f_equal. now apply dumps_same_content.
Qed.

Lemma proof_hash_ignores_insertion_order_witness :
  _make_hash Fixture.lib
    (JDict [("session_id", JStr "s1");
            ("results", JList [JDict [("file", JStr "a.txt");
                                      ("type", JStr "document")]]);
            ("final_summary", JStr "ok")])
  = _make_hash Fixture.lib
      (JDict [("final_summary", JStr "ok");
              ("results", JList [JDict [("type", JStr "document");
                                        ("file", JStr "a.txt")]]);
              ("session_id", JStr "s1")]).
Proof.
  apply proof_hash_ignores_insertion_order.
  - repeat (constructor; simpl; try (intuition discriminate)).
  - eapply same_dict.
    + apply Permutation_rev.
    + simpl. repeat (constructor; simpl; auto using same_value).
      eapply same_dict; [apply perm_swap |].
      repeat (constructor; simpl; auto using same_value).
Defined.

(** ** Running computations *)

Ltac unfold_run :=
  unfold bind, try_except, ret, raise, lift in *.

(** Case analysis on the next scrutinee of a hypothesis or of the goal. *)
Ltac split_run_in H :=
  match type of H with
  | context [match ?x with _ => _ end] =>
      let E := fresh "E" in destruct x eqn:E; try discriminate H
  | context [if ?x then _ else _] =>
      let E := fresh "E" in destruct x eqn:E; try discriminate H
  end.

Ltac split_run :=
  match goal with
  | |- context [match ?x with _ => _ end] =>
      let E := fresh "E" in destruct x eqn:E
  | |- context [if ?x then _ else _] =>
      let E := fresh "E" in destruct x eqn:E
  end.

Section MonadFacts.
Context {World : Type}.

Lemma bind_ok {A B : Type} (m : M World A) (k : A -> M World B) w a w1 :
  m w = (Ok a, w1) -> bind m k w = k a w1.
Proof. intros E. unfold bind. now rewrite E. Qed.

Lemma bind_raise {A B : Type} (m : M World A) (k : A -> M World B) w e w1 :
  m w = (Raise e, w1) -> bind m k w = (Raise e, w1).
Proof. intros E. unfold bind. now rewrite E. Qed.

Lemma bind_ok_inv {A B : Type} (m : M World A) (k : A -> M World B) w b w' :
  bind m k w = (Ok b, w') ->
  exists a w1, m w = (Ok a, w1) /\ k a w1 = (Ok b, w').
Proof.
  unfold bind. destruct (m w) as [[a | e] w1]; [eauto | discriminate].
Qed.

Lemma try_except_ok {A : Type} (m : M World A) h w a w1 :
  m w = (Ok a, w1) -> try_except m h w = (Ok a, w1).
Proof. intros E. unfold try_except. now rewrite E. Qed.

Lemma try_except_raise {A : Type} (m : M World A) h w e w1 :
  m w = (Raise e, w1) -> try_except m h w = h e w1.
Proof. intros E. unfold try_except. now rewrite E. Qed.

(** A [try] whose handler returns a value never raises. *)
Lemma try_except_returns {A : Type} (m : M World A) (f : exn -> A) w :
  exists a w1, try_except m (fun e => ret (f e)) w = (Ok a, w1).
Proof.
  unfold try_except, ret. destruct (m w) as [[a | e] w1]; eauto.
Qed.

End MonadFacts.

(** ** Facts about dicts *)

Lemma get_set_same (k : string) (v : json) (d : dict) :
  PyDict.get k (PyDict.set k v d) = Some v.
Proof.
  induction d as [| [k' v'] d IH]; simpl.
  - now rewrite String.eqb_refl.
  - destruct (String.eqb k k') eqn:E; simpl; rewrite ?String.eqb_refl, ?E; auto.
Qed.

Lemma get_set_other (k k' : string) (v : json) (d : dict) :
  k <> k' -> PyDict.get k (PyDict.set k' v d) = PyDict.get k d.
Proof.
  intros Hne. induction d as [| [k0 v0] d IH]; simpl.
  - apply String.eqb_neq in Hne. now rewrite Hne.
  - destruct (String.eqb k' k0) eqn:E; simpl.
    + apply String.eqb_eq in E. subst k0.
      apply String.eqb_neq in Hne. now rewrite Hne.
    + destruct (String.eqb k k0); auto.
Qed.

Lemma get_update_other (k : string) (m d : dict) :
  ~ In k (PyDict.keys m) -> PyDict.get k (PyDict.update d m) = PyDict.get k d.
Proof.
  unfold PyDict.update, PyDict.keys. revert d.
  induction m as [| [k' v'] m IH]; intros d Hn; simpl in *; [reflexivity |].
  rewrite IH by tauto. apply get_set_other. intros ->. tauto.
Qed.

Lemma update_pairs_other (k : string) (xs : list json) :
  forall d d',
    update_pairs d xs = Ok d' ->
    ~ In k (flat_map (fun x => match update_pair x with
                               | Ok (k, _) => [k]
                               | Raise _ => []
                               end) xs) ->
    PyDict.get k d' = PyDict.get k d.
Proof.
  induction xs as [| x xs IH]; intros d d' H Hn; simpl in *.
  - now injection H as <-.
  - destruct (update_pair x) as [[k0 v0] | e]; [| discriminate].
    rewrite in_app_iff in Hn. simpl in Hn.
    rewrite (IH _ _ H) by tauto.
    apply get_set_other. intros ->. tauto.
Qed.

(** A key the merged value does not write keeps its value. *)
Lemma py_update_other (k : string) (m : json) (d d' : dict) :
  py_update d m = Ok d' -> ~ In k (update_keys m) ->
  PyDict.get k d' = PyDict.get k d.
Proof.
  destruct m; simpl; try discriminate.
  - apply update_pairs_other.
  - apply update_pairs_other.
  - intros H Hn. injection H as <-. now apply get_update_other.
Qed.








(** ** The agents *)

Section Agents.
Context {World Frame : Type}.
Variable cfg : Config.
Variable lib : PyLib.
Variable svc : Services World Frame.

(** The image agent turns every exception of its [try] block into a
    report. *)
Lemma analyze_image_catches (file_path : string) (w : World) :
  ImageAgent.analyze_image_with_rd_and_gemini lib svc file_path w
  = match ImageAgent.analysis lib svc file_path w with
    | (Ok r, w') => (Ok r, w')
    | (Raise e, w') => (Ok (ImageAgent.on_error e), w')
    end.
Proof. reflexivity. Qed.

Lemma on_error_shape (e : exn) :
  (verdict_of_report (ImageAgent.on_error e) = Some "Error"
   \/ verdict_of_report (ImageAgent.on_error e) = Some "Unknown")
  /\ (exists msg, rd_error_of (ImageAgent.on_error e) = Some (JStr msg))
  /\ has_error (ImageAgent.on_error e) = false.
Proof.
  unfold ImageAgent.on_error.
  destruct (exn_cls e); simpl; repeat split; eauto.
Qed.

(** *** The document agent *)

Lemma run_gemini_analysis_except (text : string) (w w1 : World) (e : exn) :
  is_set (GEMINI_API_KEY cfg) = true ->
  PyStr.strip_nonempty text = true ->
  DocAgent.scoring lib svc text w = (Raise e, w1) ->
  DocAgent.run_gemini_analysis cfg lib svc text w
  = (Ok (DocAgent.fallback e), w1).
Proof.
  intros Hkey Htext Hs.
  unfold DocAgent.run_gemini_analysis, DocAgent._init_gemini.
  rewrite Hkey, Htext. simpl. unfold_run. now rewrite Hs.
Qed.

Lemma scoring_call_fails (text : string) (w w1 : World) (e : exn) :
  doc_generate_content svc text w = (Raise e, w1) ->
  DocAgent.scoring lib svc text w = (Raise e, w1).
Proof. intros E. unfold DocAgent.scoring. now apply bind_raise. Qed.

Lemma scoring_unparseable (text response_text : string) (w w1 : World)
      (e : exn) :
  doc_generate_content svc text w = (Ok response_text, w1) ->
  json_loads lib response_text = Raise e ->
  DocAgent.scoring lib svc text w = (Raise e, w1).
Proof.
  intros E1 E2. unfold DocAgent.scoring.
  rewrite (bind_ok _ _ _ _ _ E1). unfold_run. now rewrite E2.
Qed.

Lemma fallback_shape (e : exn) :
  danger_score_of (DocAgent.fallback e) = Some (JInt 50)
  /\ flags_of (DocAgent.fallback e)
     = Some (JList [JDict [("claim", JStr "Analysis Error");
                           ("reasoning", JStr (exn_str e))]]).
Proof. split; reflexivity. Qed.

(** Whatever [run_gemini_analysis] returns can be read the way the
    orchestrator reads it. *)
Lemma run_gemini_analysis_shape (text : string) (w w' : World) (r : json) :
  DocAgent.run_gemini_analysis cfg lib svc text w = (Ok r, w') ->
  exists analysis score,
    py_get r "misinformationAnalysis" (JDict []) = Ok analysis
    /\ py_get analysis "dangerScore" (JInt 0) = Ok score.
Proof.
  unfold DocAgent.run_gemini_analysis. unfold_run.
  destruct DocAgent._init_gemini; [| discriminate].
  destruct (negb (PyStr.strip_nonempty text)).
  - intros H. injection H as <- _. do 2 eexists. split; reflexivity.
  - destruct (DocAgent.scoring lib svc text w) as [[r0 | e] w0] eqn:Es.
    + intros H. injection H as <- _.
      unfold DocAgent.scoring in Es. unfold_run.
      repeat split_run_in Es.
      injection Es as <- _. eauto.
    + intros H. injection H as <- _. do 2 eexists. split; reflexivity.
Qed.

(** *** The audio agent *)

Lemma analyze_audio_upload_fails (file_path key : string)
      (api_key : option string) (w w1 : World) (e : exn) :
  AudioAgent._get_api_key cfg api_key = Ok key ->
  upload_file_to_assemblyai svc file_path key w = (Raise e, w1) ->
  AudioAgent.analyze_audio_file cfg lib svc file_path api_key w
  = (Raise e, w1).
Proof.
  intros Hk Hu. unfold AudioAgent.analyze_audio_file. unfold_run.
  now rewrite Hk, Hu.
Qed.

Lemma analyze_audio_request_fails (file_path key url : string)
      (api_key : option string) (w w1 w2 : World) (e : exn) :
  AudioAgent._get_api_key cfg api_key = Ok key ->
  upload_file_to_assemblyai svc file_path key w = (Ok url, w1) ->
  request_transcription_from_assemblyai svc url key
    AudioAgent.default_features w1 = (Raise e, w2) ->
  AudioAgent.analyze_audio_file cfg lib svc file_path api_key w
  = (Raise e, w2).
Proof.
  intros Hk Hu Hr. unfold AudioAgent.analyze_audio_file. unfold_run.
  now rewrite Hk, Hu, Hr.
Qed.

Lemma analyze_audio_poll_fails (file_path key url : string)
      (api_key : option string) (w w1 w2 w3 : World) (e : exn)
      (initial id : json) :
  AudioAgent._get_api_key cfg api_key = Ok key ->
  upload_file_to_assemblyai svc file_path key w = (Ok url, w1) ->
  request_transcription_from_assemblyai svc url key
    AudioAgent.default_features w1 = (Ok initial, w2) ->
  py_get initial "id" JNull = Ok id ->
  truthy id = true ->
  poll_transcript_status svc id key w2 = (Raise e, w3) ->
  AudioAgent.analyze_audio_file cfg lib svc file_path api_key w
  = (Raise e, w3).
Proof.
  intros Hk Hu Hr Hi Ht Hp. unfold AudioAgent.analyze_audio_file. unfold_run.
  rewrite Hk, Hu, Hr, Hi, Ht. simpl. now rewrite Hp.
Qed.

Lemma analyze_audio_shape (file_path : string) (api_key : option string)
      (w w' : World) (r : json) :
  AudioAgent.analyze_audio_file cfg lib svc file_path api_key w = (Ok r, w') ->
  exists tr text,
    py_get r "transcript" (JDict []) = Ok tr
    /\ py_get tr "text" (JStr "") = Ok text.
Proof.
  unfold AudioAgent.analyze_audio_file. unfold_run. intros H.
  repeat split_run_in H.
  injection H as <- _. do 2 eexists. split; reflexivity.
Qed.

(** *** The video agent *)

(** A frame whose analysis raises is skipped: the counters stay as they
    were and the loop goes on. *)
Lemma scan_frame_skips (frame_interval : Z) (temp_img : string)
      (frame : Frame) (st : VideoAgent.scan) (w w1 : World) (e : exn) :
  frame_interval <> 0%Z ->
  (VideoAgent.frame_idx st mod frame_interval = 0)%Z ->
  VideoAgent.analyze_frame lib svc temp_img frame st w = (Raise e, w1) ->
  VideoAgent.scan_frame lib svc frame_interval temp_img frame st w
  = (Ok (VideoAgent.next_frame st), w1).
Proof.
  intros Hi Hm Ha. unfold VideoAgent.scan_frame.
  apply Z.eqb_neq in Hi. rewrite Hi. apply Z.eqb_eq in Hm. rewrite Hm.
  unfold_run. now rewrite Ha.
Qed.

Lemma analyze_video_frames_dict (video_path : string) (w w' : World)
      (v : json) :
  VideoAgent.analyze_video_frames lib svc video_path w = (Ok v, w') ->
  exists d, v = JDict d
            /\ exists ratio,
                 py_get v "fake_ratio_percent" (JInt 0) = Ok ratio.
Proof.
  unfold VideoAgent.analyze_video_frames. unfold_run. intros H.
  repeat split_run_in H; injection H as <- _; eexists; split;
    try reflexivity; eexists; reflexivity.
Qed.

Lemma run_video_forensics_shape (video_path : string) (w w' : World)
      (r : json) :
  VideoAgent.run_video_forensics lib svc video_path w = (Ok r, w') ->
  exists visuals ratio,
    py_get r "visual_analysis" (JDict []) = Ok visuals
    /\ py_get visuals "fake_ratio_percent" (JInt 0) = Ok ratio.
Proof.
  unfold VideoAgent.run_video_forensics.
  intros H.
  apply bind_ok_inv in H as (meta & w1 & _ & H).
  apply bind_ok_inv in H as (visuals & w2 & Hv & H).
  apply analyze_video_frames_dict in Hv as (d & -> & ratio & Hr).
  unfold_run. repeat split_run_in H; injection H as <- _;
    exists (JDict d), ratio; (split; [reflexivity | exact Hr]).
Qed.

(** C7. When the scoring call raises, or answers with text that is not
    JSON or with JSON that is not an object, [run_gemini_analysis] does not
    raise: it returns its fallback report, whose [dangerScore] is 50 and
    whose [flags] hold one entry.  (The call is made only with the API key
    set and a text that is not blank.) *)
Theorem document_scoring_degrades_to_default
        (text : string) (w w1 : World) (e : exn) :
  is_set (GEMINI_API_KEY cfg) = true ->
  PyStr.strip_nonempty text = true ->
  (doc_generate_content svc text w = (Raise e, w1)
   \/ (exists response_text,
         doc_generate_content svc text w = (Ok response_text, w1)
         /\ json_loads lib response_text = Raise e)
   \/ (exists response_text parsed,
         doc_generate_content svc text w = (Ok response_text, w1)
         /\ json_loads lib response_text = Ok parsed
         /\ py_get parsed "misinformationAnalysis" (JDict []) = Raise e)) ->
  DocAgent.run_gemini_analysis cfg lib svc text w
  = (Ok (DocAgent.fallback e), w1)
  /\ danger_score_of (DocAgent.fallback e) = Some (JInt 50)
  /\ exists flag, flags_of (DocAgent.fallback e) = Some (JList [flag]).
Proof.
  intros Hkey Htext Hfail.
  split; [| split; [reflexivity | eexists; reflexivity]].
  apply run_gemini_analysis_except; auto.
  destruct Hfail as [H | [(rt & H1 & H2) | (rt & v & H1 & H2 & H3)]].
  - now apply scoring_call_fails.
  - now apply (scoring_unparseable text rt).
  - unfold DocAgent.scoring. rewrite (bind_ok _ _ _ _ _ H1).
    unfold_run. now rewrite H2, H3.
Qed.

(** *** The scheduler's [try] *)

Lemma run_pipeline_catches (file_path ftype : string)
      (api_keys : list (string * option string)) (w : World) :
  MetaAgent._run_pipeline_for_file cfg lib svc file_path ftype api_keys w
  = match MetaAgent.pipeline cfg lib svc file_path ftype api_keys w with
    | (Ok item, w') => (Ok item, w')
    | (Raise e, w') => (Ok (MetaAgent.failed_item file_path ftype e), w')
    end.
Proof. reflexivity. Qed.

Lemma audio_failure_reaches_scheduler (file_path : string)
      (api_keys : list (string * option string)) (w w1 : World) (e : exn) :
  audio_agent_loaded cfg = true ->
  AudioAgent.analyze_audio_file cfg lib svc file_path
    (or_else (MetaAgent.keys_get "assemblyai" api_keys)
             (ASSEMBLYAI_API_KEY cfg)) w = (Raise e, w1) ->
  MetaAgent._run_pipeline_for_file cfg lib svc file_path "audio" api_keys w
  = (Ok (MetaAgent.failed_item file_path "audio" e), w1).
Proof.
  intros Hl Ha. rewrite run_pipeline_catches.
  unfold MetaAgent.pipeline. simpl. rewrite Hl. simpl.
  unfold_run. now rewrite Ha.
Qed.

(** C4, as amended. Three of the four agents contain the failures of what
    they call: the image agent returns a report with verdict Error or
    Unknown and [rd_raw.error] set, and no [error] field of its own; the
    document agent returns its fallback report when the scoring call
    raises; the video agent skips a frame whose analysis raises.  The audio
    agent has no handler: what its upload, its transcription request or its
    polling raises leaves [analyze_audio_file], and it is the scheduler that
    turns it into an error entry. *)
Theorem agents_contain_failures_but_audio :
  (forall file_path w,
      exists r w1,
        ImageAgent.analyze_image_with_rd_and_gemini lib svc file_path w
        = (Ok r, w1))
  /\ (forall file_path w e w1,
         ImageAgent.analysis lib svc file_path w = (Raise e, w1) ->
         ImageAgent.analyze_image_with_rd_and_gemini lib svc file_path w
         = (Ok (ImageAgent.on_error e), w1)
         /\ (exists msg,
               rd_error_of (ImageAgent.on_error e) = Some (JStr msg))
         /\ has_error (ImageAgent.on_error e) = false)
  /\ (forall text w e w1,
         is_set (GEMINI_API_KEY cfg) = true ->
         PyStr.strip_nonempty text = true ->
         doc_generate_content svc text w = (Raise e, w1) ->
         DocAgent.run_gemini_analysis cfg lib svc text w
         = (Ok (DocAgent.fallback e), w1))
  /\ (forall frame_interval temp_img frame st w e w1,
         frame_interval <> 0%Z ->
         (VideoAgent.frame_idx st mod frame_interval = 0)%Z ->
         VideoAgent.analyze_frame lib svc temp_img frame st w = (Raise e, w1) ->
         VideoAgent.scan_frame lib svc frame_interval temp_img frame st w
         = (Ok (VideoAgent.next_frame st), w1))
  /\ (forall file_path api_key key w e w1,
         AudioAgent._get_api_key cfg api_key = Ok key ->
         upload_file_to_assemblyai svc file_path key w = (Raise e, w1) ->
         AudioAgent.analyze_audio_file cfg lib svc file_path api_key w
         = (Raise e, w1))
  /\ (forall file_path api_key key url w w1 e w2,
         AudioAgent._get_api_key cfg api_key = Ok key ->
         upload_file_to_assemblyai svc file_path key w = (Ok url, w1) ->
         request_transcription_from_assemblyai svc url key
           AudioAgent.default_features w1 = (Raise e, w2) ->
         AudioAgent.analyze_audio_file cfg lib svc file_path api_key w
         = (Raise e, w2))
  /\ (forall file_path api_key key url initial id w w1 w2 e w3,
         AudioAgent._get_api_key cfg api_key = Ok key ->
         upload_file_to_assemblyai svc file_path key w = (Ok url, w1) ->
         request_transcription_from_assemblyai svc url key
           AudioAgent.default_features w1 = (Ok initial, w2) ->
         py_get initial "id" JNull = Ok id ->
         truthy id = true ->
         poll_transcript_status svc id key w2 = (Raise e, w3) ->
         AudioAgent.analyze_audio_file cfg lib svc file_path api_key w
         = (Raise e, w3))
  /\ (forall file_path api_keys w e w1,
         audio_agent_loaded cfg = true ->
         AudioAgent.analyze_audio_file cfg lib svc file_path
           (or_else (MetaAgent.keys_get "assemblyai" api_keys)
                    (ASSEMBLYAI_API_KEY cfg)) w = (Raise e, w1) ->
         MetaAgent._run_pipeline_for_file cfg lib svc file_path "audio"
                                          api_keys w
         = (Ok (MetaAgent.failed_item file_path "audio" e), w1)).
Proof.
  split; [| split; [| split; [| split; [| split; [| split; [| split]]]]]].
  - intros file_path w. apply try_except_returns.
  - intros file_path w e w1 H. rewrite analyze_image_catches, H.
    split; [reflexivity | apply on_error_shape].
  - intros text w e w1 Hk Ht H.
    apply run_gemini_analysis_except; auto. now apply scoring_call_fails.
  - intros ? ? ? ? ? e ? ? ? ?. now apply (scan_frame_skips _ _ _ _ _ _ e).
  - intros. eapply analyze_audio_upload_fails; eauto.
  - intros. eapply analyze_audio_request_fails; eauto.
  - intros. eapply analyze_audio_poll_fails; eauto.
  - intros. now apply audio_failure_reaches_scheduler.
Qed.

(** *** Classification *)

(** Case analysis on the extension tests of the classifier. *)
Ltac by_extension :=
  repeat match goal with
         | |- context [if PyStr.mem ?e ?l then _ else _] =>
             destruct (PyStr.mem e l); cbv beta iota
         end.

Lemma category_of_cases (p : string) :
  In (MetaAgent.category_of p)
     ["images"; "video"; "audio"; "documents"; "unsupported"].
Proof.
  unfold MetaAgent.category_of. cbv zeta. by_extension; simpl; tauto.
Qed.

Lemma classify_from (paths : list string) :
  forall b,
    fold_left MetaAgent.file_into paths b
    = {| MetaAgent.images := MetaAgent.images b ++ files_of paths "images";
         MetaAgent.audio := MetaAgent.audio b ++ files_of paths "audio";
         MetaAgent.documents :=
           MetaAgent.documents b ++ files_of paths "documents";
         MetaAgent.video := MetaAgent.video b ++ files_of paths "video";
         MetaAgent.unsupported :=
           MetaAgent.unsupported b ++ files_of paths "unsupported" |}.
Proof.
  induction paths as [| p paths IH]; intros b; simpl.
  - destruct b; simpl. now rewrite !app_nil_r.
  - rewrite IH. unfold files_of. simpl filter.
    unfold MetaAgent.file_into, MetaAgent.category_of. cbv zeta.
    by_extension; simpl; rewrite <- ?app_assoc; reflexivity.
Qed.

(** Each bucket holds the files of its category, in the order supplied. *)
Lemma bucket_classify (paths : list string) (t : string) :
  MetaAgent.bucket (MetaAgent.classify paths) t = files_of paths t.
Proof.
  unfold MetaAgent.classify. rewrite classify_from. unfold MetaAgent.bucket.
  simpl.
  repeat (split_run;
          [match goal with E : String.eqb _ _ = true |- _ =>
             apply String.eqb_eq in E; now subst end |]).
  symmetry. unfold files_of.
  induction paths as [| p paths IH]; simpl; [reflexivity |].
  destruct (String.eqb (MetaAgent.category_of p) t) eqn:Ep; [| exact IH].
  apply String.eqb_eq in Ep. subst t.
  destruct (category_of_cases p) as [H | [H | [H | [H | [H | []]]]]];
    rewrite <- H in *; simpl in *; congruence.
Qed.

(** *** What the scheduler files for one job *)

(** An exception leaves an entry with [error], the category as [type],
    and no [report]. *)
Lemma failed_item_fields (file_path ftype : string) (e : exn) :
  PyDict.get "file" (MetaAgent.failed_item file_path ftype e)
  = Some (JStr (PyStr.basename file_path))
  /\ PyDict.get "type" (MetaAgent.failed_item file_path ftype e)
     = Some (JStr ftype)
  /\ PyDict.get "error" (MetaAgent.failed_item file_path ftype e)
     = Some (JStr (exn_str e))
  /\ PyDict.get "report" (MetaAgent.failed_item file_path ftype e) = None
  /\ PyDict.get "text" (MetaAgent.failed_item file_path ftype e) = None.
Proof. repeat split. Qed.

Lemma gather_failed_item (file_path ftype fname : string) (e : exn)
      (g : MetaAgent.Gathered) (w : World) :
  MetaAgent.gather lib ftype fname
    (MetaAgent.failed_item file_path ftype e) g w = (Ok g, w).
Proof.
  unfold MetaAgent.gather. unfold PyDict.mem. simpl PyDict.get.
  rewrite !andb_false_r. reflexivity.
Qed.

(** An item the [try] block returned: it names its file, the loop can read
    it without raising, and with the agent available it is a normal entry. *)
Lemma pipeline_item (file_path ftype : string)
      (api_keys : list (string * option string)) (w w' : World)
      (item : dict) :
  MetaAgent.pipeline cfg lib svc file_path ftype api_keys w = (Ok item, w') ->
  PyDict.get "file" item = Some (JStr (PyStr.basename file_path))
  /\ (forall fname g (w2 : World),
         exists g',
           MetaAgent.gather lib ftype fname item g w2 = (Ok g', w2)
           /\ MetaAgent.results_list g' = MetaAgent.results_list g)
  /\ (agent_loaded cfg ftype = true ->
      PyDict.mem "report" item = true /\ PyDict.mem "error" item = false).
Proof.
  unfold MetaAgent.pipeline, agent_loaded. cbv zeta. intros H.
  destruct (String.eqb ftype "images") eqn:E1.
  { apply String.eqb_eq in E1. subst ftype.
    destruct (image_agent_loaded cfg); simpl in H.
    - apply bind_ok_inv in H as (res & w1 & _ & H). injection H as <- _.
      repeat split; try discriminate. intros. eexists. split; reflexivity.
    - injection H as <- _.
      repeat split; try discriminate. intros. eexists. split; reflexivity. }
  destruct (String.eqb ftype "audio") eqn:E2.
  { apply String.eqb_eq in E2. subst ftype.
    destruct (audio_agent_loaded cfg); simpl in H.
    - apply bind_ok_inv in H as (res & w1 & Hres & H). injection H as <- _.
      apply analyze_audio_shape in Hres as (tr & text & Htr & Htext).
      repeat split; try discriminate. intros.
      unfold MetaAgent.gather. cbn -[py_get py_str truthy]. unfold_run.
      rewrite Htr, Htext.
      eexists. split; reflexivity.
    - injection H as <- _.
      repeat split; try discriminate. intros. eexists. split; reflexivity. }
  destruct (String.eqb ftype "video") eqn:E3.
  { apply String.eqb_eq in E3. subst ftype.
    destruct (video_agent_loaded cfg); simpl in H.
    - apply bind_ok_inv in H as (res & w1 & Hres & H). injection H as <- _.
      apply run_video_forensics_shape in Hres as (va & ratio & Hva & Hr).
      repeat split; try discriminate. intros.
      unfold MetaAgent.gather. cbn -[py_get py_str truthy]. unfold_run.
      rewrite Hva, Hr.
      eexists. split; reflexivity.
    - injection H as <- _.
      repeat split; try discriminate. intros. eexists. split; reflexivity. }
  destruct (String.eqb ftype "documents") eqn:E4.
  { apply String.eqb_eq in E4. subst ftype.
    destruct (doc_agent_loaded cfg); simpl in H.
    - apply bind_ok_inv in H as (text & w1 & _ & H).
      apply bind_ok_inv in H as (res & w2 & Hres & H). injection H as <- _.
      apply run_gemini_analysis_shape in Hres as (an & score & Han & Hs).
      repeat split; try discriminate. intros.
      unfold MetaAgent.gather. cbn -[py_get py_str truthy]. unfold_run.
      rewrite Han, Hs.
      eexists. split; reflexivity.
    - injection H as <- _.
      repeat split; try discriminate. intros. eexists. split; reflexivity. }
  injection H as <- _.
  repeat split; try discriminate. intros.
  unfold MetaAgent.gather. rewrite E2, E3, E4. simpl.
  eexists. split; reflexivity.
Qed.

(** *** The dispatch loop *)

Lemma entries_cons (f t : string) (rest : list (string * string))
      (api_keys : list (string * option string)) (w : World) :
  entries cfg lib svc ((f, t) :: rest) api_keys w
  = entry_of (f, t) (fst (MetaAgent.pipeline cfg lib svc f t api_keys w))
    :: entries cfg lib svc rest api_keys
         (snd (MetaAgent.pipeline cfg lib svc f t api_keys w)).
Proof.
  unfold entries. simpl.
  destruct (MetaAgent.pipeline cfg lib svc f t api_keys w). reflexivity.
Qed.

Lemma entries_app (j1 j2 : list (string * string))
      (api_keys : list (string * option string)) :
  forall w,
    entries cfg lib svc (j1 ++ j2) api_keys w
    = (entries cfg lib svc j1 api_keys w
       ++ entries cfg lib svc j2 api_keys
            (world_after cfg lib svc j1 api_keys w))%list.
Proof.
  induction j1 as [| [f t] j1 IH]; intros w; [reflexivity |].
  simpl app. rewrite !entries_cons, IH. reflexivity.
Qed.

Lemma world_after_app (j1 j2 : list (string * string))
      (api_keys : list (string * option string)) :
  forall w,
    world_after cfg lib svc (j1 ++ j2) api_keys w
    = world_after cfg lib svc j2 api_keys
        (world_after cfg lib svc j1 api_keys w).
Proof.
  induction j1 as [| [f t] j1 IH]; intros w; [reflexivity |].
  simpl. apply IH.
Qed.

Lemma length_entries (jobs : list (string * string))
      (api_keys : list (string * option string)) :
  forall w, List.length (entries cfg lib svc jobs api_keys w)
            = List.length jobs.
Proof.
  induction jobs as [| [f t] jobs IH]; intros w; [reflexivity |].
  rewrite entries_cons. simpl. now rewrite IH.
Qed.

(** The inner loop never raises and files one entry per file, in order. *)
Lemma dispatch_files_runs (t : string)
      (api_keys : list (string * option string)) (files : list string) :
  forall g w,
    exists g',
      MetaAgent.dispatch_files cfg lib svc t files api_keys g w
      = (Ok g', world_after cfg lib svc (map (fun f => (f, t)) files)
                            api_keys w)
      /\ MetaAgent.results_list g'
         = (MetaAgent.results_list g
            ++ entries cfg lib svc (map (fun f => (f, t)) files)
                       api_keys w)%list.
Proof.
  induction files as [| f files IH]; intros g w.
  - exists g. split; [reflexivity |]. unfold entries. simpl.
    now rewrite app_nil_r.
  - simpl map. rewrite entries_cons. simpl.
    unfold bind at 1. rewrite run_pipeline_catches.
    destruct (MetaAgent.pipeline cfg lib svc f t api_keys w)
      as [[item | e] w1] eqn:Ep; simpl.
    + destruct (pipeline_item _ _ _ _ _ _ Ep) as (_ & Hg & _).
      destruct (Hg (PyStr.basename f) (MetaAgent.append_result item g) w1)
        as (g1 & Hg1 & Hr1).
      unfold bind. rewrite Hg1.
      destruct (IH g1 w1) as (g' & Hd & Hr).
      exists g'. split; [exact Hd |].
      rewrite Hr, Hr1. simpl. now rewrite <- app_assoc.
    + unfold bind. rewrite gather_failed_item.
      destruct (IH (MetaAgent.append_result
                      (MetaAgent.failed_item f t e) g) w1)
        as (g' & Hd & Hr).
      exists g'. split; [exact Hd |].
      rewrite Hr. simpl. now rewrite <- app_assoc.
Qed.

(** The scheduler never raises, and its output is the entries of the jobs
    in the order it visits them. *)
Lemma dispatch_runs (buckets : MetaAgent.Buckets)
      (api_keys : list (string * option string))
      (ordered_types : list string) :
  forall g w,
    exists g',
      MetaAgent.dispatch cfg lib svc ordered_types buckets api_keys g w
      = (Ok g', world_after cfg lib svc (jobs_of ordered_types buckets)
                            api_keys w)
      /\ MetaAgent.results_list g'
         = (MetaAgent.results_list g
            ++ entries cfg lib svc (jobs_of ordered_types buckets)
                       api_keys w)%list.
Proof.
  induction ordered_types as [| t order IH]; intros g w.
  - exists g. split; [reflexivity |]. unfold entries. simpl.
    now rewrite app_nil_r.
  - unfold jobs_of. simpl flat_map. fold (jobs_of order buckets).
    rewrite entries_app, world_after_app. simpl.
    destruct (dispatch_files_runs t api_keys (MetaAgent.bucket buckets t) g w)
      as (g1 & Hd1 & Hr1).
    unfold bind. rewrite Hd1.
    destruct (IH g1 (world_after cfg lib svc
                       (map (fun f => (f, t)) (MetaAgent.bucket buckets t))
                       api_keys w))
      as (g' & Hd & Hr).
    exists g'. split; [exact Hd |].
    rewrite Hr, Hr1. now rewrite <- app_assoc.
Qed.

(** Every entry names the file of its job. *)
Lemma entries_file_names (api_keys : list (string * option string))
      (jobs : list (string * string)) :
  forall w,
    map file_name (entries cfg lib svc jobs api_keys w)
    = map (fun job => Some (PyStr.basename (fst job))) jobs.
Proof.
  induction jobs as [| [f t] jobs IH]; intros w; [reflexivity |].
  rewrite entries_cons. simpl. rewrite IH. f_equal.
  destruct (MetaAgent.pipeline cfg lib svc f t api_keys w)
    as [[item | e] w1] eqn:Ep; simpl; [| reflexivity].
  destruct (pipeline_item _ _ _ _ _ _ Ep) as (Hf & _).
  now rewrite Hf.
Qed.

Lemma perm_insert {A : Type} (p : A) (l1 l2 r : list A) :
  Permutation (l1 ++ l2) r -> Permutation (l1 ++ p :: l2) (p :: r).
Proof. intros H. rewrite <- H. symmetry. apply Permutation_middle. Qed.

(** Over the four categories, every classified file is scheduled once and
    no unsupported file is. *)
Lemma scheduled_files_classified (paths : list string) :
  Permutation (flat_map (files_of paths) categories)
              (filter classified paths).
Proof.
  unfold categories. simpl flat_map. rewrite app_nil_r.
  induction paths as [| p paths IH]; [constructor |].
  unfold files_of, classified in *. simpl filter.
  set (A := filter (fun p0 => MetaAgent.category_of p0 =? "audio") paths) in *.
  set (I := filter (fun p0 => MetaAgent.category_of p0 =? "images") paths) in *.
  set (V := filter (fun p0 => MetaAgent.category_of p0 =? "video") paths) in *.
  set (D := filter (fun p0 => MetaAgent.category_of p0 =? "documents") paths)
    in *.
  destruct (category_of_cases p) as [H | [H | [H | [H | [H | []]]]]];
    rewrite <- H; simpl.
  - now apply (perm_insert p A (I ++ V ++ D)%list).
  - rewrite app_assoc. apply perm_insert. now rewrite <- app_assoc.
  - now constructor.
  - rewrite 2 app_assoc. apply perm_insert. now rewrite <- !app_assoc.
  - exact IH.
Qed.

(** *** Stamping *)

Lemma stamp_runs (results : dict) (w : World) :
  exists b w',
    MetaAgent.stamp cfg lib svc results w = (Ok b, w')
    /\ PyDict.get "proof_hash" b
       = Some (JStr (_make_hash lib (JDict results)))
    /\ (forall k, k <> "proof_hash" -> k <> "blockchain_tx" ->
                  PyDict.get k b = PyDict.get k results)
    /\ (ledger_loaded cfg = true ->
        forall e w1,
          log_verification_hash svc
            ("0x" ++ _make_hash lib (JDict results)) w = (Raise e, w1) ->
          PyDict.get "blockchain_tx" b
          = Some (JDict [("error", JStr (exn_str e))]))
    /\ (ledger_loaded cfg = true ->
        forall tx w1,
          log_verification_hash svc
            ("0x" ++ _make_hash lib (JDict results)) w = (Ok tx, w1) ->
          PyDict.get "blockchain_tx" b = Some tx).
Proof.
  unfold MetaAgent.stamp. cbv zeta.
  destruct (ledger_loaded cfg).
  - unfold_run.
    destruct (log_verification_hash svc
                ("0x" ++ _make_hash lib (JDict results)) w)
      as [[tx | e] w1] eqn:El;
      do 2 eexists; (split; [reflexivity |]); repeat split;
        try discriminate; intros.
    + rewrite get_set_other by discriminate. apply get_set_same.
    + rewrite !get_set_other by auto. reflexivity.
    + match goal with H : (_, _) = (_, _) |- _ => injection H as <- _ end.
      apply get_set_same.
    + rewrite get_set_other by discriminate. apply get_set_same.
    + rewrite !get_set_other by auto. reflexivity.
    + match goal with H : (_, _) = (_, _) |- _ => injection H as <- _ end.
      apply get_set_same.
  - do 2 eexists. split; [reflexivity |]. repeat split; try discriminate.
    + apply get_set_same.
    + intros. now rewrite get_set_other.
Qed.


Lemma jobs_of_classify (order paths : list string) :
  map fst (jobs_of order (MetaAgent.classify paths))
  = flat_map (files_of paths) order.
Proof.
  unfold jobs_of. induction order as [| t o IH]; [reflexivity |].
  simpl. rewrite map_app, IH, map_map, bucket_classify. simpl.
  now rewrite map_id.
Qed.



(** C1, as amended. The scheduler never raises; its [results] sequence
    has one entry per classified file and none for an unsupported file, in
    priority order and, within a category, in the order the files were
    supplied, whether the per-file calls succeeded or not.  It is the
    [results] field of the bundle [meta_process] returns whenever the meta
    report writes no [results] key of its own. *)
Theorem results_follow_priority_then_input_order
        (session_id : string) (file_paths : list string)
        (user_instructions : option string)
        (api_keys : option (list (string * option string))) (w : World) :
  let order := _parse_priority_from_instructions user_instructions in
  let keys := match api_keys with Some k => k | None => [] end in
  let scheduled := flat_map (files_of file_paths) order in
  exists g w1,
    MetaAgent.dispatch cfg lib svc order (MetaAgent.classify file_paths)
                       keys MetaAgent.nothing_gathered w = (Ok g, w1)
    /\ map file_name (MetaAgent.results_list g)
       = map (fun p => Some (PyStr.basename p)) scheduled
    /\ Permutation scheduled (filter classified file_paths)
    /\ List.length (MetaAgent.results_list g)
       = List.length (filter classified file_paths)
    /\ forall m w2 b w',
         MetaAgent._generate_meta_intelligence cfg lib svc
           (String.concat nl (MetaAgent.aggregate_text_parts g))
           user_instructions (MetaAgent.file_summaries g) w1 = (Ok m, w2) ->
         ~ In "results" (update_keys m) ->
         MetaAgent.meta_process cfg lib svc session_id file_paths
                                user_instructions api_keys w = (Ok b, w') ->
         PyDict.get "results" b = Some (JList (MetaAgent.results_list g)).
Proof.
  cbv zeta.
  set (order := _parse_priority_from_instructions user_instructions).
  set (keys := match api_keys with Some k => k | None => [] end).
  destruct (dispatch_runs (MetaAgent.classify file_paths) keys order
                          MetaAgent.nothing_gathered w)
    as (g & Hd & Hr).
  simpl in Hr.
  assert (Hjobs : map fst (jobs_of order (MetaAgent.classify file_paths))
                  = flat_map (files_of file_paths) order).
  { apply jobs_of_classify. }
  assert (Hperm : Permutation (flat_map (files_of file_paths) order)
                              (filter classified file_paths)).
  { rewrite <- scheduled_files_classified.
    apply Permutation_flat_map.
    apply (parsed_order_permutation user_instructions). }
  exists g, (world_after cfg lib svc
               (jobs_of order (MetaAgent.classify file_paths)) keys w).
  split; [exact Hd |]. split; [| split; [exact Hperm | split]].
  - rewrite Hr, entries_file_names, <- Hjobs, map_map. reflexivity.
  - rewrite Hr, length_entries, <- (Permutation_length Hperm), <- Hjobs.
    now rewrite length_map.
  - intros m w2 b w' Hm Hn Hp.
    unfold MetaAgent.meta_process in Hp.
    apply bind_ok_inv in Hp as (res & w3 & Ha & Hs).
    unfold MetaAgent.assemble in Ha. fold order keys in Ha.
    rewrite (bind_ok _ _ _ _ _ Hd) in Ha.
    rewrite (bind_ok _ _ _ _ _ Hm) in Ha.
    unfold lift in Ha. injection Ha as Hu _.
    destruct (stamp_runs res w3) as (b0 & w0 & Hs0 & _ & Hk & _).
    rewrite Hs0 in Hs. injection Hs as <- _.
    rewrite Hk by discriminate.
    rewrite (py_update_other _ _ _ _ Hu Hn). reflexivity.
Qed.

(** *** Counting error entries *)

Lemma outcomes_cons (f t : string) (rest : list (string * string))
      (api_keys : list (string * option string)) (w : World) :
  outcomes cfg lib svc ((f, t) :: rest) api_keys w
  = fst (MetaAgent.pipeline cfg lib svc f t api_keys w)
    :: outcomes cfg lib svc rest api_keys
         (snd (MetaAgent.pipeline cfg lib svc f t api_keys w)).
Proof.
  simpl. destruct (MetaAgent.pipeline cfg lib svc f t api_keys w).
  reflexivity.
Qed.

(** With its agent available, a job's entry has [error] set exactly when
    its call raised, and is a normal entry otherwise. *)
Lemma entry_kind (f t : string) (api_keys : list (string * option string))
      (w : World) :
  agent_loaded cfg t = true ->
  let r := fst (MetaAgent.pipeline cfg lib svc f t api_keys w) in
  has_error (entry_of (f, t) r) = raised r
  /\ is_normal (entry_of (f, t) r) = negb (raised r).
Proof.
  intros Hl. cbv zeta.
  destruct (MetaAgent.pipeline cfg lib svc f t api_keys w)
    as [[item | e] w1] eqn:Ep; simpl.
  - destruct (pipeline_item _ _ _ _ _ _ Ep) as (_ & _ & Hk).
    destruct (Hk Hl) as [Hrep Herr]. now rewrite Hrep, Herr.
  - split; reflexivity.
Qed.

Lemma loaded_not_missing (t : string) :
  agent_loaded cfg t = true -> agent_missing cfg t = false.
Proof.
  unfold agent_loaded, agent_missing.
  repeat match goal with
         | |- context [String.eqb t ?c] => destruct (String.eqb t c)
         end; try (intros ->; reflexivity); discriminate.
Qed.

(** In general an entry has [error] set when its call raised or when its
    agent is missing, and in the second case nothing is called. *)
Lemma entry_error (f t : string) (api_keys : list (string * option string))
      (w : World) :
  let r := fst (MetaAgent.pipeline cfg lib svc f t api_keys w) in
  has_error (entry_of (f, t) r) = raised r || agent_missing cfg t
  /\ (agent_missing cfg t = true -> raised r = false).
Proof.
  cbv zeta. destruct (agent_loaded cfg t) eqn:El.
  - destruct (entry_kind f t api_keys w El) as [He _].
    rewrite He, (loaded_not_missing t El), orb_false_r.
    split; [reflexivity | discriminate].
  - revert El. unfold MetaAgent.pipeline, agent_loaded, agent_missing.
    destruct (String.eqb t "images");
      [intros ->; split; reflexivity |].
    destruct (String.eqb t "audio");
      [intros ->; split; reflexivity |].
    destruct (String.eqb t "video");
      [intros ->; split; reflexivity |].
    destruct (String.eqb t "documents");
      [intros ->; split; reflexivity |].
    intros _. split; [reflexivity | discriminate].
Qed.

Lemma entries_error_count (api_keys : list (string * option string))
      (jobs : list (string * string)) :
  forall w,
    List.length (filter has_error (entries cfg lib svc jobs api_keys w))
    = (List.length (filter raised (outcomes cfg lib svc jobs api_keys w))
       + List.length (filter (fun job => agent_missing cfg (snd job)) jobs))
      %nat.
Proof.
  induction jobs as [| [f t] jobs IH]; intros w; [reflexivity |].
  rewrite entries_cons, outcomes_cons.
  destruct (entry_error f t api_keys w) as [He Hx].
  specialize (IH (snd (MetaAgent.pipeline cfg lib svc f t api_keys w))).
  simpl filter. rewrite He. simpl snd.
  destruct (agent_missing cfg t).
  - rewrite (Hx eq_refl). simpl. lia.
  - rewrite orb_false_r.
    destruct (raised (fst (MetaAgent.pipeline cfg lib svc f t api_keys w)));
      simpl; lia.
Qed.

Lemma entries_counts (api_keys : list (string * option string))
      (jobs : list (string * string)) :
  (forall job, In job jobs -> agent_loaded cfg (snd job) = true) ->
  forall w,
    List.length (filter has_error (entries cfg lib svc jobs api_keys w))
    = List.length (filter raised (outcomes cfg lib svc jobs api_keys w))
    /\ (List.length (filter is_normal (entries cfg lib svc jobs api_keys w))
        + List.length (filter raised (outcomes cfg lib svc jobs api_keys w))
        = List.length jobs)%nat.
Proof.
  induction jobs as [| [f t] jobs IH]; intros Hl w; [split; reflexivity |].
  rewrite entries_cons, outcomes_cons.
  destruct (entry_kind f t api_keys w) as [He Hn].
  { apply (Hl (f, t)). now left. }
  destruct (IH (fun job H => Hl job (or_intror H))
               (snd (MetaAgent.pipeline cfg lib svc f t api_keys w)))
    as [IH1 IH2].
  simpl filter. rewrite He, Hn.
  destruct (raised (fst (MetaAgent.pipeline cfg lib svc f t api_keys w)));
    simpl; lia.
Qed.

(** C3, as amended. An exception of the per-file call is caught by the
    scheduler: the entry it files has [error] set to the exception's text,
    [type] set to the category, and no [report].  So in a batch of N files,
    each with its agent available, in which exactly one call raises, the
    output has N entries, exactly one with [error] set and N-1 normal ones.
    A file whose agent is missing gets an entry with [error] set although
    nothing is called: in any batch the output has N entries, and the
    entries with [error] set are as many as the calls that raise and the
    files whose agent is missing together. *)
Theorem scheduler_isolates_adapter_failures :
  (forall file_path ftype api_keys w e w1,
      MetaAgent.pipeline cfg lib svc file_path ftype api_keys w
      = (Raise e, w1) ->
      exists item,
        MetaAgent._run_pipeline_for_file cfg lib svc file_path ftype
                                         api_keys w = (Ok item, w1)
        /\ PyDict.get "error" item = Some (JStr (exn_str e))
        /\ PyDict.get "type" item = Some (JStr ftype)
        /\ PyDict.get "report" item = None)
  /\ (forall ordered_types buckets api_keys w,
         let jobs := jobs_of ordered_types buckets in
         (forall job, In job jobs -> agent_loaded cfg (snd job) = true) ->
         List.length (filter raised (outcomes cfg lib svc jobs api_keys w))
         = 1%nat ->
         exists g w',
           MetaAgent.dispatch cfg lib svc ordered_types buckets api_keys
                              MetaAgent.nothing_gathered w = (Ok g, w')
           /\ List.length (MetaAgent.results_list g) = List.length jobs
           /\ List.length (filter has_error (MetaAgent.results_list g))
              = 1%nat
           /\ List.length (filter is_normal (MetaAgent.results_list g))
              = (List.length jobs - 1)%nat)
  /\ (forall ordered_types buckets api_keys w,
         let jobs := jobs_of ordered_types buckets in
         exists g w',
           MetaAgent.dispatch cfg lib svc ordered_types buckets api_keys
                              MetaAgent.nothing_gathered w = (Ok g, w')
           /\ List.length (MetaAgent.results_list g) = List.length jobs
           /\ List.length (filter has_error (MetaAgent.results_list g))
              = (List.length
                   (filter raised (outcomes cfg lib svc jobs api_keys w))
                 + List.length
                     (filter (fun job => agent_missing cfg (snd job)) jobs))
                %nat).
Proof.
  split; [| split].
  - intros file_path ftype api_keys w e w1 Hp.
    exists (MetaAgent.failed_item file_path ftype e).
    rewrite run_pipeline_catches, Hp. repeat split.
  - intros ordered_types buckets api_keys w jobs Hl Hone.
    destruct (dispatch_runs buckets api_keys ordered_types
                            MetaAgent.nothing_gathered w)
      as (g & Hd & Hr).
    simpl in Hr. fold jobs in Hd, Hr.
    destruct (entries_counts api_keys jobs Hl w) as [He Hn].
    exists g, (world_after cfg lib svc jobs api_keys w).
    rewrite Hr, length_entries. repeat split; try assumption; lia.
  - intros ordered_types buckets api_keys w jobs.
    destruct (dispatch_runs buckets api_keys ordered_types
                            MetaAgent.nothing_gathered w)
      as (g & Hd & Hr).
    simpl in Hr. fold jobs in Hd, Hr.
    exists g, (world_after cfg lib svc jobs api_keys w).
    rewrite Hr, length_entries. split; [exact Hd |].
    split; [reflexivity |]. apply entries_error_count.
Qed.

(** *** The evidence in the prompt *)

Lemma take_is_prefix (n : nat) :
  forall s, exists rest, s = PyStr.take n s ++ rest.
Proof.
  induction n as [| n IH]; intros s.
  - exists s. reflexivity.
  - destruct s as [| c s]; [exists ""; reflexivity |].
    destruct (IH s) as [rest Hr]. exists rest. simpl. now rewrite <- Hr.
Qed.

Lemma take_length (n : nat) :
  forall s, String.length (PyStr.take n s) = Nat.min n (String.length s).
Proof.
  induction n as [| n IH]; intros s; [reflexivity |].
  destruct s as [| c s]; [reflexivity |]. simpl. now rewrite IH.
Qed.

Lemma take_all (n : nat) :
  forall s, (String.length s <= n)%nat -> PyStr.take n s = s.
Proof.
  induction n as [| n IH]; intros [| c s] H; simpl in *;
    try reflexivity; [lia |].
  rewrite IH by lia. reflexivity.
Qed.

(** C9. With the model key set, [_generate_meta_intelligence] makes one
    call to the synthesis model, and the prompt it sends is the head (the
    instructions and the file summaries, up to the [EVIDENCE:] label), the
    first 25,000 characters of the aggregate text, and the closing line;
    its result is that call's response, parsed.  The evidence sent is a
    prefix of the aggregate text, all of it when it is not longer than
    25,000 characters, and the synthesis depends on the aggregate text
    through that prefix alone. *)
Theorem evidence_in_prompt_is_prefix
        (aggregate_text : string) (user_instructions : option string)
        (file_summaries : list string) :
  MetaAgent.evidence_limit = 25000%nat
  /\ MetaAgent.context_of aggregate_text user_instructions file_summaries
     = MetaAgent.prompt_head user_instructions file_summaries
         ++ PyStr.take MetaAgent.evidence_limit aggregate_text
         ++ MetaAgent.prompt_tail
  /\ (forall w : World,
        is_set (GEMINI_API_KEY cfg) = true ->
        MetaAgent._generate_meta_intelligence cfg lib svc aggregate_text
          user_instructions file_summaries w
        = match
            meta_generate_content svc
              (MetaAgent.prompt_head user_instructions file_summaries
                 ++ PyStr.take MetaAgent.evidence_limit aggregate_text
                 ++ MetaAgent.prompt_tail) w
          with
          | (Ok response_text, w') =>
              match json_loads lib response_text with
              | Ok report => (Ok report, w')
              | Raise e =>
                  match exn_cls e with
                  | JSONDecodeError =>
                      (Ok (MetaAgent.unparsed_report response_text), w')
                  | _ => (Raise e, w')
                  end
              end
          | (Raise e, w') => (Raise e, w')
          end)
  /\ (exists rest,
        aggregate_text
        = PyStr.take MetaAgent.evidence_limit aggregate_text ++ rest)
  /\ String.length (PyStr.take MetaAgent.evidence_limit aggregate_text)
     = Nat.min MetaAgent.evidence_limit (String.length aggregate_text)
  /\ ((String.length aggregate_text <= MetaAgent.evidence_limit)%nat ->
      PyStr.take MetaAgent.evidence_limit aggregate_text = aggregate_text)
  /\ (forall other_text (w : World),
         PyStr.take MetaAgent.evidence_limit other_text
         = PyStr.take MetaAgent.evidence_limit aggregate_text ->
         MetaAgent._generate_meta_intelligence cfg lib svc other_text
           user_instructions file_summaries w
         = MetaAgent._generate_meta_intelligence cfg lib svc aggregate_text
             user_instructions file_summaries w).
Proof.
  split; [reflexivity |]. split; [reflexivity |].
  split.
  { intros w Hk.
    unfold MetaAgent._generate_meta_intelligence, MetaAgent.context_of.
    rewrite Hk. cbn [negb]. unfold bind.
    destruct (meta_generate_content svc _ w) as [[response_text | e] w'];
      [| reflexivity].
    destruct (json_loads lib response_text) as [report | e];
      [reflexivity |].
    destruct (exn_cls e); reflexivity. }
  split; [apply take_is_prefix |].
  split; [apply take_length |].
  split; [apply take_all |].
  intros other_text w Heq.
  unfold MetaAgent._generate_meta_intelligence, MetaAgent.context_of.
  now rewrite Heq.
Qed.

(** *** The sampling loop of the video agent *)

Lemma analysis_score_is_float (file_path : string) (w w1 : World) (r : json) :
  ImageAgent.analyze_image_with_rd_and_gemini lib svc file_path w
  = (Ok r, w1) ->
  exists q, py_get r "tamperingPercentage" (JFloat 0) = Ok (JFloat q).
Proof.
  rewrite analyze_image_catches.
  destruct (ImageAgent.analysis lib svc file_path w) as [[r0 | e] w0] eqn:Ea;
    intros H; injection H as <- _.
  - unfold ImageAgent.analysis in Ea. unfold_run.
    repeat split_run_in Ea; injection Ea as <- _; eexists; reflexivity.
  - unfold ImageAgent.on_error.
    destruct (exn_cls e); eexists; reflexivity.
Qed.

Lemma frame_tamper_score_float (temp_img : string) (frame : Frame)
      (w w1 : World) (v : json) :
  VideoAgent.frame_tamper_score lib svc temp_img frame w = (Ok v, w1) ->
  exists q, v = JFloat q.
Proof.
  unfold VideoAgent.frame_tamper_score. intros H.
  apply bind_ok_inv in H as (u & w2 & _ & H).
  apply bind_ok_inv in H as (r & w3 & Hr & H).
  apply analysis_score_is_float in Hr as (q & Hq).
  unfold lift in H. rewrite Hq in H. injection H as <- _. eauto.
Qed.

Lemma count_over_60_cons (q : Q) (scores : list Q) :
  count_over_60 (q :: scores)
  = ((if Qlt_le_dec 60 q then 1 else 0) + count_over_60 scores)%Z.
Proof.
  unfold count_over_60. simpl filter.
  destruct (Qlt_le_dec 60 q); simpl List.length; lia.
Qed.

(** The loop never raises when the interval is not zero, and its counters
    end as the observed scores say. *)
Lemma scan_frames_runs (frame_interval : Z) (temp_img : string) :
  frame_interval <> 0%Z ->
  forall frames st w h,
    VideoAgent.highest_fake_score st = JFloat h ->
    exists w',
      VideoAgent.scan_frames lib svc frame_interval temp_img frames st w
      = (Ok (scan_after st
               (observed_scores lib svc frame_interval temp_img frames
                                (VideoAgent.frame_idx st) w)
               (List.length frames)), w').
Proof.
  intros Hi. apply Z.eqb_neq in Hi.
  induction frames as [| frame rest IH]; intros st w h Hh.
  - exists w. simpl. unfold ret, scan_after. rewrite Hh.
    destruct st; simpl in *. subst. repeat f_equal; unfold count_over_60;
      simpl; lia.
  - simpl VideoAgent.scan_frames. unfold VideoAgent.scan_frame. rewrite Hi.
    simpl observed_scores.
    destruct (VideoAgent.frame_idx st mod frame_interval =? 0)%Z.
    + unfold VideoAgent.analyze_frame. unfold_run.
      destruct (VideoAgent.frame_tamper_score lib svc temp_img frame w)
        as [[v | e] w1] eqn:Ef.
      * destruct (frame_tamper_score_float _ _ _ _ _ Ef) as (q & ->).
        unfold VideoAgent.count_frame. rewrite Hh. simpl as_number.
        cbv iota beta.
        match goal with
        | |- context [VideoAgent.scan_frames _ _ _ _ _ ?s w1] =>
            destruct (IH s w1 (if Qlt_le_dec h q then q else h)) as (w' & Hs)
        end.
        { simpl. now destruct (Qlt_le_dec h q). }
        exists w'. rewrite Hs. simpl VideoAgent.frame_idx.
        f_equal. f_equal. unfold scan_after. simpl.
        rewrite count_over_60_cons, Hh.
        destruct (Qlt_le_dec 60 q), (Qlt_le_dec h q); f_equal; lia.
      * destruct (IH (VideoAgent.next_frame st) w1 h Hh) as (w' & Hs).
        exists w'. rewrite Hs. f_equal. f_equal.
        unfold scan_after. simpl. f_equal; lia.
    + unfold_run.
      destruct (IH (VideoAgent.next_frame st) w h Hh) as (w' & Hs).
      exists w'. rewrite Hs. f_equal. f_equal.
      unfold scan_after. simpl. f_equal; lia.
Qed.

(** What [analyze_video_frames] reports for a video that opens and whose
    sampling interval is not zero. *)
Lemma analyze_video_frames_result (video_path : string) (w w2 : World)
      (cap : Capture Frame) :
  cv2_VideoCapture svc video_path w = (Ok (Some cap), w2) ->
  let fps := if Qlt_le_dec 0 (cap_fps cap) then cap_fps cap else 30 in
  let frame_interval := py_int (fps * 2) in
  frame_interval <> 0%Z ->
  let scores := observed_scores lib svc frame_interval
                                (video_path ++ "_temp.jpg")
                                (cap_frames cap) 0 w2 in
  exists visuals w',
    VideoAgent.analyze_video_frames lib svc video_path w = (Ok visuals, w')
    /\ py_get visuals "frames_analyzed" (JInt 0)
       = Ok (JInt (Z.of_nat (List.length scores)))
    /\ py_get visuals "fake_frames_count" (JInt 0)
       = Ok (JInt (count_over_60 scores))
    /\ py_get visuals "max_fake_score" (JInt 0)
       = Ok (JFloat (round2 (highest_score scores)))
    /\ (scores = [] ->
        py_get visuals "fake_ratio_percent" (JInt 0) = Ok (JInt 0)).
Proof.
  intros Hc fps frame_interval Hi scores.
  unfold VideoAgent.analyze_video_frames.
  rewrite (bind_ok _ _ _ _ _ Hc). fold fps. fold frame_interval.
  destruct (scan_frames_runs frame_interval (video_path ++ "_temp.jpg") Hi
              (cap_frames cap) VideoAgent.scan_start w2 0 eq_refl)
    as (w' & Hs).
  simpl VideoAgent.frame_idx in Hs. fold scores in Hs.
  rewrite (bind_ok _ _ _ _ _ Hs). unfold_run.
  do 2 eexists. split; [reflexivity |].
  repeat split.
  intros ->. reflexivity.
Qed.

(** C8, as amended. For a video that opens and is scanned, the verdict is
    "Tampering Detected" exactly when some analysed frame scored above 60,
    and "Likely Original" otherwise; the authenticity score is
    [(100 - m) / 100.0], evaluated in double arithmetic, where [m] is the
    [max_fake_score] the scan reports: the highest score among the
    analysed frames (0 when there is none) rounded to two decimals. *)
Theorem video_verdict_and_authenticity
        (video_path : string) (w w2 : World) (cap : Capture Frame) :
  let w1 := snd (VideoAgent.extract_basic_metadata svc video_path w) in
  cv2_VideoCapture svc video_path w1 = (Ok (Some cap), w2) ->
  let fps := if Qlt_le_dec 0 (cap_fps cap) then cap_fps cap else 30 in
  let frame_interval := py_int (fps * 2) in
  frame_interval <> 0%Z ->
  let scores := observed_scores lib svc frame_interval
                                (video_path ++ "_temp.jpg")
                                (cap_frames cap) 0 w2 in
  exists report w',
    VideoAgent.run_video_forensics lib svc video_path w = (Ok report, w')
    /\ verdict_of_report report
       = Some (if (0 <? count_over_60 scores)%Z
               then "Tampering Detected" else "Likely Original")
    /\ authenticity_of_report report
       = Some (float_div (float_sub 100 (round2 (highest_score scores)))
                         100).
Proof.
  intros w1 Hc fps frame_interval Hi scores.
  destruct (analyze_video_frames_result video_path w1 w2 cap Hc Hi)
    as (visuals & w' & Hv & _ & Hcount & Hmax & _).
  fold fps frame_interval scores in Hcount, Hmax.
  unfold VideoAgent.run_video_forensics.
  destruct (try_except_returns
              (bind (cv2_VideoCapture svc video_path)
                    (fun cap0 =>
                       match cap0 with
                       | Some c => ret (VideoAgent.metadata_of c)
                       | None =>
                           ret (JDict [("error",
                                        JStr "Could not open video file.")])
                       end))
              (fun e => JDict [("error", JStr (exn_str e))]) w)
    as (meta & wm & Hm).
  change (VideoAgent.extract_basic_metadata svc video_path w = (Ok meta, wm))
    in Hm.
  assert (Hw : w1 = wm) by (unfold w1; now rewrite Hm).
  rewrite (bind_ok _ _ _ _ _ Hm). rewrite <- Hw.
  rewrite (bind_ok _ _ _ _ _ Hv). unfold_run.
  rewrite Hcount, Hmax. simpl as_number.
  do 2 eexists. split; [reflexivity |]. split; [| reflexivity].
  simpl.
  destruct (Qlt_le_dec 0 (inject_Z (count_over_60 scores))) as [Hlt | Hle];
    destruct (0 <? count_over_60 scores)%Z eqn:Ez; try reflexivity.
  - apply Z.ltb_ge in Ez. exfalso.
    apply (Qlt_not_le _ _ Hlt). rewrite <- (Zle_Qle _ 0). exact Ez.
  - apply Z.ltb_lt in Ez. exfalso.
    apply (Qlt_not_le 0 (inject_Z (count_over_60 scores))); [| exact Hle].
    rewrite <- (Zlt_Qlt 0). exact Ez.
Qed.

(** The guard of the final division: with no frame analysed the ratio is
    the integer 0. *)
Lemma fake_ratio_guarded (st : VideoAgent.scan) :
  VideoAgent.total_analyzed st = 0%Z ->
  VideoAgent.fake_ratio_of st = JInt 0.
Proof. intros H. unfold VideoAgent.fake_ratio_of. now rewrite H. Qed.

(** With a sampling interval that is not zero, a video in which no frame
    is analysed gets [fake_ratio_percent] 0 and zero counts: the division
    [fake_frames / total_analyzed] is not reached. *)
Theorem no_analysed_frame_gives_zero_ratio
        (video_path : string) (w w2 : World) (cap : Capture Frame) :
  cv2_VideoCapture svc video_path w = (Ok (Some cap), w2) ->
  let fps := if Qlt_le_dec 0 (cap_fps cap) then cap_fps cap else 30 in
  let frame_interval := py_int (fps * 2) in
  frame_interval <> 0%Z ->
  observed_scores lib svc frame_interval (video_path ++ "_temp.jpg")
                  (cap_frames cap) 0 w2 = [] ->
  exists visuals w',
    VideoAgent.analyze_video_frames lib svc video_path w = (Ok visuals, w')
    /\ py_get visuals "frames_analyzed" (JInt 0) = Ok (JInt 0)
    /\ py_get visuals "fake_ratio_percent" (JInt 0) = Ok (JInt 0).
Proof.
  intros Hc fps frame_interval Hi Hnone.
  destruct (analyze_video_frames_result video_path w w2 cap Hc Hi)
    as (visuals & w' & Hv & Hn & _ & _ & Hr).
  fold fps frame_interval in Hn, Hr. rewrite Hnone in Hn.
  exists visuals, w'. split; [exact Hv |]. split; [exact Hn |].
  now apply Hr.
Qed.

(** A sampling interval of zero makes the first frame raise. *)
Lemma zero_interval_raises (temp_img : string) (frame : Frame)
      (rest : list Frame) (st : VideoAgent.scan) (w : World) :
  VideoAgent.scan_frames lib svc 0 temp_img (frame :: rest) st w
  = (Raise (mk_exn ZeroDivisionError "integer modulo by zero"), w).
Proof. reflexivity. Qed.

Lemma py_int_below_one (x : Q) : 0 < x -> x < 1 -> py_int x = 0%Z.
Proof.
  intros H0 H1. unfold py_int.
  assert (Hle : Qle_bool 0 x = true)
    by (apply Qle_bool_iff; now apply Qlt_le_weak).
  rewrite Hle.
  assert (Hlo : (Qfloor x < 1)%Z).
  { rewrite Zlt_Qlt. eapply Qle_lt_trans; [apply Qfloor_le | exact H1]. }
  assert (Hhi : (0 < Qfloor x + 1)%Z).
  { rewrite Zlt_Qlt. eapply Qlt_trans; [exact H0 | apply Qlt_floor]. }
  lia.
Qed.

(** C10. The claim fails on a video that reports less than half a frame
    per second and yields a frame: the sampling interval [int(fps * 2.0)]
    is 0, and the test [frame_idx % frame_interval], which is outside the
    [try], raises [ZeroDivisionError] on the first frame, before any frame
    is analysed; [analyze_video_frames] raises instead of returning a
    ratio of 0. *)
Theorem low_frame_rate_raises_zero_division
        (video_path : string) (w w1 : World) (cap : Capture Frame)
        (frame : Frame) (rest : list Frame) :
  cv2_VideoCapture svc video_path w = (Ok (Some cap), w1) ->
  0 < cap_fps cap ->
  cap_fps cap < 1 # 2 ->
  cap_frames cap = frame :: rest ->
  VideoAgent.analyze_video_frames lib svc video_path w
  = (Raise (mk_exn ZeroDivisionError "integer modulo by zero"), w1).
Proof.
  intros Hc H0 H1 Hf.
  unfold VideoAgent.analyze_video_frames.
  rewrite (bind_ok _ _ _ _ _ Hc).
  destruct (Qlt_le_dec 0 (cap_fps cap)) as [_ | Hle];
    [| exfalso; exact (Qlt_not_le _ _ H0 Hle)].
  rewrite py_int_below_one.
  - rewrite Hf. reflexivity.
  - setoid_replace 0 with (0 * 2) by reflexivity.
    apply Qmult_lt_compat_r; [reflexivity | exact H0].
  - setoid_replace 1 with ((1 # 2) * 2) by reflexivity.
    apply Qmult_lt_compat_r; [reflexivity | exact H1].
Qed.

(** ** Classification *)

(** X2. Every input path lands in exactly one of the five buckets, the one its
    lower-cased extension names, and each bucket keeps the order in which
    its files were supplied. *)
Theorem classification_partitions_input (file_paths : list string) :
  let b := MetaAgent.classify file_paths in
  Permutation (MetaAgent.images b ++ MetaAgent.video b ++ MetaAgent.audio b
                 ++ MetaAgent.documents b ++ MetaAgent.unsupported b)%list
              file_paths
  /\ (forall t, MetaAgent.bucket b t
                = filter (fun p => String.eqb (MetaAgent.category_of p) t)
                         file_paths)
  /\ (forall t p, In p (MetaAgent.bucket b t)
                  <-> In p file_paths /\ MetaAgent.category_of p = t).
Proof.
  cbv zeta. split; [| split].
  - unfold MetaAgent.classify. rewrite classify_from. simpl.
    induction file_paths as [| p paths IH]; [constructor |].
    unfold files_of in *. simpl filter.
    set (A := filter (fun p0 => MetaAgent.category_of p0 =? "audio") paths)
      in *.
    set (I := filter (fun p0 => MetaAgent.category_of p0 =? "images") paths)
      in *.
    set (V := filter (fun p0 => MetaAgent.category_of p0 =? "video") paths)
      in *.
    set (D := filter (fun p0 => MetaAgent.category_of p0 =? "documents")
                     paths) in *.
    set (U := filter (fun p0 => MetaAgent.category_of p0 =? "unsupported")
                     paths) in *.
    destruct (category_of_cases p) as [H | [H | [H | [H | [H | []]]]]];
      rewrite <- H; simpl.
    + now constructor.
    + now apply (perm_insert p I (V ++ A ++ D ++ U)%list).
    + rewrite app_assoc. apply perm_insert. now rewrite <- app_assoc.
    + rewrite 2 app_assoc. apply perm_insert. now rewrite <- !app_assoc.
    + rewrite 3 app_assoc. apply perm_insert. now rewrite <- !app_assoc.
  - intros t. apply bucket_classify.
  - intros t p. rewrite bucket_classify. unfold files_of.
    rewrite filter_In, String.eqb_eq. reflexivity.
Qed.

(** The scheduler reads the buckets only through the categories it
    visits. *)
Lemma dispatch_same_buckets (b1 b2 : MetaAgent.Buckets)
      (api_keys : list (string * option string)) (order : list string) :
  (forall t, In t order -> MetaAgent.bucket b1 t = MetaAgent.bucket b2 t) ->
  forall g w,
    MetaAgent.dispatch cfg lib svc order b1 api_keys g w
    = MetaAgent.dispatch cfg lib svc order b2 api_keys g w.
Proof.
  induction order as [| t order IH]; intros H g w; simpl; [reflexivity |].
  rewrite (H t) by now left.
  unfold bind.
  destruct (MetaAgent.dispatch_files cfg lib svc t (MetaAgent.bucket b2 t)
                                     api_keys g w) as [[g' | e] w'];
    [| reflexivity].
  apply IH. intros t' Ht'. apply H. now right.
Qed.

Lemma files_of_filter_classified (paths : list string) (t : string) :
  t <> "unsupported" ->
  files_of (filter classified paths) t = files_of paths t.
Proof.
  intros Ht. unfold files_of, classified.
  induction paths as [| p paths IH]; simpl; [reflexivity |].
  destruct (String.eqb (MetaAgent.category_of p) "unsupported") eqn:Eu; simpl.
  - apply String.eqb_eq in Eu. rewrite Eu.
    destruct (String.eqb "unsupported" t) eqn:Et; [| exact IH].
    apply String.eqb_eq in Et. congruence.
  - now rewrite IH.
Qed.

Lemma parsed_order_supported (instructions : option string) (t : string) :
  In t (_parse_priority_from_instructions instructions) ->
  t <> "unsupported".
Proof.
  intros Hin.
  apply (Permutation_in _ (parsed_order_permutation instructions)) in Hin.
  unfold categories in Hin. simpl in Hin.
  intros ->. intuition discriminate.
Qed.

(** X3. A file whose extension is not one of the fourteen known ones has no
    effect on a session: the bundle returned, and every call made on the
    way, are those of the session without that file. *)
Theorem unsupported_files_are_ignored
        (session_id : string) (file_paths : list string)
        (user_instructions : option string)
        (api_keys : option (list (string * option string))) (w : World) :
  MetaAgent.meta_process cfg lib svc session_id file_paths user_instructions
                         api_keys w
  = MetaAgent.meta_process cfg lib svc session_id
                           (filter classified file_paths) user_instructions
                           api_keys w.
Proof.
  unfold MetaAgent.meta_process, MetaAgent.assemble. cbv zeta.
  unfold bind.
  rewrite (dispatch_same_buckets
             (MetaAgent.classify file_paths)
             (MetaAgent.classify (filter classified file_paths))).
  - reflexivity.
  - intros t Ht. rewrite !bucket_classify.
    symmetry. apply files_of_filter_classified.
    exact (parsed_order_supported _ _ Ht).
Qed.

(** ** The bundle after the merge *)

(** [dict.update] with a dict: a key of the argument takes the argument's
    value, any other key keeps its own. *)
Lemma get_update (k : string) (m : dict) :
  NoDup (PyDict.keys m) ->
  forall d,
    PyDict.get k (PyDict.update d m)
    = match PyDict.get k m with
      | Some v => Some v
      | None => PyDict.get k d
      end.
Proof.
  unfold PyDict.update, PyDict.keys.
  induction m as [| [k' v'] m IH]; intros Hn d; simpl; [reflexivity |].
  inversion Hn as [| ? ? Hnotin Hn']; subst.
  rewrite (IH Hn'). simpl in Hnotin.
  destruct (String.eqb k k') eqn:Ek.
  - apply String.eqb_eq in Ek. subst k'.
    assert (Hnone : PyDict.get k m = None).
    { clear - Hnotin. induction m as [| [k1 v1] m IH]; [reflexivity |].
      simpl in *. destruct (String.eqb k k1) eqn:E.
      - apply String.eqb_eq in E. subst. tauto.
      - apply IH. tauto. }
    rewrite Hnone. apply get_set_same.
  - destruct (PyDict.get k m); [reflexivity |].
    apply get_set_other. intros ->. now rewrite String.eqb_refl in Ek.
Qed.

(** The bundle as it stands before the stamp, given what the scheduler
    gathered and what the meta step returned. *)
Lemma assemble_runs (session_id : string) (file_paths : list string)
      (user_instructions : option string)
      (api_keys : option (list (string * option string)))
      (w w1 w2 : World) (g : MetaAgent.Gathered) (m : json) :
  MetaAgent.dispatch cfg lib svc
    (_parse_priority_from_instructions user_instructions)
    (MetaAgent.classify file_paths)
    (match api_keys with Some k => k | None => [] end)
    MetaAgent.nothing_gathered w = (Ok g, w1) ->
  MetaAgent._generate_meta_intelligence cfg lib svc
    (String.concat nl (MetaAgent.aggregate_text_parts g))
    user_instructions (MetaAgent.file_summaries g) w1 = (Ok m, w2) ->
  MetaAgent.assemble cfg lib svc session_id file_paths user_instructions
                     api_keys w
  = (py_update [("session_id", JStr session_id);
                ("results", JList (MetaAgent.results_list g))] m, w2).
Proof.
  intros Hd Hm. unfold MetaAgent.assemble. cbv zeta.
  rewrite (bind_ok _ _ _ _ _ Hd), (bind_ok _ _ _ _ _ Hm). reflexivity.
Qed.

(** The stamp leaves every field but its own two as it found it. *)
Lemma meta_process_after_assemble (session_id : string)
      (file_paths : list string) (user_instructions : option string)
      (api_keys : option (list (string * option string)))
      (w w1 : World) (results : dict) :
  MetaAgent.assemble cfg lib svc session_id file_paths user_instructions
                     api_keys w = (Ok results, w1) ->
  exists b w',
    MetaAgent.meta_process cfg lib svc session_id file_paths
                           user_instructions api_keys w = (Ok b, w')
    /\ (ledger_loaded cfg = false -> w' = w1)
    /\ forall k, k <> "proof_hash" -> k <> "blockchain_tx" ->
                 PyDict.get k b = PyDict.get k results.
Proof.
  intros Ha. unfold MetaAgent.meta_process.
  rewrite (bind_ok _ _ _ _ _ Ha).
  destruct (stamp_runs results w1) as (b & w' & Hs & _ & Hk & _).
  exists b, w'. split; [exact Hs |]. split; [| exact Hk].
  intros Hl. unfold MetaAgent.stamp in Hs. rewrite Hl in Hs.
  unfold ret in Hs. now injection Hs.
Qed.

(** X4. Without a Gemini key the session still completes: the scheduler runs
    as usual, the meta model is not called, and the bundle carries the
    fixed report [AI key missing.] with empty entities and relations. *)
Theorem missing_model_key_gives_fixed_report
        (session_id : string) (file_paths : list string)
        (user_instructions : option string)
        (api_keys : option (list (string * option string))) (w : World) :
  is_set (GEMINI_API_KEY cfg) = false ->
  exists g w1 b w',
    MetaAgent.dispatch cfg lib svc
      (_parse_priority_from_instructions user_instructions)
      (MetaAgent.classify file_paths)
      (match api_keys with Some k => k | None => [] end)
      MetaAgent.nothing_gathered w = (Ok g, w1)
    /\ MetaAgent.assemble cfg lib svc session_id file_paths
                          user_instructions api_keys w
       = (Ok [("session_id", JStr session_id);
              ("results", JList (MetaAgent.results_list g));
              ("final_summary", JStr "AI key missing.");
              ("entities", JList []);
              ("relations", JList [])], w1)
    /\ MetaAgent.meta_process cfg lib svc session_id file_paths
                              user_instructions api_keys w = (Ok b, w')
    /\ PyDict.get "session_id" b = Some (JStr session_id)
    /\ PyDict.get "results" b = Some (JList (MetaAgent.results_list g))
    /\ PyDict.get "final_summary" b = Some (JStr "AI key missing.")
    /\ PyDict.get "entities" b = Some (JList [])
    /\ PyDict.get "relations" b = Some (JList []).
Proof.
  intros Hkey.
  destruct (dispatch_runs (MetaAgent.classify file_paths)
              (match api_keys with Some k => k | None => [] end)
              (_parse_priority_from_instructions user_instructions)
              MetaAgent.nothing_gathered w) as (g & Hd & _).
  set (w1 := world_after cfg lib svc _ _ w) in Hd.
  assert (Hm : MetaAgent._generate_meta_intelligence cfg lib svc
                 (String.concat nl (MetaAgent.aggregate_text_parts g))
                 user_instructions (MetaAgent.file_summaries g) w1
               = (Ok MetaAgent.key_missing_report, w1)).
  { unfold MetaAgent._generate_meta_intelligence. now rewrite Hkey. }
  pose proof (assemble_runs session_id _ _ _ _ _ _ _ _ Hd Hm) as Ha.
  simpl in Ha.
  destruct (meta_process_after_assemble _ _ _ _ _ _ _ Ha)
    as (b & w' & Hp & _ & Hk).
  exists g, w1, b, w'.
  repeat split; try assumption; rewrite Hk by discriminate; reflexivity.
Qed.

(** X5. When the meta model answers with text that is not JSON, the bundle
    carries the first 500 characters of that text as [final_summary], with
    empty entities and relations, and the scheduler's results untouched.
    Any other exception of the parser leaves [meta_process]. *)
Theorem unparseable_meta_report_is_truncated
        (session_id : string) (file_paths : list string)
        (user_instructions : option string)
        (api_keys : option (list (string * option string)))
        (w w1 w2 : World) (g : MetaAgent.Gathered)
        (response_text : string) (e : exn) :
  is_set (GEMINI_API_KEY cfg) = true ->
  MetaAgent.dispatch cfg lib svc
    (_parse_priority_from_instructions user_instructions)
    (MetaAgent.classify file_paths)
    (match api_keys with Some k => k | None => [] end)
    MetaAgent.nothing_gathered w = (Ok g, w1) ->
  meta_generate_content svc
    (MetaAgent.context_of
       (String.concat nl (MetaAgent.aggregate_text_parts g))
       user_instructions (MetaAgent.file_summaries g)) w1
  = (Ok response_text, w2) ->
  json_loads lib response_text = Raise e ->
  (exn_cls e = JSONDecodeError ->
   exists b w',
     MetaAgent.meta_process cfg lib svc session_id file_paths
                            user_instructions api_keys w = (Ok b, w')
     /\ PyDict.get "final_summary" b
        = Some (JStr (PyStr.take 500 response_text))
     /\ (String.length (PyStr.take 500 response_text) <= 500)%nat
     /\ PyDict.get "entities" b = Some (JList [])
     /\ PyDict.get "relations" b = Some (JList [])
     /\ PyDict.get "results" b = Some (JList (MetaAgent.results_list g))
     /\ PyDict.get "session_id" b = Some (JStr session_id))
  /\ (exn_cls e <> JSONDecodeError ->
      MetaAgent.meta_process cfg lib svc session_id file_paths
                             user_instructions api_keys w = (Raise e, w2)).
Proof.
  intros Hkey Hd Hc Hl. split; intros He.
  - assert (Hm : MetaAgent._generate_meta_intelligence cfg lib svc
                   (String.concat nl (MetaAgent.aggregate_text_parts g))
                   user_instructions (MetaAgent.file_summaries g) w1
                 = (Ok (MetaAgent.unparsed_report response_text), w2)).
    { unfold MetaAgent._generate_meta_intelligence. rewrite Hkey. simpl.
      rewrite (bind_ok _ _ _ _ _ Hc), Hl, He. reflexivity. }
    pose proof (assemble_runs session_id _ _ _ _ _ _ _ _ Hd Hm) as Ha.
    simpl in Ha.
    destruct (meta_process_after_assemble _ _ _ _ _ _ _ Ha)
      as (b & w' & Hp & _ & Hk).
    exists b, w'.
    repeat split; try assumption;
      try (rewrite Hk by discriminate; reflexivity).
    rewrite take_length. apply Nat.le_min_l.
  - unfold MetaAgent.meta_process. apply bind_raise.
    unfold MetaAgent.assemble. cbv zeta.
    rewrite (bind_ok _ _ _ _ _ Hd).
    apply bind_raise.
    unfold MetaAgent._generate_meta_intelligence. rewrite Hkey. simpl.
    rewrite (bind_ok _ _ _ _ _ Hc), Hl.
    destruct (exn_cls e); try reflexivity. congruence.
Qed.

(** X6. When the meta step returns a JSON object, the bundle holds exactly the
    fields of that object over [session_id] and [results]: a field of the
    report takes the report's value, [session_id] and [results]
    included, and the two initial fields stay only where the report has
    no field of that name. *)
Theorem meta_report_fields_reach_bundle
        (session_id : string) (file_paths : list string)
        (user_instructions : option string)
        (api_keys : option (list (string * option string)))
        (w w1 w2 : World) (g : MetaAgent.Gathered) (m : dict) :
  MetaAgent.dispatch cfg lib svc
    (_parse_priority_from_instructions user_instructions)
    (MetaAgent.classify file_paths)
    (match api_keys with Some k => k | None => [] end)
    MetaAgent.nothing_gathered w = (Ok g, w1) ->
  MetaAgent._generate_meta_intelligence cfg lib svc
    (String.concat nl (MetaAgent.aggregate_text_parts g))
    user_instructions (MetaAgent.file_summaries g) w1 = (Ok (JDict m), w2) ->
  NoDup (PyDict.keys m) ->
  exists b w',
    MetaAgent.meta_process cfg lib svc session_id file_paths
                           user_instructions api_keys w = (Ok b, w')
    /\ forall k, k <> "proof_hash" -> k <> "blockchain_tx" ->
                 PyDict.get k b
                 = match PyDict.get k m with
                   | Some v => Some v
                   | None =>
                       PyDict.get k
                         [("session_id", JStr session_id);
                          ("results", JList (MetaAgent.results_list g))]
                   end.
Proof.
  intros Hd Hm Hn.
  pose proof (assemble_runs session_id _ _ _ _ _ _ _ _ Hd Hm) as Ha.
  simpl in Ha.
  destruct (meta_process_after_assemble _ _ _ _ _ _ _ Ha)
    as (b & w' & Hp & _ & Hk).
  exists b, w'. split; [exact Hp |].
  intros k H1 H2. rewrite (Hk k H1 H2). now apply get_update.
Qed.

(** ** What reaches the meta model *)

(** The scheduler always returns, with one entry per classified file. *)
Lemma results_follow_order_lengths (file_paths : list string)
      (user_instructions : option string)
      (api_keys : option (list (string * option string))) (w : World) :
  exists g w1,
    MetaAgent.dispatch cfg lib svc
      (_parse_priority_from_instructions user_instructions)
      (MetaAgent.classify file_paths)
      (match api_keys with Some k => k | None => [] end)
      MetaAgent.nothing_gathered w = (Ok g, w1)
    /\ List.length (MetaAgent.results_list g)
       = List.length (filter classified file_paths).
Proof.
  destruct (dispatch_runs (MetaAgent.classify file_paths)
              (match api_keys with Some k => k | None => [] end)
              (_parse_priority_from_instructions user_instructions)
              MetaAgent.nothing_gathered w) as (g & Hd & Hr).
  simpl in Hr. do 2 eexists. split; [exact Hd |].
  rewrite Hr, length_entries.
  rewrite <- (length_map fst), jobs_of_classify.
  apply Permutation_length.
  rewrite <- scheduled_files_classified.
  apply Permutation_flat_map.
  apply (parsed_order_permutation user_instructions).
Qed.

Lemma dispatch_files_images_evidence
      (api_keys : list (string * option string)) (files : list string) :
  forall g w g' w',
    MetaAgent.dispatch_files cfg lib svc "images" files api_keys g w
    = (Ok g', w') ->
    MetaAgent.aggregate_text_parts g' = MetaAgent.aggregate_text_parts g
    /\ MetaAgent.file_summaries g' = MetaAgent.file_summaries g.
Proof.
  induction files as [| f files IH]; intros g w g' w' H; simpl in H.
  - unfold ret in H. injection H as <- _. now split.
  - apply bind_ok_inv in H as (item & w1 & _ & H).
    apply bind_ok_inv in H as (g1 & w2 & Hg & H).
    unfold MetaAgent.gather in Hg. simpl in Hg.
    unfold ret in Hg. injection Hg as <- _.
    apply IH in H. exact H.
Qed.

Lemma dispatch_images_evidence (buckets : MetaAgent.Buckets)
      (api_keys : list (string * option string)) (order : list string) :
  (forall t, In t order -> t <> "images" -> MetaAgent.bucket buckets t = []) ->
  forall g w g' w',
    MetaAgent.dispatch cfg lib svc order buckets api_keys g w = (Ok g', w') ->
    MetaAgent.aggregate_text_parts g' = MetaAgent.aggregate_text_parts g
    /\ MetaAgent.file_summaries g' = MetaAgent.file_summaries g.
Proof.
  induction order as [| t order IH]; intros Hb g w g' w' H; simpl in H.
  - unfold ret in H. injection H as <- _. now split.
  - apply bind_ok_inv in H as (g1 & w1 & H1 & H).
    apply IH in H; [| intros t' Ht'; apply Hb; now right].
    destruct H as [Hp Hs]. rewrite Hp, Hs.
    destruct (string_dec t "images") as [-> | Hne].
    + exact (dispatch_files_images_evidence _ _ _ _ _ _ H1).
    + rewrite (Hb t (or_introl eq_refl) Hne) in H1. simpl in H1.
      unfold ret in H1. injection H1 as <- _. now split.
Qed.

(** X7. A session made of images only sends the meta model no evidence: each
    image gets its entry in [results], but the evidence text is empty and
    there is no file summary, whatever the image reports say. *)
Theorem image_sessions_send_no_evidence
        (session_id : string) (file_paths : list string)
        (user_instructions : option string)
        (api_keys : option (list (string * option string))) (w : World) :
  (forall p, In p file_paths ->
             MetaAgent.category_of p = "images"
             \/ MetaAgent.category_of p = "unsupported") ->
  exists g w1,
    MetaAgent.dispatch cfg lib svc
      (_parse_priority_from_instructions user_instructions)
      (MetaAgent.classify file_paths)
      (match api_keys with Some k => k | None => [] end)
      MetaAgent.nothing_gathered w = (Ok g, w1)
    /\ List.length (MetaAgent.results_list g)
       = List.length (files_of file_paths "images")
    /\ MetaAgent.aggregate_text_parts g = []
    /\ MetaAgent.file_summaries g = []
    /\ MetaAgent.assemble cfg lib svc session_id file_paths
                          user_instructions api_keys w
       = bind (MetaAgent._generate_meta_intelligence cfg lib svc ""
                 user_instructions [])
              (fun meta_output =>
                 lift (py_update
                         [("session_id", JStr session_id);
                          ("results", JList (MetaAgent.results_list g))]
                         meta_output)) w1.
Proof.
  intros Hall.
  destruct (results_follow_order_lengths file_paths user_instructions
                                         api_keys w)
    as (g & w1 & Hd & Hlen).
  assert (He : MetaAgent.aggregate_text_parts g = []
               /\ MetaAgent.file_summaries g = []).
  { apply (dispatch_images_evidence _ _ _) in Hd; [exact Hd |].
    intros t Ht Hne. rewrite bucket_classify. unfold files_of.
    pose proof (parsed_order_supported _ _ Ht) as Hu.
    clear - Hall Hne Hu.
    induction file_paths as [| p paths IH]; [reflexivity |]. simpl.
    destruct (String.eqb (MetaAgent.category_of p) t) eqn:E.
    - apply String.eqb_eq in E.
      destruct (Hall p (or_introl eq_refl)); congruence.
    - apply IH. intros q Hq. apply Hall. now right. }
  destruct He as [Hp Hs].
  exists g, w1. split; [exact Hd |]. split; [| split; [exact Hp |
                                                  split; [exact Hs |]]].
  - rewrite Hlen. f_equal.
    clear - Hall. unfold classified, files_of.
    induction file_paths as [| p paths IH]; [reflexivity |]. simpl.
    rewrite IH by (intros q Hq; apply Hall; now right).
    destruct (Hall p (or_introl eq_refl)) as [-> | ->]; reflexivity.
  - unfold MetaAgent.assemble. cbv zeta.
    rewrite (bind_ok _ _ _ _ _ Hd). rewrite Hp, Hs. reflexivity.
Qed.

(** ** Rounding keeps bounds *)

Lemma round_half_even_bounds (x : Q) (lo hi : Z) :
  inject_Z lo <= x -> x <= inject_Z hi ->
  (lo <= round_half_even x <= hi)%Z.
Proof.
  intros Hlo Hhi. unfold round_half_even.
  assert (Hf1 : (lo <= Qfloor x)%Z).
  { rewrite <- (Qfloor_Z lo). now apply Qfloor_resp_le. }
  assert (Hf2 : (Qfloor x <= hi)%Z).
  { rewrite <- (Qfloor_Z hi). now apply Qfloor_resp_le. }
  assert (Hup : ~ (x - inject_Z (Qfloor x) < 1 # 2) -> (Qfloor x < hi)%Z).
  { intros Hd.
    destruct (Z_lt_le_dec (Qfloor x) hi) as [Hlt | Hge]; [exact Hlt |].
    exfalso. apply Hd.
    assert (Hx : x <= inject_Z (Qfloor x)).
    { apply (Qle_trans _ _ _ Hhi). rewrite <- Zle_Qle. exact Hge. }
    apply Qle_lt_trans with (y := 0); [| reflexivity].
    apply (Qplus_le_l _ _ (inject_Z (Qfloor x))). ring_simplify.
    exact Hx. }
  destruct (Qcompare (x - inject_Z (Qfloor x)) (1 # 2)) eqn:Ec.
  - assert (Hnlt : ~ (x - inject_Z (Qfloor x) < 1 # 2)).
    { intros Hlt. pose proof (proj1 (Qlt_alt _ _) Hlt). congruence. }
    specialize (Hup Hnlt).
    destruct (Z.even (Qfloor x)); lia.
  - lia.
  - assert (Hnlt : ~ (x - inject_Z (Qfloor x) < 1 # 2)).
    { intros Hlt. pose proof (proj1 (Qlt_alt _ _) Hlt). congruence. }
    specialize (Hup Hnlt). lia.
Qed.

(** *** The nearest double keeps the bounds 0, 1 and 100 *)

Lemma round_half_even_nonneg (x : Q) : 0 <= x -> (0 <= round_half_even x)%Z.
Proof.
  intros H.
  destruct (round_half_even_bounds x 0 (Qceiling x) H (Qle_ceiling x)).
  assumption.
Qed.

Lemma round_half_even_le (x : Q) (hi : Z) :
  x <= inject_Z hi -> (round_half_even x <= hi)%Z.
Proof.
  intros H.
  destruct (round_half_even_bounds x (Qfloor x) hi (Qfloor_le x) H).
  assumption.
Qed.

Lemma pow2_pos (e : Z) : (0 <= e)%Z -> 0 < inject_Z (2 ^ e).
Proof.
  intros He. rewrite <- (Zlt_Qlt 0). apply Z.pow_pos_nonneg; lia.
Qed.

Lemma nearest_double_pos_nonneg (q : Q) :
  0 <= q -> 0 <= nearest_double_pos q.
Proof.
  intros Hq. unfold nearest_double_pos.
  destruct (0 <=? ulp_exponent q)%Z eqn:E.
  - apply Z.leb_le in E. rewrite <- (Zle_Qle 0).
    apply Z.mul_nonneg_nonneg; [| apply Z.pow_nonneg; lia].
    apply round_half_even_nonneg.
    apply Qle_shift_div_l; [now apply pow2_pos |].
    now rewrite Qmult_0_l.
  - apply Z.leb_gt in E.
    assert (Hp : 0 < inject_Z (2 ^ (- ulp_exponent q)))
      by (apply pow2_pos; lia).
    apply Qle_shift_div_l; [exact Hp |]. rewrite Qmult_0_l.
    rewrite <- (Zle_Qle 0). apply round_half_even_nonneg.
    apply Qmult_le_0_compat; [exact Hq | now apply Qlt_le_weak].
Qed.

Lemma nearest_double_nonneg (q : Q) : 0 <= q -> 0 <= nearest_double q.
Proof.
  intros Hq. unfold nearest_double.
  destruct (Qcompare q 0) eqn:E.
  - apply Qle_refl.
  - exfalso. apply (Qlt_not_le q 0); [| exact Hq].
    now apply Qlt_alt.
  - rewrite Qred_correct. now apply nearest_double_pos_nonneg.
Qed.

(** Below [2 ^ 51] the last place of a double is a fraction. *)
Lemma ulp_exponent_negative (q : Q) :
  0 < q -> q <= inject_Z (2 ^ 51) -> (ulp_exponent q < 0)%Z.
Proof.
  intros Hpos Hle.
  assert (Hn : (0 < Qnum q)%Z).
  { unfold Qlt in Hpos. simpl in Hpos. lia. }
  assert (Hk : (Z.log2 (Qnum q) - Z.log2 (Zpos (Qden q)) <= 51)%Z).
  { unfold Qle in Hle. simpl in Hle.
    assert (Hm : (Qnum q <= Zpos (Qden q) * 2 ^ 51)%Z) by lia.
    apply Z.log2_le_mono in Hm.
    rewrite Z.log2_mul_pow2 in Hm by lia. lia. }
  unfold ulp_exponent, ilog2. cbv zeta.
  destruct (if (0 <=? _)%Z then _ else _); lia.
Qed.

Lemma nearest_double_le (q : Q) (bound : Z) :
  (0 <= bound <= 2 ^ 51)%Z ->
  q <= inject_Z bound -> nearest_double q <= inject_Z bound.
Proof.
  intros Hb Hq.
  assert (Hb0 : 0 <= inject_Z bound) by (rewrite <- (Zle_Qle 0); lia).
  unfold nearest_double.
  destruct (Qcompare q 0) eqn:E.
  - exact Hb0.
  - rewrite Qred_correct.
    apply Qle_trans with (y := 0); [| exact Hb0].
    apply Qopp_le_compat with (q := nearest_double_pos (- q)) (p := 0).
    apply nearest_double_pos_nonneg.
    apply Qopp_le_compat with (p := q) (q := 0).
    apply Qlt_le_weak. now apply Qlt_alt.
  - rewrite Qred_correct.
    assert (Hpos : 0 < q) by (now apply Qgt_alt).
    assert (He : (ulp_exponent q < 0)%Z).
    { apply ulp_exponent_negative; [exact Hpos |].
      apply (Qle_trans _ _ _ Hq). rewrite <- Zle_Qle. lia. }
    unfold nearest_double_pos.
    destruct (0 <=? ulp_exponent q)%Z eqn:E0;
      [apply Z.leb_le in E0; lia |].
    assert (Hp : 0 < inject_Z (2 ^ (- ulp_exponent q)))
      by (apply pow2_pos; lia).
    apply Qle_shift_div_r; [exact Hp |].
    rewrite <- inject_Z_mult, <- Zle_Qle.
    apply round_half_even_le.
    rewrite inject_Z_mult.
    apply Qmult_le_compat_r; [exact Hq | now apply Qlt_le_weak].
Qed.

Lemma round2_nonneg (x : Q) : 0 <= x -> 0 <= round2 x.
Proof.
  intros H0. unfold round2. apply nearest_double_nonneg.
  apply Qle_shift_div_l; [reflexivity |]. rewrite Qmult_0_l.
  rewrite <- (Zle_Qle 0). apply round_half_even_nonneg.
  apply Qmult_le_0_compat; [exact H0 | discriminate].
Qed.

(** [round(x, 2)] stays below an integer bound [x] is below. *)
Lemma round2_le (x : Q) (bound : Z) :
  (0 <= bound <= 2 ^ 40)%Z ->
  x <= inject_Z bound -> round2 x <= inject_Z bound.
Proof.
  intros Hb Hx. unfold round2.
  apply nearest_double_le.
  - split; [lia |]. apply Z.le_trans with (m := (2 ^ 40)%Z); [lia |].
    apply Z.pow_le_mono_r; lia.
  - apply Qle_shift_div_r; [reflexivity |].
    change 100 with (inject_Z 100).
    rewrite <- inject_Z_mult, <- Zle_Qle.
    apply round_half_even_le.
    rewrite inject_Z_mult.
    apply Qmult_le_compat_r; [exact Hx | discriminate].
Qed.

Lemma clamp01_bounds (x : Q) :
  0 <= ImageAgent.clamp01 x /\ ImageAgent.clamp01 x <= 1.
Proof.
  unfold ImageAgent.clamp01.
  destruct (Qlt_le_dec x 1) as [H1 | H1].
  - destruct (Qlt_le_dec 0 x) as [H0 | H0]; split;
      try (now apply Qlt_le_weak); discriminate.
  - destruct (Qlt_le_dec 0 1) as [H0 | H0]; split; discriminate.
Qed.

Lemma round2_unit (x : Q) :
  0 <= x -> x <= 1 -> 0 <= round2 x /\ round2 x <= 1.
Proof.
  intros H0 H1. split.
  - now apply round2_nonneg.
  - apply (round2_le x 1); [| exact H1].
    split; [lia |]. apply Z.pow_le_mono_r with (b := 0%Z); lia.
Qed.

(** ** The image agent: what every report looks like *)

(** The two kinds of image report. *)
Lemma image_report_cases (file_path : string) (w : World) :
  exists r w' a t verdict,
    ImageAgent.analyze_image_with_rd_and_gemini lib svc file_path w
    = (Ok r, w')
    /\ authenticity_of_report r = Some a
    /\ py_get r "tamperingPercentage" (JFloat 0) = Ok (JFloat t)
    /\ verdict_of_report r = Some verdict
    /\ (((verdict = "Error" \/ verdict = "Unknown") /\ a = 0 /\ t = 0)
        \/ (verdict = ImageAgent.verdict_of t
            /\ a = round2 (ImageAgent.clamp01
                             (float_div (float_sub 100 t) 100)))).
Proof.
  rewrite analyze_image_catches.
  destruct (ImageAgent.analysis lib svc file_path w) as [[r0 | e] w0] eqn:Ea.
  - unfold ImageAgent.analysis in Ea. unfold_run.
    repeat split_run_in Ea; injection Ea as <- _;
      do 5 eexists;
      (split; [reflexivity |]); (split; [reflexivity |]);
      (split; [reflexivity |]); (split; [reflexivity |]);
      right; split; reflexivity.
  - unfold ImageAgent.on_error, ImageAgent.degraded.
    destruct (exn_cls e); do 5 eexists;
      (split; [reflexivity |]); (split; [reflexivity |]);
      (split; [reflexivity |]); (split; [reflexivity |]);
      left; repeat split; auto.
Qed.

(** Both kinds of score lie in the unit interval. *)
Lemma image_authenticity_in_unit (a t : Q) (verdict : string) :
  ((verdict = "Error" \/ verdict = "Unknown") /\ a = 0 /\ t = 0)
  \/ (verdict = ImageAgent.verdict_of t
      /\ a = round2 (ImageAgent.clamp01
                       (float_div (float_sub 100 t) 100))) ->
  0 <= a /\ a <= 1.
Proof.
  intros [(_ & -> & _) | (_ & ->)].
  - split; discriminate.
  - destruct (clamp01_bounds (float_div (float_sub 100 t) 100))
      as [H0 H1].
    exact (round2_unit _ H0 H1).
Qed.

(** X8. [analyze_image_with_rd_and_gemini] always returns, and its report is
    one of two kinds: a failure report, with verdict [Error] or [Unknown]
    and both scores 0; or a report whose verdict follows the thresholds 25
    and 60 on the tampering percentage and whose authenticity score is
    [(100 - t) / 100.0], computed in double arithmetic, clamped to the unit
    interval and rounded to two decimals as [round] does on a double.
    Either way the authenticity score lies between 0 and 1. *)
Theorem image_report_scores_in_range (file_path : string) (w : World) :
  exists r w' a t verdict,
    ImageAgent.analyze_image_with_rd_and_gemini lib svc file_path w
    = (Ok r, w')
    /\ authenticity_of_report r = Some a
    /\ py_get r "tamperingPercentage" (JFloat 0) = Ok (JFloat t)
    /\ verdict_of_report r = Some verdict
    /\ 0 <= a /\ a <= 1
    /\ (((verdict = "Error" \/ verdict = "Unknown") /\ a = 0 /\ t = 0)
        \/ (verdict = ImageAgent.verdict_of t
            /\ a = round2 (ImageAgent.clamp01
                             (float_div (float_sub 100 t) 100)))).
Proof.
  destruct (image_report_cases file_path w)
    as (r & w' & a & t & verdict & Hr & Ha & Ht & Hv & Hcases).
  destruct (image_authenticity_in_unit a t verdict Hcases) as [H0 H1].
  exists r, w', a, t, verdict.
  split; [exact Hr |]. split; [exact Ha |]. split; [exact Ht |].
  split; [exact Hv |]. split; [exact H0 |]. split; [exact H1 |].
  exact Hcases.
Qed.

(** ** The video agent: counters and scores *)

Lemma observed_scores_length_le (frame_interval : Z) (temp_img : string)
      (frames : list Frame) :
  forall idx w,
    (List.length (observed_scores lib svc frame_interval temp_img frames
                                  idx w)
     <= List.length frames)%nat.
Proof.
  induction frames as [| frame rest IH]; intros idx w; simpl; [lia |].
  destruct (idx mod frame_interval =? 0)%Z.
  - destruct (VideoAgent.frame_tamper_score lib svc temp_img frame w)
      as [[v | e] w1].
    + destruct (as_number v); simpl;
        specialize (IH (idx + 1)%Z w1); lia.
    + specialize (IH (idx + 1)%Z w1); lia.
  - specialize (IH (idx + 1)%Z w); lia.
Qed.

Lemma count_over_60_range (scores : list Q) :
  (0 <= count_over_60 scores <= Z.of_nat (List.length scores))%Z.
Proof.
  unfold count_over_60.
  pose proof (filter_length_le
                (fun q => if Qlt_le_dec 60 q then true else false) scores).
  lia.
Qed.

Lemma fold_highest_ge (scores : list Q) :
  forall init,
    init <= fold_left (fun h q => if Qlt_le_dec h q then q else h)
                      scores init.
Proof.
  induction scores as [| q scores IH]; intros init; simpl;
    [apply Qle_refl |].
  destruct (Qlt_le_dec init q) as [Hlt | Hle].
  - apply Qle_trans with (y := q); [now apply Qlt_le_weak | apply IH].
  - apply IH.
Qed.

Lemma fold_highest_le (bound : Q) (scores : list Q) :
  Forall (fun q => q <= bound) scores ->
  forall init,
    init <= bound ->
    fold_left (fun h q => if Qlt_le_dec h q then q else h) scores init
    <= bound.
Proof.
  induction 1 as [| q scores Hq Hall IH]; intros init Hi; simpl;
    [exact Hi |].
  destruct (Qlt_le_dec init q); now apply IH.
Qed.

(** The report of [analyze_video_frames] for a video that opens and whose
    sampling interval is not zero, field by field. *)
Lemma analyze_video_frames_report (video_path : string) (w w2 : World)
      (cap : Capture Frame) :
  cv2_VideoCapture svc video_path w = (Ok (Some cap), w2) ->
  let fps := if Qlt_le_dec 0 (cap_fps cap) then cap_fps cap else 30 in
  let frame_interval := py_int (fps * 2) in
  frame_interval <> 0%Z ->
  let scores := observed_scores lib svc frame_interval
                                (video_path ++ "_temp.jpg")
                                (cap_frames cap) 0 w2 in
  exists w',
    VideoAgent.analyze_video_frames lib svc video_path w
    = (Ok (JDict
             [("frames_analyzed", JInt (Z.of_nat (List.length scores)));
              ("fake_frames_count", JInt (count_over_60 scores));
              ("fake_ratio_percent",
               py_round2
                 (if (0 <? Z.of_nat (List.length scores))%Z
                  then JFloat
                         (float_mul
                            (float_div
                               (inject_Z (count_over_60 scores))
                               (inject_Z (Z.of_nat (List.length scores))))
                            100)
                  else JInt 0));
              ("max_fake_score", JFloat (round2 (highest_score scores)));
              ("analysis_strategy", JStr "Full Timeline (1 frame / 2s)")]),
       w').
Proof.
  intros Hc fps frame_interval Hi scores.
  unfold VideoAgent.analyze_video_frames.
  rewrite (bind_ok _ _ _ _ _ Hc). fold fps. fold frame_interval.
  destruct (scan_frames_runs frame_interval (video_path ++ "_temp.jpg") Hi
              (cap_frames cap) VideoAgent.scan_start w2 0 eq_refl)
    as (w' & Hs).
  simpl VideoAgent.frame_idx in Hs. fold scores in Hs.
  rewrite (bind_ok _ _ _ _ _ Hs). unfold_run.
  eexists. reflexivity.
Qed.

(** The report of [run_video_forensics] for such a video. *)
Lemma run_video_forensics_result (video_path : string) (w w2 : World)
      (cap : Capture Frame) :
  let w1 := snd (VideoAgent.extract_basic_metadata svc video_path w) in
  cv2_VideoCapture svc video_path w1 = (Ok (Some cap), w2) ->
  let fps := if Qlt_le_dec 0 (cap_fps cap) then cap_fps cap else 30 in
  let frame_interval := py_int (fps * 2) in
  frame_interval <> 0%Z ->
  let scores := observed_scores lib svc frame_interval
                                (video_path ++ "_temp.jpg")
                                (cap_frames cap) 0 w2 in
  exists meta visuals w',
    VideoAgent.extract_basic_metadata svc video_path w = (Ok meta, w1)
    /\ VideoAgent.analyze_video_frames lib svc video_path w1
       = (Ok visuals, w')
    /\ VideoAgent.run_video_forensics lib svc video_path w
       = (Ok (JDict
                [("verdict",
                  JStr (if (0 <? count_over_60 scores)%Z
                        then "Tampering Detected" else "Likely Original"));
                 ("authenticity_score",
                  JFloat (float_div
                            (float_sub 100 (round2 (highest_score scores)))
                            100));
                 ("metadata", meta);
                 ("visual_analysis", visuals)]), w').
Proof.
  intros w1 Hc fps frame_interval Hi scores.
  destruct (analyze_video_frames_report video_path w1 w2 cap Hc Hi)
    as (w' & Hv).
  fold fps frame_interval scores in Hv.
  destruct (try_except_returns
              (bind (cv2_VideoCapture svc video_path)
                    (fun cap0 =>
                       match cap0 with
                       | Some c => ret (VideoAgent.metadata_of c)
                       | None =>
                           ret (JDict [("error",
                                        JStr "Could not open video file.")])
                       end))
              (fun e => JDict [("error", JStr (exn_str e))]) w)
    as (meta & wm & Hm).
  change (VideoAgent.extract_basic_metadata svc video_path w = (Ok meta, wm))
    in Hm.
  assert (Hw : w1 = wm) by (unfold w1; now rewrite Hm).
  rewrite <- Hw in Hm.
  do 3 eexists. split; [exact Hm |]. split; [exact Hv |].
  unfold VideoAgent.run_video_forensics.
  rewrite (bind_ok _ _ _ _ _ Hm).
  rewrite (bind_ok _ _ _ _ _ Hv). unfold_run. simpl.
  do 4 f_equal.
  destruct (Qlt_le_dec 0 (inject_Z (count_over_60 scores))) as [Hlt | Hle];
    destruct (0 <? count_over_60 scores)%Z eqn:Ez; try reflexivity.
  - apply Z.ltb_ge in Ez. exfalso.
    apply (Qlt_not_le _ _ Hlt). rewrite <- (Zle_Qle _ 0). exact Ez.
  - apply Z.ltb_lt in Ez. exfalso.
    apply (Qlt_not_le 0 (inject_Z (count_over_60 scores))); [| exact Hle].
    rewrite <- (Zlt_Qlt 0). exact Ez.
Qed.

Lemma round2_percent (x : Q) : x <= 100 -> round2 x <= 100.
Proof.
  intros H1. apply (round2_le x 100); [| exact H1].
  split; [lia |]. apply Z.le_trans with (m := (2 ^ 7)%Z); [lia |].
  apply Z.pow_le_mono_r; lia.
Qed.

(** The fake ratio, as the code computes it, is a percentage. *)
Lemma ratio_percent (k n : Z) :
  (0 <= k <= n)%Z -> (0 < n)%Z ->
  0 <= float_mul (float_div (inject_Z k) (inject_Z n)) 100
  /\ float_mul (float_div (inject_Z k) (inject_Z n)) 100 <= 100.
Proof.
  intros Hk Hn.
  assert (Hn' : 0 < inject_Z n) by (now rewrite <- (Zlt_Qlt 0)).
  assert (Hk0 : 0 <= inject_Z k) by (rewrite <- (Zle_Qle 0); lia).
  assert (Hkn : inject_Z k <= inject_Z n) by (rewrite <- Zle_Qle; lia).
  assert (Hq0 : 0 <= float_div (inject_Z k) (inject_Z n)).
  { apply nearest_double_nonneg.
    apply Qle_shift_div_l; [exact Hn' |]. now rewrite Qmult_0_l. }
  assert (Hq1 : float_div (inject_Z k) (inject_Z n) <= 1).
  { apply (nearest_double_le _ 1).
    - split; [lia |]. apply Z.pow_le_mono_r with (b := 0%Z); lia.
    - apply Qle_shift_div_r; [exact Hn' |]. now rewrite Qmult_1_l. }
  unfold float_mul. split.
  - apply nearest_double_nonneg.
    apply Qmult_le_0_compat; [exact Hq0 | discriminate].
  - apply (nearest_double_le _ 100).
    + split; [lia |]. apply Z.le_trans with (m := (2 ^ 7)%Z); [lia |].
      apply Z.pow_le_mono_r; lia.
    + apply Qle_trans with (y := 1 * 100); [| discriminate].
      apply Qmult_le_compat_r; [exact Hq1 | discriminate].
Qed.

(** X11. For every video that opens and is scanned, the counters of the report
    are consistent: the fake frames are among the analysed ones, no more
    frames are analysed than the file holds, the fake ratio is a
    percentage between 0 and 100 and the highest score is not negative. *)
Theorem video_counts_are_consistent
        (video_path : string) (w w2 : World) (cap : Capture Frame) :
  cv2_VideoCapture svc video_path w = (Ok (Some cap), w2) ->
  let fps := if Qlt_le_dec 0 (cap_fps cap) then cap_fps cap else 30 in
  py_int (fps * 2) <> 0%Z ->
  exists visuals w' n k ratio q m,
    VideoAgent.analyze_video_frames lib svc video_path w = (Ok visuals, w')
    /\ py_get visuals "frames_analyzed" (JInt 0) = Ok (JInt n)
    /\ py_get visuals "fake_frames_count" (JInt 0) = Ok (JInt k)
    /\ (0 <= k <= n)%Z
    /\ (n <= Z.of_nat (List.length (cap_frames cap)))%Z
    /\ py_get visuals "fake_ratio_percent" (JInt 0) = Ok ratio
    /\ as_number ratio = Ok q
    /\ 0 <= q /\ q <= 100
    /\ py_get visuals "max_fake_score" (JInt 0) = Ok (JFloat m)
    /\ 0 <= m.
Proof.
  intros Hc fps Hi.
  destruct (analyze_video_frames_report video_path w w2 cap Hc Hi)
    as (w' & Hv).
  fold fps in Hv.
  set (scores := observed_scores lib svc (py_int (fps * 2))
                                 (video_path ++ "_temp.jpg")
                                 (cap_frames cap) 0 w2) in *.
  pose proof (count_over_60_range scores) as Hk.
  pose proof (observed_scores_length_le (py_int (fps * 2))
                (video_path ++ "_temp.jpg") (cap_frames cap) 0%Z w2) as Hn.
  fold scores in Hn.
  assert (Hm : 0 <= round2 (highest_score scores)).
  { apply round2_nonneg. apply (fold_highest_ge scores 0). }
  destruct (0 <? Z.of_nat (List.length scores))%Z eqn:En.
  - apply Z.ltb_lt in En.
    destruct (ratio_percent _ _ Hk En) as [R0 R1].
    do 7 eexists. split; [exact Hv |]. simpl.
    repeat split; try reflexivity; try lia; try exact Hm.
    + now apply round2_nonneg.
    + now apply round2_percent.
  - do 7 eexists. split; [exact Hv |]. simpl.
    repeat split; try reflexivity; try lia; try exact Hm; discriminate.
Qed.

(** *** When Reality Defender cannot be reached *)

Lemma frame_score_during_outage (temp_img : string) (frame : Frame)
      (w w1 : World) (v : json) :
  (forall name w0, exists e w0',
      request_presigned_url svc name w0 = (Raise e, w0')) ->
  VideoAgent.frame_tamper_score lib svc temp_img frame w = (Ok v, w1) ->
  v = JFloat 0.
Proof.
  intros Hdown H. unfold VideoAgent.frame_tamper_score in H.
  apply bind_ok_inv in H as (u & w2 & _ & H).
  apply bind_ok_inv in H as (r & w3 & Hr & H).
  rewrite analyze_image_catches in Hr.
  unfold ImageAgent.analysis in Hr.
  destruct (Hdown (PyStr.basename temp_img) w2) as (e & w4 & He).
  rewrite (bind_raise _ _ _ _ _ He) in Hr.
  injection Hr as <- _.
  unfold lift, ImageAgent.on_error in H.
  destruct (exn_cls e); simpl in H; now injection H as <- _.
Qed.

Lemma observed_scores_during_outage (frame_interval : Z) (temp_img : string)
      (frames : list Frame) :
  (forall name w0, exists e w0',
      request_presigned_url svc name w0 = (Raise e, w0')) ->
  forall idx w,
    Forall (fun q => q = 0)
           (observed_scores lib svc frame_interval temp_img frames idx w).
Proof.
  intros Hdown.
  induction frames as [| frame rest IH]; intros idx w; simpl;
    [constructor |].
  destruct (idx mod frame_interval =? 0)%Z; [| apply IH].
  destruct (VideoAgent.frame_tamper_score lib svc temp_img frame w)
    as [[v | e] w1] eqn:Ef; [| apply IH].
  rewrite (frame_score_during_outage _ _ _ _ _ Hdown Ef). simpl.
  constructor; [reflexivity | apply IH].
Qed.

Lemma zero_scores (scores : list Q) :
  Forall (fun q => q = 0) scores ->
  count_over_60 scores = 0%Z /\ highest_score scores = 0.
Proof.
  induction 1 as [| q scores Hq Hall [IH1 IH2]]; [now split |].
  subst q. split.
  - rewrite count_over_60_cons, IH1. reflexivity.
  - unfold highest_score in *. simpl. exact IH2.
Qed.

(** X12. An outage of the image service is not visible in a video report.  The
    image agent turns its own failure into a report with tampering
    percentage 0, which the sampling loop counts as a frame analysed and
    found clean: when no presigned URL can be obtained, every video that
    opens and is scanned gets the verdict [Likely Original], an
    authenticity score of 1, no fake frame and a highest score of 0. *)
Theorem image_service_outage_reads_as_original
        (video_path : string) (w w2 : World) (cap : Capture Frame) :
  (forall name w0, exists e w0',
      request_presigned_url svc name w0 = (Raise e, w0')) ->
  let w1 := snd (VideoAgent.extract_basic_metadata svc video_path w) in
  cv2_VideoCapture svc video_path w1 = (Ok (Some cap), w2) ->
  let fps := if Qlt_le_dec 0 (cap_fps cap) then cap_fps cap else 30 in
  py_int (fps * 2) <> 0%Z ->
  exists report w' a visuals m,
    VideoAgent.run_video_forensics lib svc video_path w = (Ok report, w')
    /\ verdict_of_report report = Some "Likely Original"
    /\ authenticity_of_report report = Some a /\ a == 1
    /\ py_get report "visual_analysis" (JDict []) = Ok visuals
    /\ py_get visuals "fake_frames_count" (JInt 0) = Ok (JInt 0)
    /\ py_get visuals "max_fake_score" (JInt 0) = Ok (JFloat m) /\ m == 0.
Proof.
  intros Hdown w1 Hc fps Hi.
  destruct (run_video_forensics_result video_path w w2 cap Hc Hi)
    as (meta & visuals & w' & _ & Hv & Hr).
  destruct (analyze_video_frames_report video_path w1 w2 cap Hc Hi)
    as (w'' & Hv').
  fold w1 in Hv. rewrite Hv in Hv'. injection Hv' as Hvis _.
  fold fps in Hr, Hvis.
  destruct (zero_scores _ (observed_scores_during_outage
                             (py_int (fps * 2)) (video_path ++ "_temp.jpg")
                             (cap_frames cap) Hdown 0%Z w2)) as [Hz Hh].
  rewrite Hz, Hh in Hr. rewrite Hz, Hh in Hvis.
  do 5 eexists. split; [exact Hr |]. simpl.
  split; [reflexivity |]. split; [reflexivity |].
  split; [reflexivity |]. split; [reflexivity |].
  subst visuals. simpl.
  split; [reflexivity |]. split; reflexivity.
Qed.

(** *** How many frames are sampled *)

Lemma ceil_step (k idx : Z) :
  (0 < k)%Z -> (0 <= idx)%Z ->
  ((idx + 1 + k - 1) / k - (idx + k - 1) / k
   = if idx mod k =? 0 then 1 else 0)%Z.
Proof.
  intros Hk Hidx.
  pose proof (Z.div_mod idx k ltac:(lia)) as Hdm.
  pose proof (Z.mod_pos_bound idx k Hk) as Hb.
  replace (idx + 1 + k - 1)%Z with (idx + 1 * k)%Z by lia.
  rewrite Z.div_add by lia.
  destruct (idx mod k =? 0)%Z eqn:E.
  - apply Z.eqb_eq in E.
    rewrite <- (Z.div_unique (idx + k - 1) k (idx / k) (k - 1)); lia.
  - apply Z.eqb_neq in E.
    rewrite <- (Z.div_unique (idx + k - 1) k (idx / k + 1) (idx mod k - 1));
      lia.
Qed.

Lemma sampled_closed (k : Z) (n : nat) :
  (0 < k)%Z ->
  forall idx, (0 <= idx)%Z ->
    (Z.of_nat (sampled k idx n)
     = (idx + Z.of_nat n + k - 1) / k - (idx + k - 1) / k)%Z.
Proof.
  intros Hk. induction n as [| n IH]; intros idx Hidx.
  - simpl. replace (idx + 0 + k - 1)%Z with (idx + k - 1)%Z by lia. lia.
  - simpl sampled. rewrite Nat2Z.inj_add, (IH (idx + 1)%Z) by lia.
    pose proof (ceil_step k idx Hk Hidx) as Hs.
    replace (idx + 1 + Z.of_nat n + k - 1)%Z
      with (idx + Z.of_nat (S n) + k - 1)%Z by lia.
    destruct (idx mod k =? 0)%Z; simpl Z.of_nat; lia.
Qed.

Lemma frame_tamper_score_returns (temp_img : string) (frame : Frame)
      (w : World) :
  (forall p f w0, exists w0', cv2_imwrite svc p f w0 = (Ok tt, w0')) ->
  exists q w1,
    VideoAgent.frame_tamper_score lib svc temp_img frame w
    = (Ok (JFloat q), w1).
Proof.
  intros Hwrite. unfold VideoAgent.frame_tamper_score.
  destruct (Hwrite temp_img frame w) as (w1 & Hw).
  rewrite (bind_ok _ _ _ _ _ Hw).
  destruct (ImageAgent.analyze_image_with_rd_and_gemini lib svc temp_img w1)
    as [[r | e] w2] eqn:Ea.
  - destruct (analysis_score_is_float _ _ _ _ Ea) as (q & Hq).
    rewrite (bind_ok _ _ _ _ _ Ea). unfold lift. rewrite Hq. eauto.
  - rewrite analyze_image_catches in Ea.
    destruct (ImageAgent.analysis lib svc temp_img w1) as [[? | ?] ?];
      discriminate.
Qed.

Lemma observed_scores_all_sampled (frame_interval : Z) (temp_img : string)
      (frames : list Frame) :
  (forall p f w0, exists w0', cv2_imwrite svc p f w0 = (Ok tt, w0')) ->
  forall idx w,
    List.length (observed_scores lib svc frame_interval temp_img frames
                                 idx w)
    = sampled frame_interval idx (List.length frames).
Proof.
  intros Hwrite.
  induction frames as [| frame rest IH]; intros idx w; simpl;
    [reflexivity |].
  destruct (idx mod frame_interval =? 0)%Z; [| apply IH].
  destruct (frame_tamper_score_returns temp_img frame w Hwrite)
    as (q & w1 & ->).
  simpl. now rewrite IH.
Qed.

Lemma py_int_nonneg (x : Q) : 0 <= x -> (0 <= py_int x)%Z.
Proof.
  intros H. unfold py_int.
  destruct (Qle_bool 0 x) eqn:E.
  - rewrite <- (Qfloor_Z 0). now apply Qfloor_resp_le.
  - rewrite <- Qle_bool_iff in H. congruence.
Qed.

(** X13. One frame in every [int(fps * 2)] is analysed, starting with the
    first: when the snapshot can always be written, a video of [n] frames
    with sampling interval [k] reports [ceil(n / k)] frames analysed,
    whether or not the image service succeeded on them. *)
Theorem every_sampled_frame_is_counted
        (video_path : string) (w w2 : World) (cap : Capture Frame) :
  (forall p f w0, exists w0', cv2_imwrite svc p f w0 = (Ok tt, w0')) ->
  cv2_VideoCapture svc video_path w = (Ok (Some cap), w2) ->
  let fps := if Qlt_le_dec 0 (cap_fps cap) then cap_fps cap else 30 in
  let frame_interval := py_int (fps * 2) in
  frame_interval <> 0%Z ->
  exists visuals w',
    VideoAgent.analyze_video_frames lib svc video_path w = (Ok visuals, w')
    /\ py_get visuals "frames_analyzed" (JInt 0)
       = Ok (JInt ((Z.of_nat (List.length (cap_frames cap))
                    + frame_interval - 1) / frame_interval)).
Proof.
  intros Hwrite Hc fps frame_interval Hi.
  destruct (analyze_video_frames_report video_path w w2 cap Hc Hi)
    as (w' & Hv).
  fold fps frame_interval in Hv.
  do 2 eexists. split; [exact Hv |]. simpl. do 2 f_equal.
  rewrite (observed_scores_all_sampled _ _ _ Hwrite).
  assert (Hpos : (0 < frame_interval)%Z).
  { assert (0 <= frame_interval)%Z; [| lia].
    apply py_int_nonneg. apply Qmult_le_0_compat; [| discriminate].
    unfold fps. destruct (Qlt_le_dec 0 (cap_fps cap)) as [H | H];
      [now apply Qlt_le_weak | discriminate]. }
  rewrite (sampled_closed frame_interval _ Hpos 0%Z) by lia.
  replace ((0 + frame_interval - 1) / frame_interval)%Z with 0%Z.
  - rewrite Z.sub_0_r, Z.add_0_l. reflexivity.
  - symmetry. apply Z.div_small. lia.
Qed.

(** ** The document agent: reading *)

Lemma string_app_nil_r (s : string) : s ++ "" = s.
Proof. induction s as [| c s IH]; simpl; [reflexivity | now rewrite IH]. Qed.

Lemma string_app_assoc (a b c : string) : (a ++ b) ++ c = a ++ (b ++ c).
Proof. induction a as [| x a IH]; simpl; [reflexivity | now rewrite IH]. Qed.

(** What one file adds does not depend on the text read so far, and a turn
    of the loop never raises. *)
Lemma read_one_appends (filepath : string) (w : World) :
  exists added w1,
    forall full_text,
      DocAgent.read_one svc full_text filepath w
      = (Ok (full_text ++ added), w1).
Proof.
  unfold DocAgent.read_one, DocAgent.read_pdf, DocAgent.read_docx.
  unfold_run.
  destruct (PyStr.endswith filepath ".txt").
  - destruct (read_txt svc filepath w) as [[content | e] w1].
    + exists (DocAgent.file_block filepath content), w1. reflexivity.
    + exists "", w1. intros. now rewrite string_app_nil_r.
  - destruct (PyStr.endswith filepath ".pdf").
    + destruct (pdf_pages_text svc filepath w) as [[content | e] w1].
      * exists (DocAgent.file_block filepath content), w1. reflexivity.
      * exists (DocAgent.file_block filepath ""), w1. reflexivity.
    + destruct (PyStr.endswith filepath ".docx").
      * destruct (docx_paragraphs_text svc filepath w)
          as [[content | e] w1].
        -- exists (DocAgent.file_block filepath content), w1. reflexivity.
        -- exists (DocAgent.file_block filepath ""), w1. reflexivity.
      * exists "", w. intros. now rewrite string_app_nil_r.
Qed.

Lemma read_files_loop_appends (paths : list string) :
  forall w,
    exists added w1,
      forall full_text,
        DocAgent.read_files_loop svc paths full_text w
        = (Ok (full_text ++ added), w1).
Proof.
  induction paths as [| p paths IH]; intros w.
  - exists "", w. intros. simpl. unfold ret. now rewrite string_app_nil_r.
  - destruct (read_one_appends p w) as (a1 & w1 & H1).
    destruct (IH w1) as (a2 & w2 & H2).
    exists (a1 ++ a2), w2. intros full_text. simpl.
    rewrite (bind_ok _ _ _ _ _ (H1 full_text)), H2.
    now rewrite string_app_assoc.
Qed.

Lemma read_files_loop_app (l1 l2 : list string) :
  forall full_text w,
    DocAgent.read_files_loop svc (l1 ++ l2) full_text w
    = bind (DocAgent.read_files_loop svc l1 full_text)
           (DocAgent.read_files_loop svc l2) w.
Proof.
  induction l1 as [| p l1 IH]; intros full_text w; simpl.
  - reflexivity.
  - unfold bind.
    destruct (DocAgent.read_one svc full_text p w) as [[t | e] w1];
      [| reflexivity].
    rewrite IH. reflexivity.
Qed.

(** X15. [read_files_from_paths] never raises, whatever the readers do, and
    reads file by file: the text of a list of files is the text of its
    first part followed by the text of the rest, each file read in the
    world the one before left. *)
Theorem read_files_never_raises_and_concatenates
        (l1 l2 : list string) (w : World) :
  exists t1 w1 t2 w2,
    DocAgent.read_files_from_paths svc l1 w = (Ok t1, w1)
    /\ DocAgent.read_files_from_paths svc l2 w1 = (Ok t2, w2)
    /\ DocAgent.read_files_from_paths svc (l1 ++ l2) w = (Ok (t1 ++ t2), w2).
Proof.
  unfold DocAgent.read_files_from_paths.
  destruct (read_files_loop_appends l1 w) as (t1 & w1 & H1).
  destruct (read_files_loop_appends l2 w1) as (t2 & w2 & H2).
  exists t1, w1, t2, w2.
  split; [exact (H1 "") |]. split; [exact (H2 "") |].
  rewrite read_files_loop_app.
  rewrite (bind_ok _ _ _ _ _ (H1 "")). simpl. apply H2.
Qed.

(** ** The document agent: blank text, missing key, unvalidated answers *)

(** A document whose text comes out blank gets the empty report; the model
    is not called. *)
Lemma blank_document_item (file_path text : string)
      (api_keys : list (string * option string)) (w w1 : World) :
  doc_agent_loaded cfg = true ->
  is_set (GEMINI_API_KEY cfg) = true ->
  DocAgent.read_files_from_paths svc [file_path] w = (Ok text, w1) ->
  PyStr.strip_nonempty text = false ->
  MetaAgent._run_pipeline_for_file cfg lib svc file_path "documents"
                                   api_keys w
  = (Ok [("file", JStr (PyStr.basename file_path));
         ("type", JStr "document");
         ("report", DocAgent.empty_structure);
         ("text", JStr text)], w1).
Proof.
  intros Hl Hk Hr Hb.
  rewrite run_pipeline_catches. unfold MetaAgent.pipeline. simpl.
  rewrite Hl. simpl.
  rewrite (bind_ok _ _ _ _ _ Hr).
  unfold DocAgent.run_gemini_analysis, DocAgent._init_gemini.
  rewrite Hk, Hb. reflexivity.
Qed.

Lemma gather_blank_document (fname text : string) (g : MetaAgent.Gathered)
      (w : World) :
  MetaAgent.gather lib "documents" fname
    [("file", JStr fname); ("type", JStr "document");
     ("report", DocAgent.empty_structure); ("text", JStr text)] g w
  = (Ok {| MetaAgent.results_list := MetaAgent.results_list g;
           MetaAgent.aggregate_text_parts :=
             (MetaAgent.aggregate_text_parts g
                ++ [("--- DOCUMENT: " ++ fname ++ " ---" ++ nl ++ text
                      ++ nl)%string])%list;
           MetaAgent.file_summaries :=
             (MetaAgent.file_summaries g
                ++ [(fname ++ ": DANGER SCORE 0/100.")%string])%list |}, w).
Proof. reflexivity. Qed.

(** X16. The suffix test of the reader is case-sensitive while the classifier
    lower-cases the extension.  A file scheduled as a document whose name
    ends in none of [.txt], [.pdf], [.docx] as written (an upper-case
    extension, say) is never opened and the model is never asked: its
    entry carries the empty report, danger score 0, and the summary line
    sent to the meta model reads [DANGER SCORE 0/100.]. *)
Theorem unmatched_suffix_document_is_never_read
        (file_path : string) (api_keys : list (string * option string))
        (g : MetaAgent.Gathered) (w : World) :
  doc_agent_loaded cfg = true ->
  is_set (GEMINI_API_KEY cfg) = true ->
  PyStr.endswith file_path ".txt" = false ->
  PyStr.endswith file_path ".pdf" = false ->
  PyStr.endswith file_path ".docx" = false ->
  let item := [("file", JStr (PyStr.basename file_path));
               ("type", JStr "document");
               ("report", DocAgent.empty_structure);
               ("text", JStr "")] in
  DocAgent.read_files_from_paths svc [file_path] w = (Ok "", w)
  /\ MetaAgent._run_pipeline_for_file cfg lib svc file_path "documents"
                                      api_keys w = (Ok item, w)
  /\ danger_score_of DocAgent.empty_structure = Some (JInt 0)
  /\ exists g',
       MetaAgent.gather lib "documents" (PyStr.basename file_path) item g w
       = (Ok g', w)
       /\ MetaAgent.file_summaries g'
          = (MetaAgent.file_summaries g
               ++ [(PyStr.basename file_path
                      ++ ": DANGER SCORE 0/100.")%string])%list.
Proof.
  intros Hl Hk H1 H2 H3 item.
  assert (Hr : DocAgent.read_files_from_paths svc [file_path] w = (Ok "", w)).
  { unfold DocAgent.read_files_from_paths. simpl.
    unfold DocAgent.read_one. rewrite H1, H2, H3. reflexivity. }
  split; [exact Hr |].
  split; [exact (blank_document_item _ _ _ _ _ Hl Hk Hr eq_refl) |].
  split; [reflexivity |].
  eexists. split; [apply gather_blank_document | reflexivity].
Qed.

(** X17. A text file that cannot be read is passed over in silence: the
    reader's exception is swallowed, the text is empty, the model is not
    called, and the scheduler files a normal entry with the empty report
    and danger score 0, not an error entry. *)
Theorem unreadable_text_file_scores_zero
        (file_path : string) (api_keys : list (string * option string))
        (w w1 : World) (e : exn) :
  doc_agent_loaded cfg = true ->
  is_set (GEMINI_API_KEY cfg) = true ->
  PyStr.endswith file_path ".txt" = true ->
  read_txt svc file_path w = (Raise e, w1) ->
  let item := [("file", JStr (PyStr.basename file_path));
               ("type", JStr "document");
               ("report", DocAgent.empty_structure);
               ("text", JStr "")] in
  MetaAgent._run_pipeline_for_file cfg lib svc file_path "documents"
                                   api_keys w = (Ok item, w1)
  /\ has_error (JDict item) = false
  /\ is_normal (JDict item) = true
  /\ danger_score_of DocAgent.empty_structure = Some (JInt 0).
Proof.
  intros Hl Hk Ht Hr item.
  assert (Hread : DocAgent.read_files_from_paths svc [file_path] w
                  = (Ok "", w1)).
  { unfold DocAgent.read_files_from_paths. simpl.
    unfold DocAgent.read_one. rewrite Ht. unfold_run. now rewrite Hr. }
  split; [exact (blank_document_item _ _ _ _ _ Hl Hk Hread eq_refl) |].
  repeat split.
Qed.

(** X18. A PDF that cannot be parsed is treated differently: [read_pdf]
    returns the empty string, the file still gets its START/END header, so
    the text is not blank and the model is asked to score a header with
    nothing between its two lines. *)
Theorem unreadable_pdf_header_reaches_model
        (file_path : string) (api_keys : list (string * option string))
        (w w1 : World) (e : exn) :
  doc_agent_loaded cfg = true ->
  is_set (GEMINI_API_KEY cfg) = true ->
  PyStr.endswith file_path ".txt" = false ->
  PyStr.endswith file_path ".pdf" = true ->
  pdf_pages_text svc file_path w = (Raise e, w1) ->
  let text := DocAgent.file_block file_path "" in
  DocAgent.read_files_from_paths svc [file_path] w = (Ok text, w1)
  /\ PyStr.strip_nonempty text = true
  /\ DocAgent.run_gemini_analysis cfg lib svc text w1
     = try_except (DocAgent.scoring lib svc text)
                  (fun e => ret (DocAgent.fallback e)) w1
  /\ exists report w2,
       DocAgent.run_gemini_analysis cfg lib svc text w1 = (Ok report, w2)
       /\ MetaAgent._run_pipeline_for_file cfg lib svc file_path "documents"
                                           api_keys w
          = (Ok [("file", JStr (PyStr.basename file_path));
                 ("type", JStr "document");
                 ("report", report);
                 ("text", JStr text)], w2).
Proof.
  intros Hl Hk Ht Hp Hr text.
  assert (Hread : DocAgent.read_files_from_paths svc [file_path] w
                  = (Ok text, w1)).
  { unfold DocAgent.read_files_from_paths. simpl.
    unfold DocAgent.read_one, DocAgent.read_pdf. rewrite Ht, Hp.
    unfold_run. now rewrite Hr. }
  assert (Hrun : DocAgent.run_gemini_analysis cfg lib svc text w1
                 = try_except (DocAgent.scoring lib svc text)
                              (fun e => ret (DocAgent.fallback e)) w1).
  { unfold DocAgent.run_gemini_analysis, DocAgent._init_gemini.
    rewrite Hk. reflexivity. }
  split; [exact Hread |]. split; [reflexivity |]. split; [exact Hrun |].
  destruct (try_except_returns (DocAgent.scoring lib svc text)
                               DocAgent.fallback w1) as (report & w2 & Hs).
  rewrite <- Hrun in Hs.
  exists report, w2. split; [exact Hs |].
  rewrite run_pipeline_catches. unfold MetaAgent.pipeline. simpl.
  rewrite Hl. simpl.
  rewrite (bind_ok _ _ _ _ _ Hread).
  rewrite (bind_ok _ _ _ _ _ Hs). reflexivity.
Qed.

(** X19. Without a Gemini key no document is scored: [run_gemini_analysis]
    raises [ValueError] before it looks at the text, the model is not
    called, and the scheduler files an error entry for the document after
    having read it. *)
Theorem documents_need_model_key
        (file_path : string) (api_keys : list (string * option string))
        (w : World) :
  is_set (GEMINI_API_KEY cfg) = false ->
  doc_agent_loaded cfg = true ->
  let e := mk_exn ValueError
                  "GEMINI_API_KEY environment variable not set." in
  (forall text w0,
      DocAgent.run_gemini_analysis cfg lib svc text w0 = (Raise e, w0))
  /\ exists text w1,
       DocAgent.read_files_from_paths svc [file_path] w = (Ok text, w1)
       /\ MetaAgent._run_pipeline_for_file cfg lib svc file_path "documents"
                                           api_keys w
          = (Ok [("file", JStr (PyStr.basename file_path));
                 ("type", JStr "documents");
                 ("error",
                  JStr "GEMINI_API_KEY environment variable not set.")],
             w1).
Proof.
  intros Hk Hl e.
  assert (Hrun : forall text w0,
             DocAgent.run_gemini_analysis cfg lib svc text w0
             = (Raise e, w0)).
  { intros. unfold DocAgent.run_gemini_analysis, DocAgent._init_gemini.
    rewrite Hk. reflexivity. }
  split; [exact Hrun |].
  destruct (read_files_loop_appends [file_path] w) as (text & w1 & Hr).
  specialize (Hr ""). simpl append in Hr.
  exists text, w1. split; [exact Hr |].
  rewrite run_pipeline_catches. unfold MetaAgent.pipeline. simpl.
  rewrite Hl. simpl.
  unfold DocAgent.read_files_from_paths.
  rewrite (bind_ok _ _ _ _ _ Hr).
  rewrite (bind_raise _ _ _ _ _ (Hrun text w1)). reflexivity.
Qed.

(** X20. The answer of the scoring model is not validated: whatever JSON object
    it returns, with [misinformationAnalysis] absent or an object, becomes
    the report as it is, and the score shown in the summary line is the
    value found under [dangerScore], or 0 when there is none. *)
Theorem model_answer_is_passed_through
        (text response_text fname : string) (d : dict) (score : json)
        (g : MetaAgent.Gathered) (w w1 : World) :
  is_set (GEMINI_API_KEY cfg) = true ->
  PyStr.strip_nonempty text = true ->
  doc_generate_content svc text w = (Ok response_text, w1) ->
  json_loads lib response_text = Ok (JDict d) ->
  py_get (PyDict.get_or "misinformationAnalysis" d (JDict []))
         "dangerScore" (JInt 0) = Ok score ->
  DocAgent.run_gemini_analysis cfg lib svc text w = (Ok (JDict d), w1)
  /\ exists g',
       MetaAgent.gather lib "documents" fname
         [("file", JStr fname); ("type", JStr "document");
          ("report", JDict d); ("text", JStr text)] g w1 = (Ok g', w1)
       /\ MetaAgent.file_summaries g'
          = (MetaAgent.file_summaries g
               ++ [(fname ++ ": DANGER SCORE " ++ py_str lib score
                          ++ "/100.")%string])%list.
Proof.
  intros Hk Hb Hc Hj Hs. split.
  - unfold DocAgent.run_gemini_analysis, DocAgent._init_gemini.
    rewrite Hk, Hb. simpl. unfold DocAgent.scoring.
    unfold_run. rewrite Hc, Hj. simpl. rewrite Hs. reflexivity.
  - unfold MetaAgent.gather. simpl. unfold_run. rewrite Hs.
    eexists. split; reflexivity.
Qed.

(** ** The audio agent: missing key *)

(** X21. With no AssemblyAI key in the session's [api_keys] and none in the
    environment, an audio file costs no remote call: the agent raises
    [ValueError] before uploading and the scheduler files an error entry,
    the world being as it was. *)
Theorem audio_without_key_makes_no_call
        (file_path : string) (api_keys : list (string * option string))
        (w : World) :
  audio_agent_loaded cfg = true ->
  is_set (MetaAgent.keys_get "assemblyai" api_keys) = false ->
  is_set (ASSEMBLYAI_API_KEY cfg) = false ->
  exists msg,
    AudioAgent.analyze_audio_file cfg lib svc file_path
      (or_else (MetaAgent.keys_get "assemblyai" api_keys)
               (ASSEMBLYAI_API_KEY cfg)) w
    = (Raise (mk_exn ValueError msg), w)
    /\ MetaAgent._run_pipeline_for_file cfg lib svc file_path "audio"
                                        api_keys w
       = (Ok [("file", JStr (PyStr.basename file_path));
              ("type", JStr "audio");
              ("error", JStr msg)], w).
Proof.
  intros Hl Hs He.
  assert (Hkey : exists msg,
             AudioAgent._get_api_key cfg
               (or_else (MetaAgent.keys_get "assemblyai" api_keys)
                        (ASSEMBLYAI_API_KEY cfg))
             = Raise (mk_exn ValueError msg)).
  { unfold AudioAgent._get_api_key, or_else. rewrite Hs, He.
    destruct (ASSEMBLYAI_API_KEY cfg) as [k |];
      [| eexists; reflexivity].
    simpl in He. apply negb_false_iff in He. rewrite He.
    eexists; reflexivity. }
  destruct Hkey as (msg & Hkey). exists msg.
  assert (Ha : AudioAgent.analyze_audio_file cfg lib svc file_path
                 (or_else (MetaAgent.keys_get "assemblyai" api_keys)
                          (ASSEMBLYAI_API_KEY cfg)) w
               = (Raise (mk_exn ValueError msg), w)).
  { unfold AudioAgent.analyze_audio_file. rewrite Hkey. reflexivity. }
  split; [exact Ha |].
  exact (audio_failure_reaches_scheduler _ _ _ _ _ Hl Ha).
Qed.

(** ** The image agent: missing request id, MIME type *)

(** X9. When Reality Defender hands out a signed URL without a request id,
    and the URL carries none either, the file is uploaded but its
    analysis is never polled: the agent returns an [Error] report. *)
Theorem missing_request_id_stops_before_polling
        (file_path signed_url : string) (w w1 w2 : World) :
  request_presigned_url svc (PyStr.basename file_path) w
  = (Ok (signed_url, None), w1) ->
  upload_file_to_signed_url svc signed_url file_path w1 = (Ok tt, w2) ->
  extract_request_id_from_url svc signed_url = None ->
  ImageAgent.analyze_image_with_rd_and_gemini lib svc file_path w
  = (Ok (JDict
           [("verdict", JStr "Error");
            ("authenticity_score", JFloat 0);
            ("tamperingPercentage", JFloat 0);
            ("explanation",
             JStr "Image analysis failed: Request ID missing from RD response.");
            ("rd_raw",
             JDict [("error",
                     JStr "Request ID missing from RD response.")])]),
     w2).
Proof.
  intros Hp Hu Hx. rewrite analyze_image_catches.
  unfold ImageAgent.analysis. unfold_run. rewrite Hp, Hu, Hx. reflexivity.
Qed.

Lemma lower_char_dot (c : ascii) :
  Ascii.eqb (PyStr.lower_char c) "." = Ascii.eqb c ".".
Proof.
  destruct c as [[] [] [] [] [] [] [] []]; reflexivity.
Qed.

Lemma after_last_lower (s : string) :
  PyStr.after_last "." (PyStr.lower s)
  = option_map PyStr.lower (PyStr.after_last "." s).
Proof.
  induction s as [| c s IH]; simpl; [reflexivity |].
  rewrite IH.
  destruct (PyStr.after_last "." s); simpl; [reflexivity |].
  rewrite lower_char_dot. now destruct (Ascii.eqb c ".").
Qed.

Lemma after_last_app (sep : ascii) (b t : string) :
  PyStr.after_last sep b = Some t ->
  forall a, PyStr.after_last sep (a ++ b) = Some t.
Proof.
  intros Hb. induction a as [| c a IH]; simpl; [exact Hb |].
  now rewrite IH.
Qed.

(** X10. The MIME type sent with an image follows the same lower-cased
    extension the classifier uses: of the four image extensions [jpg] and
    [jpeg] are declared [image/jpeg], and [png] and [gif] alike are
    declared [image/png].  The snapshot of a video frame, whose name ends
    in [_temp.jpg], is always declared [image/jpeg]. *)
Theorem mime_type_follows_extension :
  (forall file_path,
      MetaAgent.category_of file_path = "images" ->
      get_mime_type file_path
      = if PyStr.mem (MetaAgent.extension file_path) ["jpg"; "jpeg"]
        then "image/jpeg" else "image/png")
  /\ (forall file_path,
         MetaAgent.extension file_path = "gif" ->
         get_mime_type file_path = "image/png")
  /\ (forall video_path,
         get_mime_type (video_path ++ "_temp.jpg") = "image/jpeg").
Proof.
  assert (Hdot : forall p e,
             PyStr.after_last "." p = Some e ->
             get_mime_type p
             = if PyStr.mem (MetaAgent.extension p) ["jpg"; "jpeg"]
               then "image/jpeg" else "image/png").
  { intros p e He. unfold get_mime_type, MetaAgent.extension. cbv zeta.
    rewrite after_last_lower, He. reflexivity. }
  split; [| split].
  - intros p Hc.
    destruct (PyStr.after_last "." p) as [e |] eqn:He; [eauto |].
    unfold MetaAgent.category_of, MetaAgent.extension in Hc.
    rewrite He in Hc. discriminate.
  - intros p Hg.
    destruct (PyStr.after_last "." p) as [e |] eqn:He.
    + rewrite (Hdot p e He), Hg. reflexivity.
    + unfold MetaAgent.extension in Hg. rewrite He in Hg. discriminate.
  - intros v.
    assert (He : PyStr.after_last "." (v ++ "_temp.jpg") = Some "jpg")
      by (now apply after_last_app).
    rewrite (Hdot _ _ He). unfold MetaAgent.extension. now rewrite He.
Qed.

(** ** The video agent: a file that cannot be opened *)

(** X14. A video that OpenCV cannot open is not reported as an error.  Both
    the metadata and the visual analysis carry an [error] field, but the
    report itself has verdict [Likely Original] and authenticity score 1,
    the scheduler files it as a normal entry, and the summary line sent to
    the meta model reads [Video Fake Ratio: 0%]. *)
Theorem unopenable_video_reads_as_original
        (video_path : string) (api_keys : list (string * option string))
        (g : MetaAgent.Gathered) (w w1 w2 : World) :
  cv2_VideoCapture svc video_path w = (Ok None, w1) ->
  cv2_VideoCapture svc video_path w1 = (Ok None, w2) ->
  exists report a,
    VideoAgent.run_video_forensics lib svc video_path w = (Ok report, w2)
    /\ verdict_of_report report = Some "Likely Original"
    /\ authenticity_of_report report = Some a /\ a == 1
    /\ py_get report "metadata" JNull
       = Ok (JDict [("error", JStr "Could not open video file.")])
    /\ py_get report "visual_analysis" JNull
       = Ok (JDict [("error", JStr "Could not open video file")])
    /\ has_error report = false
    /\ (video_agent_loaded cfg = true ->
        exists item g',
          MetaAgent._run_pipeline_for_file cfg lib svc video_path "video"
                                           api_keys w = (Ok item, w2)
          /\ is_normal (JDict item) = true
          /\ MetaAgent.gather lib "video" (PyStr.basename video_path) item
                              g w2 = (Ok g', w2)
          /\ MetaAgent.file_summaries g'
             = (MetaAgent.file_summaries g
                  ++ [(PyStr.basename video_path
                         ++ ": Video Fake Ratio: 0%")%string])%list).
Proof.
  intros H1 H2.
  assert (Hr : VideoAgent.run_video_forensics lib svc video_path w
               = (Ok (JDict
                        [("verdict", JStr "Likely Original");
                         ("authenticity_score", JFloat 1);
                         ("metadata",
                          JDict [("error",
                                  JStr "Could not open video file.")]);
                         ("visual_analysis",
                          JDict [("error",
                                  JStr "Could not open video file")])]),
                  w2)).
  { unfold VideoAgent.run_video_forensics,
      VideoAgent.extract_basic_metadata, VideoAgent.analyze_video_frames.
    unfold_run. rewrite H1, H2. vm_compute. reflexivity. }
  do 2 eexists. split; [exact Hr |].
  split; [reflexivity |]. split; [reflexivity |]. split; [reflexivity |].
  split; [reflexivity |]. split; [reflexivity |]. split; [reflexivity |].
  intros Hl.
  do 2 eexists. split; [| split; [| split]].
  - rewrite run_pipeline_catches. unfold MetaAgent.pipeline. simpl.
    rewrite Hl. simpl. rewrite (bind_ok _ _ _ _ _ Hr). reflexivity.
  - reflexivity.
  - reflexivity.
  - reflexivity.
Qed.

(** ** The ledger agent *)

Section Ledger.
Context {Call : Type}.
Variable lcfg : LedgerConfig.
Variable web3 : Web3 World Call.

Lemma log_verification_hash_cases (report_hash_hex : string) (w w' : World)
      (r : json) :
  BlockchainAgent.log_verification_hash lcfg web3 report_hash_hex w
  = (Ok r, w') ->
  r = BlockchainAgent.stub_receipt report_hash_hex
  \/ r = BlockchainAgent.invalid_address_receipt report_hash_hex
  \/ (exists e, r = BlockchainAgent.live_error_receipt e report_hash_hex)
  \/ (exists t c, r = JDict [("tx_hash", JStr t); ("chain_id", JInt c);
                             ("proof_hash", JStr report_hash_hex);
                             ("success", JBool true)]).
Proof.
  unfold BlockchainAgent.log_verification_hash. intros H.
  apply bind_ok_inv in H as (stub & w1 & _ & H).
  destruct stub.
  - unfold ret in H. injection H as <- _. now left.
  - destruct (BlockchainAgent.checksum_addresses lcfg web3)
      as [[account contract] | e].
    + apply bind_ok_inv in H as (data & w2 & _ & H).
      unfold try_except in H.
      destruct (BlockchainAgent.live lcfg web3 report_hash_hex account
                                     contract data w2)
        as [[r0 | e] w3] eqn:El.
      * injection H as <- _. right. right. right.
        unfold BlockchainAgent.live in El.
        apply bind_ok_inv in El as (t & w4 & _ & El).
        apply bind_ok_inv in El as (c & w5 & _ & El).
        unfold ret in El. injection El as <- _. eauto.
      * unfold ret in H. injection H as <- _. right. right. left. eauto.
    + unfold ret in H. injection H as <- _. right. now left.
Qed.

(** X22. Whatever path [log_verification_hash] takes, a receipt it returns
    names the hash it was given under [proof_hash] and carries a
    [tx_hash]; a receipt without the [success] flag carries a mock
    transaction hash, one that starts with [mock_tx_0x]. *)
Theorem ledger_receipt_names_the_hash
        (report_hash_hex : string) (w w' : World) (r : json) :
  BlockchainAgent.log_verification_hash lcfg web3 report_hash_hex w
  = (Ok r, w') ->
  exists d t,
    r = JDict d
    /\ PyDict.get "proof_hash" d = Some (JStr report_hash_hex)
    /\ PyDict.get "tx_hash" d = Some (JStr t)
    /\ (PyDict.get "success" d = None ->
        String.prefix "mock_tx_0x" t = true)
    /\ (PyDict.get "success" d <> None ->
        PyDict.get "success" d = Some (JBool true)
        /\ PyDict.get "error" d = None).
Proof.
  intros H.
  destruct (log_verification_hash_cases _ _ _ _ H)
    as [-> | [-> | [(e & ->) | (t & c & ->)]]].
  - exists [("tx_hash",
             JStr ("mock_tx_0x" ++ PyStr.take 16 report_hash_hex));
            ("chain_id", JStr "STUB_TESTNET");
            ("proof_hash", JStr report_hash_hex)],
           ("mock_tx_0x" ++ PyStr.take 16 report_hash_hex).
    repeat split; try reflexivity;
      first [ intros _; reflexivity
            | intros _; cbn -[PyStr.take];
              now destruct (PyStr.take 16 report_hash_hex)
            | match goal with
              | Hs : _ <> None |- _ => exfalso; now apply Hs
              end ].
  - exists [("tx_hash", JStr "mock_tx_0xerror");
            ("error", JStr "Invalid Address Configuration");
            ("proof_hash", JStr report_hash_hex)], "mock_tx_0xerror".
    repeat split; try reflexivity;
      first [ intros _; reflexivity
            | intros _; cbn -[PyStr.take];
              now destruct (PyStr.take 16 report_hash_hex)
            | match goal with
              | Hs : _ <> None |- _ => exfalso; now apply Hs
              end ].
  - exists [("error", JStr ("Live TX failed: " ++ exn_str e));
            ("tx_hash", JStr "mock_tx_0xerror");
            ("proof_hash", JStr report_hash_hex)], "mock_tx_0xerror".
    repeat split; try reflexivity;
      first [ intros _; reflexivity
            | intros _; cbn -[PyStr.take];
              now destruct (PyStr.take 16 report_hash_hex)
            | match goal with
              | Hs : _ <> None |- _ => exfalso; now apply Hs
              end ].
  - exists [("tx_hash", JStr t); ("chain_id", JInt c);
            ("proof_hash", JStr report_hash_hex);
            ("success", JBool true)], t.
    repeat split; try reflexivity; cbn; try discriminate.
Qed.

(** X23. When the RPC endpoint, the private key or the account is not
    configured, no call leaves the process: the receipt is the stub, whose
    transaction hash is [mock_tx_0x] followed by the first sixteen
    characters of the hash.  [meta_process] passes the proof hash with its
    [0x] prefix, so in a session bundle the stub reads [mock_tx_0x0x]
    followed by the first fourteen digits of the proof hash, and the
    receipt's [proof_hash] is the bundle's with [0x] in front. *)
Theorem unconfigured_ledger_returns_stub
        (results : dict) (w : World) :
  is_set (RPC lcfg) && is_set (PRIVATE_KEY lcfg) && is_set (ACCOUNT lcfg)
  = false ->
  (forall report_hash_hex w0,
      BlockchainAgent.log_verification_hash lcfg web3 report_hash_hex w0
      = (Ok (JDict
               [("tx_hash",
                 JStr ("mock_tx_0x" ++ PyStr.take 16 report_hash_hex));
                ("chain_id", JStr "STUB_TESTNET");
                ("proof_hash", JStr report_hash_hex)]), w0))
  /\ (ledger_loaded cfg = true ->
      let proof_hash := _make_hash lib (JDict results) in
      MetaAgent.stamp cfg lib
        (with_ledger svc (BlockchainAgent.log_verification_hash lcfg web3))
        results w
      = (Ok (PyDict.set "blockchain_tx"
               (JDict
                  [("tx_hash",
                    JStr ("mock_tx_0x0x" ++ PyStr.take 14 proof_hash));
                   ("chain_id", JStr "STUB_TESTNET");
                   ("proof_hash", JStr ("0x" ++ proof_hash))])
               (PyDict.set "proof_hash" (JStr proof_hash) results)), w)).
Proof.
  intros Hcfg.
  assert (Hstub : forall h w0,
             BlockchainAgent.log_verification_hash lcfg web3 h w0
             = (Ok (BlockchainAgent.stub_receipt h), w0)).
  { intros h w0. unfold BlockchainAgent.log_verification_hash.
    assert (Hu : BlockchainAgent.use_stub lcfg web3 w0 = (Ok true, w0)).
    { unfold BlockchainAgent.use_stub.
      destruct (is_set (RPC lcfg)); [| reflexivity].
      destruct (is_set (PRIVATE_KEY lcfg)); [| reflexivity].
      destruct (is_set (ACCOUNT lcfg)); [discriminate | reflexivity]. }
    rewrite (bind_ok _ _ _ _ _ Hu). reflexivity. }
  split; [exact Hstub |].
  intros Hl proof_hash. unfold MetaAgent.stamp. cbv zeta. rewrite Hl.
  unfold with_ledger. simpl log_verification_hash.
  unfold try_except, bind. rewrite Hstub. reflexivity.
Qed.

(** X24. Past the address check and the conversion of the hash, nothing the
    node does makes [log_verification_hash] raise: a failure while the
    transaction is prepared, signed or sent gives the error receipt; so
    does a failure to read the chain id after the transaction was sent,
    in which case the receipt carries the mock hash and the hash of the
    transaction that went out is lost. *)
Theorem live_failures_become_error_receipts
        (report_hash_hex account data : string) (contract : option string)
        (w w1 : World) :
  BlockchainAgent.use_stub lcfg web3 w = (Ok false, w1) ->
  BlockchainAgent.checksum_addresses lcfg web3 = Ok (account, contract) ->
  to_bytes web3 report_hash_hex = Ok data ->
  (exists r w',
      BlockchainAgent.log_verification_hash lcfg web3 report_hash_hex w
      = (Ok r, w'))
  /\ (forall e w2,
         BlockchainAgent.submit lcfg web3 account contract data w1
         = (Raise e, w2) ->
         BlockchainAgent.log_verification_hash lcfg web3 report_hash_hex w
         = (Ok (JDict [("error", JStr ("Live TX failed: " ++ exn_str e));
                       ("tx_hash", JStr "mock_tx_0xerror");
                       ("proof_hash", JStr report_hash_hex)]), w2))
  /\ (forall t w2 e w3,
         BlockchainAgent.submit lcfg web3 account contract data w1
         = (Ok t, w2) ->
         chain_id web3 w2 = (Raise e, w3) ->
         BlockchainAgent.log_verification_hash lcfg web3 report_hash_hex w
         = (Ok (JDict [("error", JStr ("Live TX failed: " ++ exn_str e));
                       ("tx_hash", JStr "mock_tx_0xerror");
                       ("proof_hash", JStr report_hash_hex)]), w3))
  /\ (forall t w2 c w3,
         BlockchainAgent.submit lcfg web3 account contract data w1
         = (Ok t, w2) ->
         chain_id web3 w2 = (Ok c, w3) ->
         BlockchainAgent.log_verification_hash lcfg web3 report_hash_hex w
         = (Ok (JDict [("tx_hash", JStr t);
                       ("chain_id", JInt c);
                       ("proof_hash", JStr report_hash_hex);
                       ("success", JBool true)]), w3)).
Proof.
  intros Hu Ha Hb.
  assert (Hlog : BlockchainAgent.log_verification_hash lcfg web3
                   report_hash_hex w
                 = try_except
                     (BlockchainAgent.live lcfg web3 report_hash_hex account
                                           contract data)
                     (fun e => ret (BlockchainAgent.live_error_receipt
                                      e report_hash_hex)) w1).
  { unfold BlockchainAgent.log_verification_hash.
    rewrite (bind_ok _ _ _ _ _ Hu). rewrite Ha.
    unfold lift, bind. rewrite Hb. reflexivity. }
  rewrite Hlog. split; [| split; [| split]].
  - apply (try_except_returns _ (fun e => BlockchainAgent.live_error_receipt
                                            e report_hash_hex)).
  - intros e w2 Hs. unfold BlockchainAgent.live.
    erewrite try_except_raise; [reflexivity |].
    now apply bind_raise.
  - intros t w2 e w3 Hs Hc. unfold BlockchainAgent.live.
    erewrite try_except_raise; [reflexivity |].
    rewrite (bind_ok _ _ _ _ _ Hs). now apply bind_raise.
  - intros t w2 c w3 Hs Hc. unfold BlockchainAgent.live.
    erewrite try_except_ok; [reflexivity |].
    rewrite (bind_ok _ _ _ _ _ Hs), (bind_ok _ _ _ _ _ Hc). reflexivity.
Qed.

End Ledger.

(** ** The single-file application *)

(** X25. The upload filter accepts exactly the files the orchestrator would
    classify, plus those with extension [json]. *)
Theorem allowed_file_matches_classifier (filename : string) :
  App.allowed_file filename = true
  <-> classified filename = true \/ MetaAgent.extension filename = "json".
Proof.
  unfold App.allowed_file, classified, MetaAgent.category_of,
    MetaAgent.extension. cbv zeta.
  destruct (PyStr.after_last "." filename) as [e |].
  - generalize (PyStr.lower e). clear e. intros x.
    unfold App.ALLOWED_EXTENSIONS, PyStr.mem. simpl existsb.
    repeat match goal with
           | |- context [String.eqb x ?s] =>
               let E := fresh "E" in
               destruct (String.eqb x s) eqn:E;
               [ apply String.eqb_eq in E; subst x; simpl;
                 split; [intros _ | reflexivity]; auto | ]
           end.
    simpl. split; [discriminate |].
    intros [H | H]; [discriminate |].
    subst x. discriminate.
  - simpl. split; [discriminate |]. intros [H | H]; discriminate.
Qed.

Section Application.
Variable rag : RagBackend World.

(** A blank text is turned away before the retrieval store is touched. *)
Lemma ingest_blank (file_path text : string) (case_id : option string)
      (w : World) :
  PyStr.strip_nonempty text = false ->
  App.ingest cfg rag file_path text case_id w = (Ok tt, w).
Proof.
  intros Hb. unfold App.ingest, RagAgent.ingest_text_to_rag.
  rewrite Hb, orb_true_r. destruct (is_set case_id); reflexivity.
Qed.

Lemma finalize_report_returns (report_data : dict) (w : World) :
  exists report w',
    App._finalize_report lib svc report_data w = (Ok report, w')
    /\ (forall k, k <> "blockchain_tx" ->
                  PyDict.get k report = PyDict.get k report_data).
Proof.
  unfold App._finalize_report. unfold_run.
  destruct (log_verification_hash svc _ w) as [[tx | e] w1];
    do 2 eexists; (split; [reflexivity |]); intros k Hk.
  - now apply get_set_other.
  - reflexivity.
Qed.

(** X26. Ingestion into the retrieval store is best effort: it never raises,
    and it answers [False] without touching the store when the LangChain
    modules are missing, when the text is blank, when the text cannot be
    split, or when no Gemini key is set. *)
Theorem ingestion_is_best_effort
        (case_id text filename : string) (w : World) :
  (exists stored w',
      RagAgent.ingest_text_to_rag cfg rag case_id text filename w
      = (Ok stored, w'))
  /\ (RAG_AVAILABLE rag = false
      \/ PyStr.strip_nonempty text = false
      \/ raised (split_text rag text) = true
      \/ is_set (GEMINI_API_KEY cfg) = false ->
      RagAgent.ingest_text_to_rag cfg rag case_id text filename w
      = (Ok false, w)).
Proof.
  unfold RagAgent.ingest_text_to_rag. split.
  - destruct (negb (RAG_AVAILABLE rag) || negb (PyStr.strip_nonempty text)).
    + do 2 eexists. reflexivity.
    + apply (try_except_returns _ (fun _ => false)).
  - intros H.
    destruct (RAG_AVAILABLE rag); [| reflexivity].
    destruct (PyStr.strip_nonempty text); [| reflexivity].
    simpl. unfold_run.
    destruct (split_text rag text) as [chunks | e]; [| reflexivity].
    unfold RagAgent.embedding_key.
    destruct (is_set (GEMINI_API_KEY cfg)); [| reflexivity].
    simpl in H. intuition discriminate.
Qed.

(** X27. A file that is uploaded but whose name ends in none of the three
    suffixes the reader knows (a [.json] file, which the upload filter
    accepts, or an upper-case extension) is never read: the document
    pipeline reports [Danger Score: 0/100] and an authenticity score of 1
    without a call to the model or to the retrieval store. *)
Theorem unread_upload_gets_clean_report
        (file_path : string) (case_id : option string) (w : World) :
  is_set (GEMINI_API_KEY cfg) = true ->
  PyStr.endswith file_path ".txt" = false ->
  PyStr.endswith file_path ".pdf" = false ->
  PyStr.endswith file_path ".docx" = false ->
  exists a,
    a == 1
    /\ App.run_forensight_pipeline_document cfg lib svc rag file_path
                                            case_id w
       = App._finalize_report lib svc
           [("verdict", JStr "Danger Score: 0/100");
            ("authenticity_score", JFloat a);
            ("details", JDict [("file_type", JStr "Document");
                               ("analysis", DocAgent.empty_structure)])] w
    /\ exists report w',
         App.run_forensight_pipeline_document cfg lib svc rag file_path
                                              case_id w = (Ok report, w')
         /\ PyDict.get "verdict" report = Some (JStr "Danger Score: 0/100")
         /\ PyDict.get "authenticity_score" report = Some (JFloat a).
Proof.
  intros Hk H1 H2 H3.
  assert (Hr : DocAgent.read_files_from_paths svc [file_path] w = (Ok "", w)).
  { unfold DocAgent.read_files_from_paths. simpl.
    unfold DocAgent.read_one. rewrite H1, H2, H3. reflexivity. }
  assert (Hg : DocAgent.run_gemini_analysis cfg lib svc "" w
               = (Ok DocAgent.empty_structure, w)).
  { unfold DocAgent.run_gemini_analysis, DocAgent._init_gemini.
    rewrite Hk. reflexivity. }
  assert (Hp : App.run_forensight_pipeline_document cfg lib svc rag
                 file_path case_id w
               = App._finalize_report lib svc
                   [("verdict", JStr "Danger Score: 0/100");
                    ("authenticity_score", JFloat 1);
                    ("details",
                     JDict [("file_type", JStr "Document");
                            ("analysis", DocAgent.empty_structure)])] w).
  { unfold App.run_forensight_pipeline_document.
    rewrite (bind_ok _ _ _ _ _ Hr), (bind_ok _ _ _ _ _ Hg).
    unfold lift, bind. simpl.
    rewrite (ingest_blank file_path "" case_id w eq_refl).
    reflexivity. }
  exists 1. split; [reflexivity |].
  split; [exact Hp |].
  destruct (finalize_report_returns
              [("verdict", JStr "Danger Score: 0/100");
               ("authenticity_score", JFloat 1);
               ("details",
                JDict [("file_type", JStr "Document");
                       ("analysis", DocAgent.empty_structure)])] w)
    as (report & w' & Hf & Hkeep).
  exists report, w'. rewrite Hp.
  split; [exact Hf |]. split; rewrite Hkeep by discriminate; reflexivity.
Qed.

(** X28. The image pipeline always answers.  Whatever Reality Defender, Gemini
    and the ledger do, it returns a report with a verdict and an
    authenticity score between 0 and 1; a ledger failure only means that
    the report goes out without [blockchain_tx]. *)
Theorem image_pipeline_always_reports (file_path : string) (w : World) :
  exists results w1 report w' verdict a,
    ImageAgent.analyze_image_with_rd_and_gemini lib svc file_path w
    = (Ok results, w1)
    /\ App.run_forensight_pipeline_image lib svc file_path w
       = (Ok report, w')
    /\ PyDict.get "verdict" report = Some (JStr verdict)
    /\ PyDict.get "authenticity_score" report = Some (JFloat a)
    /\ 0 <= a /\ a <= 1
    /\ PyDict.get "details" report
       = Some (JDict [("file_type", JStr "Image");
                      ("full_analysis", results)])
    /\ (forall e w2,
           log_verification_hash svc
             ("0x" ++ App.create_report_hash lib
                        (JDict [("verdict", JStr verdict);
                                ("authenticity_score", JFloat a);
                                ("details",
                                 JDict [("file_type", JStr "Image");
                                        ("full_analysis", results)])]))
             w1 = (Raise e, w2) ->
           PyDict.get "blockchain_tx" report = None).
Proof.
  destruct (image_report_cases file_path w)
    as (r & w1 & a & t & verdict & Hr & Ha & _ & Hv & Hcases).
  destruct (image_authenticity_in_unit a t verdict Hcases) as [H0 H1].
  clear Hcases.
  assert (Hd : exists d, r = JDict d
                         /\ PyDict.get "verdict" d = Some (JStr verdict)
                         /\ PyDict.get "authenticity_score" d
                            = Some (JFloat a)).
  { destruct r as [| | | | | | d]; try discriminate.
    exists d. split; [reflexivity |].
    unfold verdict_of_report, authenticity_of_report in *.
    destruct (PyDict.get "verdict" d) as [[| | | | s | |] |];
      try discriminate.
    destruct (PyDict.get "authenticity_score" d) as [[| | | q | | |] |];
      try discriminate.
    injection Hv as ->. injection Ha as ->. now split. }
  destruct Hd as (d & -> & Hdv & Hda).
  set (final := [("verdict", JStr verdict);
                 ("authenticity_score", JFloat a);
                 ("details", JDict [("file_type", JStr "Image");
                                    ("full_analysis", JDict d)])]).
  assert (Hp : App.run_forensight_pipeline_image lib svc file_path w
               = App._finalize_report lib svc final w1).
  { unfold App.run_forensight_pipeline_image.
    rewrite (bind_ok _ _ _ _ _ Hr). unfold lift, bind, py_get.
    unfold PyDict.get_or. rewrite Hdv, Hda. reflexivity. }
  destruct (finalize_report_returns final w1)
    as (report & w' & Hf & Hkeep).
  exists (JDict d), w1, report, w', verdict, a.
  split; [exact Hr |]. rewrite Hp. split; [exact Hf |].
  split; [rewrite Hkeep by discriminate; reflexivity |].
  split; [rewrite Hkeep by discriminate; reflexivity |].
  split; [exact H0 |]. split; [exact H1 |].
  split; [rewrite Hkeep by discriminate; reflexivity |].
  intros e w2 Hl. fold final in Hl.
  unfold App._finalize_report in Hf.
  rewrite (try_except_raise _ _ _ _ _ (bind_raise _ _ _ _ _ Hl)) in Hf.
  unfold ret in Hf. injection Hf as <- _. reflexivity.
Qed.

(** X29. The single-file document pipeline does arithmetic on the danger
    score.  When the model's answer carries a [dangerScore] that is not a
    number (a string, say), the answer passes the agent's own check, the
    retrieval store is fed, and then [100 - danger] raises [TypeError]: the
    pipeline fails after all the work is done and before the ledger is
    reached. *)
Theorem nonnumeric_danger_score_fails_upload
        (file_path text : string) (case_id : option string)
        (w w1 w2 : World) (data analysis danger : json) (e : exn) :
  DocAgent.read_files_from_paths svc [file_path] w = (Ok text, w1) ->
  DocAgent.run_gemini_analysis cfg lib svc text w1 = (Ok data, w2) ->
  py_get data "misinformationAnalysis" (JDict []) = Ok analysis ->
  py_get analysis "dangerScore" (JInt 0) = Ok danger ->
  as_number danger = Raise e ->
  exists w3,
    App.ingest cfg rag file_path text case_id w2 = (Ok tt, w3)
    /\ App.run_forensight_pipeline_document cfg lib svc rag file_path
                                            case_id w = (Raise e, w3)
    /\ exn_cls e = TypeError.
Proof.
  intros Hr Hg Ha Hd He.
  assert (Hi : exists w3,
             App.ingest cfg rag file_path text case_id w2 = (Ok tt, w3)).
  { unfold App.ingest. destruct (is_set case_id); [| eexists; reflexivity].
    destruct (try_except_returns
                (bind (RagAgent.ingest_text_to_rag cfg rag (setting case_id)
                         text (PyStr.basename file_path))
                      (fun _ => ret tt))
                (fun _ => tt) w2) as ([] & w3 & H).
    exists w3. exact H. }
  destruct Hi as (w3 & Hi). exists w3. split; [exact Hi |]. split.
  - unfold App.run_forensight_pipeline_document.
    rewrite (bind_ok _ _ _ _ _ Hr), (bind_ok _ _ _ _ _ Hg).
    rewrite Ha. unfold lift at 1. unfold bind at 1.
    rewrite Hd. unfold lift at 1. unfold bind at 1.
    rewrite (bind_ok _ _ _ _ _ Hi).
    assert (Hh : App.hundred_minus danger = Raise e).
    { destruct danger; simpl in He; try discriminate;
        injection He as <-; reflexivity. }
    rewrite Hh. reflexivity.
  - destruct danger; simpl in He; try discriminate;
      injection He as <-; reflexivity.
Qed.

End Application.

(** ** The hash of a single-file report *)

Lemma map_app_dumps_same (l l' : list json) :
  Forall (fun a => forall b, distinct_keys a -> same_content a b ->
                             App.dumps lib a = App.dumps lib b) l ->
  Forall distinct_keys l ->
  Forall2 same_content l l' ->
  map (App.dumps lib) l = map (App.dumps lib) l'.
Proof.
  intros HI HK H2. induction H2 as [| a b l l' Hab _ IH]; [reflexivity |].
  inversion HI; inversion HK; subst. simpl. f_equal; auto.
Qed.

Lemma map_app_items_same (d d' : dict) :
  Forall (fun kv => forall b, distinct_keys (snd kv) ->
                              same_content (snd kv) b ->
                              App.dumps lib (snd kv) = App.dumps lib b) d ->
  Forall (fun kv => distinct_keys (snd kv)) d ->
  Forall2 (fun kv kv' =>
             fst kv = fst kv' /\ same_content (snd kv) (snd kv')) d d' ->
  map (fun kv => (fst kv, App.dumps lib (snd kv))) d
  = map (fun kv => (fst kv, App.dumps lib (snd kv))) d'.
Proof.
  intros HI HK H2. induction H2 as [| a b l l' [Hk Hv] _ IH]; [reflexivity |].
  inversion HI; inversion HK; subst. simpl. f_equal; auto.
  f_equal; auto.
Qed.

Lemma app_dumps_same_content :
  forall a b, distinct_keys a -> same_content a b ->
              App.dumps lib a = App.dumps lib b.
Proof.
  intros a. pattern a. apply json_nested_ind; clear a.
  1-5: intros; match goal with H : same_content _ _ |- _ => now inversion H end.
  - intros l IH b HK HS. inversion HS; subst; [reflexivity |].
    inversion HK; subst. simpl.
    now rewrite (map_app_dumps_same l l').
  - intros d IH b HK HS. inversion HS as [| | ? d1 d' HP H2]; subst;
      [reflexivity |].
    inversion HK as [| | | | | | ? Hnd Hall]; subst. simpl.
    rewrite <- (map_app_items_same d1 d').
    + rewrite (sort_items_insertion_order
                 (map (fun kv => (fst kv, App.dumps lib (snd kv))) d)
                 (map (fun kv => (fst kv, App.dumps lib (snd kv))) d1));
        [reflexivity | now apply Permutation_map |].
      rewrite map_map. simpl. exact Hnd.
    + exact (Permutation_Forall HP IH).
    + exact (Permutation_Forall HP Hall).
    + exact H2.
Qed.

(** X30. The hash the single-file pipelines send to the ledger is taken over
    the serialization with sorted keys and the default separators: like
    the session's proof hash it does not depend on the order in which the
    fields of the report, or of any object inside it, were inserted. *)
Theorem upload_report_hash_ignores_insertion_order
        (report report' : json) :
  distinct_keys report ->
  same_content report report' ->
  App.create_report_hash lib report = App.create_report_hash lib report'.
Proof.
  intros HK HS. unfold App.create_report_hash. f_equal.
  now apply app_dumps_same_content.
Qed.
End Agents.

(** ** The model on small inputs *)

Example priority_documents_first :
  _parse_priority_from_instructions (Some "Check DOCUMENTS for fraud")
  = ["documents"; "video"; "images"; "audio"].
Proof. reflexivity. Qed.

Example priority_two_mentions :
  _parse_priority_from_instructions (Some "is the photo in this clip fake?")
  = ["images"; "video"; "documents"; "audio"].
Proof. reflexivity. Qed.

Example extension_case_is_ignored :
  MetaAgent.category_of "uploads/Scan.final.PNG" = "images"
  /\ MetaAgent.category_of "README" = "unsupported"
  /\ MetaAgent.category_of "notes.json" = "unsupported".
Proof. repeat split. Qed.

Example dumps_sorts_keys_compactly :
  Json.dumps Fixture.lib
    (JDict [("b", JInt 1); ("a", JList [JNull; JBool true; JStr "x y"])])
  = "{" ++ Json.quote ++ "a" ++ Json.quote ++ ":[null,true,"
        ++ Json.quote ++ "x y" ++ Json.quote ++ "],"
        ++ Json.quote ++ "b" ++ Json.quote ++ ":1}".
Proof. reflexivity. Qed.

Example update_from_pairs :
  py_update [("session_id", JStr "s")]
            (JList [JList [JStr "session_id"; JInt 1]; JStr "ab"])
  = Ok [("session_id", JInt 1); ("a", JStr "b")]
  /\ raised (py_update [("session_id", JStr "s")] (JStr "oops")) = true
  /\ raised (py_update [("session_id", JStr "s")] JNull) = true.
Proof. repeat split. Qed.

(** [round(33.337, 2)] is 33.34 and [round(0.125, 2)] is 0.12; the double
    written 2.675 lies below 2.675 and rounds to 2.67; an image scored 0.5
    gets the authenticity 0.99, the double quotient 0.995 lying below
    0.995. *)
Example round2_ties_to_even :
  round2 (nearest_double (33337 # 1000)) = nearest_double (3334 # 100)
  /\ round2 (125 # 1000) = nearest_double (12 # 100)
  /\ round2 (nearest_double (2675 # 1000)) = nearest_double (267 # 100)
  /\ round2 (ImageAgent.clamp01 (float_div (float_sub 100 (1 # 2)) 100))
     = nearest_double (99 # 100).
Proof. repeat split; vm_compute; reflexivity. Qed.

(** A frame scored 2.675 gives the video the authenticity
    0.9732999999999999: the score is reported as 2.67, and the difference
    and the quotient are rounded in turn. *)
Example authenticity_in_double_arithmetic :
  float_div (float_sub 100 (round2 (nearest_double (2675 # 1000)))) 100
  = nearest_double (9732999999999999 # 10000000000000000).
Proof. vm_compute. reflexivity. Qed.

(** The scenario of the specification: two documents and the instructions
    "check documents for fraud" give two entries in input order and two
    summaries. *)
Example two_documents_scenario :
  exists g w',
    MetaAgent.dispatch Fixture.cfg Fixture.lib Fixture.svc
      (_parse_priority_from_instructions (Some "check documents for fraud"))
      (MetaAgent.classify ["up/doc1.txt"; "up/doc2.txt"]) []
      MetaAgent.nothing_gathered 0%nat = (Ok g, w')
    /\ map file_name (MetaAgent.results_list g)
       = [Some "doc1.txt"; Some "doc2.txt"]
    /\ MetaAgent.file_summaries g
       = ["doc1.txt: DANGER SCORE 0/100."; "doc2.txt: DANGER SCORE 0/100."].
Proof. do 2 eexists. repeat split. Qed.

(** ** The properties on concrete runs *)

Lemma document_scoring_degrades_to_default_witness :
  DocAgent.run_gemini_analysis Fixture.cfg Fixture.lib Fixture.svc_doc_garbled
    "wire the money today" 0%nat
  = (Ok (DocAgent.fallback (mk_exn JSONDecodeError "Expecting value")), 1%nat)
  /\ danger_score_of
       (DocAgent.fallback (mk_exn JSONDecodeError "Expecting value"))
     = Some (JInt 50)
  /\ exists flag,
       flags_of (DocAgent.fallback (mk_exn JSONDecodeError "Expecting value"))
       = Some (JList [flag]).
Proof.
  apply document_scoring_degrades_to_default.
  - reflexivity.
  - reflexivity.
  - right. left. eexists. split; reflexivity.
Defined.

(** The claim C4 fails for the audio agent: when AssemblyAI refuses the
    upload, [analyze_audio_file] raises instead of returning a result with
    [error] set. *)
Lemma audio_agent_propagates_failure :
  AudioAgent.analyze_audio_file Fixture.cfg Fixture.lib Fixture.svc_audio_down
    "call.mp3" None 0%nat
  = (Raise (mk_exn AssemblyAIError "Upload failed"), 1%nat).
Proof. reflexivity. Qed.

Lemma agents_contain_failures_but_audio_witness :
  MetaAgent._run_pipeline_for_file Fixture.cfg Fixture.lib
    Fixture.svc_audio_down "uploads/call.mp3" "audio" [] 0%nat
  = (Ok [("file", JStr "call.mp3"); ("type", JStr "audio");
         ("error", JStr "Upload failed")], 1%nat).
Proof.
  destruct (agents_contain_failures_but_audio
              Fixture.cfg Fixture.lib Fixture.svc_audio_down)
    as (_ & _ & _ & _ & Hupload & _ & _ & Hscheduler).
  apply (Hscheduler "uploads/call.mp3" [] 0%nat
                    (mk_exn AssemblyAIError "Upload failed") 1%nat);
    [reflexivity |].
  apply (Hupload "uploads/call.mp3" (Some "a-key") "a-key" 0%nat
                 (mk_exn AssemblyAIError "Upload failed") 1%nat);
    reflexivity.
Defined.

(** The claim C1 fails when the meta report has a [results] field: the
    file was classified and analysed, and the bundle that is returned shows
    no entry for it. *)
Lemma meta_report_overwrites_results :
  exists b w',
    MetaAgent.meta_process Fixture.cfg Fixture.lib Fixture.svc_meta_overwrites
      "s1" ["uploads/notes.txt"] (Some "check documents") None 0%nat
    = (Ok b, w')
    /\ filter classified ["uploads/notes.txt"] = ["uploads/notes.txt"]
    /\ PyDict.get "results" b = Some (JList []).
Proof. do 2 eexists. repeat split. Qed.

Lemma results_follow_priority_then_input_order_witness :
  exists g,
    map file_name (MetaAgent.results_list g)
    = [Some "call.mp3"; Some "n.txt"; Some "a.png"]
    /\ List.length (MetaAgent.results_list g) = 3%nat
    /\ forall b w',
         MetaAgent.meta_process Fixture.cfg Fixture.lib Fixture.svc "s1"
           ["up/a.png"; "up/call.mp3"; "up/x.exe"; "up/n.txt"]
           (Some "audio first") None 0%nat = (Ok b, w') ->
         PyDict.get "results" b = Some (JList (MetaAgent.results_list g)).
Proof.
  destruct (results_follow_priority_then_input_order
              Fixture.cfg Fixture.lib Fixture.svc "s1"
              ["up/a.png"; "up/call.mp3"; "up/x.exe"; "up/n.txt"]
              (Some "audio first") None 0%nat)
    as (g & w1 & Hd & Hn & _ & Hl & Hb).
  exists g. split; [exact Hn |]. split; [exact Hl |].
  intros b w' Hm.
  vm_compute in Hd. injection Hd as <- <-.
  apply (Hb (JDict []) 10%nat b w'); [reflexivity | | exact Hm].
  simpl. tauto.
Defined.

Lemma scheduler_isolates_adapter_failures_witness :
  exists g w',
    MetaAgent.dispatch Fixture.cfg Fixture.lib Fixture.svc_audio_down
      (_parse_priority_from_instructions None)
      (MetaAgent.classify ["up/a.png"; "up/call.mp3"; "up/n.txt"]) []
      MetaAgent.nothing_gathered 0%nat = (Ok g, w')
    /\ List.length (MetaAgent.results_list g) = 3%nat
    /\ List.length (filter has_error (MetaAgent.results_list g)) = 1%nat
    /\ List.length (filter is_normal (MetaAgent.results_list g)) = 2%nat.
Proof.
  destruct (scheduler_isolates_adapter_failures
              Fixture.cfg Fixture.lib Fixture.svc_audio_down) as (_ & H & _).
  apply (H (_parse_priority_from_instructions None)
           (MetaAgent.classify ["up/a.png"; "up/call.mp3"; "up/n.txt"])
           [] 0%nat).
  - intros job Hin. vm_compute in Hin.
    repeat (destruct Hin as [<- | Hin]; [reflexivity |]). contradiction.
  - reflexivity.
Defined.

(** The claim C3 fails when an agent is missing.  OpenCV is not installed
    and AssemblyAI refuses the upload: of the two calls the batch needs
    only one is made, it raises, and both entries have [error] set. *)
Lemma missing_agent_files_second_error :
  let jobs := jobs_of (_parse_priority_from_instructions None)
                      (MetaAgent.classify ["up/clip.mp4"; "up/call.mp3"]) in
  List.length jobs = 2%nat
  /\ List.length
       (filter raised
               (outcomes Fixture.cfg_no_opencv Fixture.lib
                         Fixture.svc_audio_down jobs [] 0%nat)) = 1%nat
  /\ exists g w',
       MetaAgent.dispatch Fixture.cfg_no_opencv Fixture.lib
         Fixture.svc_audio_down (_parse_priority_from_instructions None)
         (MetaAgent.classify ["up/clip.mp4"; "up/call.mp3"]) []
         MetaAgent.nothing_gathered 0%nat = (Ok g, w')
       /\ MetaAgent.results_list g
          = [JDict [("file", JStr "clip.mp4");
                    ("error", JStr "Video Agent missing")];
             JDict [("file", JStr "call.mp3"); ("type", JStr "audio");
                    ("error", JStr "Upload failed")]]
       /\ List.length (filter has_error (MetaAgent.results_list g)) = 2%nat
       /\ List.length (filter is_normal (MetaAgent.results_list g)) = 0%nat.
Proof.
  cbv zeta. split; [reflexivity |]. split; [reflexivity |].
  do 2 eexists. split; [vm_compute; reflexivity |].
  split; [reflexivity |]. split; reflexivity.
Qed.



(** The claim C8 fails on a score with more than two decimals: the one
    analysed frame scores 33.337, and the authenticity score is 0.6666,
    computed from 33.34, where [(100 - 33.337) / 100.0] is 0.66663. *)
Lemma authenticity_score_uses_rounded_maximum :
  exists report w',
    VideoAgent.run_video_forensics Fixture.lib Fixture.svc_score_33337
      "clip.mp4" 0%nat = (Ok report, w')
    /\ observed_scores Fixture.lib Fixture.svc_score_33337 60
         "clip.mp4_temp.jpg" [33337 # 1000] 0 2%nat
       = [nearest_double (33337 # 1000)]
    /\ authenticity_of_report report
       = Some (nearest_double (6666 # 10000))
    /\ float_div (float_sub 100 (nearest_double (33337 # 1000))) 100
       = nearest_double (66663 # 100000)
    /\ ~ nearest_double (6666 # 10000)
         == nearest_double (66663 # 100000).
Proof.
  do 2 eexists. split; [reflexivity |].
  split; [vm_compute; reflexivity |].
  split; [vm_compute; reflexivity |].
  split; [vm_compute; reflexivity |].
  intros H. vm_compute in H. discriminate.
Qed.

Lemma video_verdict_and_authenticity_witness :
  exists report w',
    VideoAgent.run_video_forensics Fixture.lib Fixture.svc "clip.mp4" 0%nat
    = (Ok report, w')
    /\ verdict_of_report report = Some "Likely Original"
    /\ authenticity_of_report report = Some (nearest_double (9 # 10)).
Proof.
  apply (video_verdict_and_authenticity Fixture.lib Fixture.svc "clip.mp4"
           0%nat 2%nat (Fixture.clip 30 [10])).
  - reflexivity.
  - vm_compute. discriminate.
Defined.

Lemma low_frame_rate_raises_zero_division_witness :
  VideoAgent.analyze_video_frames Fixture.lib Fixture.svc_slow_video
    "slow.mp4" 0%nat
  = (Raise (mk_exn ZeroDivisionError "integer modulo by zero"), 1%nat).
Proof.
  apply (low_frame_rate_raises_zero_division
           Fixture.lib Fixture.svc_slow_video "slow.mp4" 0%nat 1%nat
           (Fixture.clip (1 # 4) [10]) 10 []); reflexivity.
Defined.

Lemma no_analysed_frame_gives_zero_ratio_witness :
  exists visuals w',
    VideoAgent.analyze_video_frames Fixture.lib Fixture.svc_empty_video
      "empty.mp4" 0%nat = (Ok visuals, w')
    /\ py_get visuals "frames_analyzed" (JInt 0) = Ok (JInt 0)
    /\ py_get visuals "fake_ratio_percent" (JInt 0) = Ok (JInt 0).
Proof.
  apply (no_analysed_frame_gives_zero_ratio
           Fixture.lib Fixture.svc_empty_video "empty.mp4" 0%nat 1%nat
           (Fixture.clip 30 [])).
  - reflexivity.
  - vm_compute. discriminate.
  - reflexivity.
Defined.

(** ** More runs on small inputs *)

Lemma missing_model_key_gives_fixed_report_witness :
  exists b w',
    MetaAgent.meta_process Scenario.cfg_no_gemini Fixture.lib Fixture.svc
      "s1" ["up/a.png"; "up/n.txt"] None None 0%nat = (Ok b, w')
    /\ PyDict.get "final_summary" b = Some (JStr "AI key missing.")
    /\ PyDict.get "session_id" b = Some (JStr "s1").
Proof.
  destruct (missing_model_key_gives_fixed_report
              Scenario.cfg_no_gemini Fixture.lib Fixture.svc
              "s1" ["up/a.png"; "up/n.txt"] None None 0%nat eq_refl)
    as (g & w1 & b & w' & _ & _ & Hp & Hs & _ & Hf & _).
  exists b, w'. split; [exact Hp |]. split; [exact Hf | exact Hs].
Defined.

Lemma unparseable_meta_report_is_truncated_witness :
  exists b w',
    MetaAgent.meta_process Fixture.cfg Fixture.lib Scenario.svc_meta_prose
      "s1" ["up/n.txt"] None None 0%nat = (Ok b, w')
    /\ PyDict.get "final_summary" b
       = Some (JStr "The files look consistent.").
Proof.
  edestruct (unparseable_meta_report_is_truncated
               Fixture.cfg Fixture.lib Scenario.svc_meta_prose
               "s1" ["up/n.txt"] None None 0%nat) as [H _].
  - reflexivity.
  - vm_compute; reflexivity.
  - vm_compute; reflexivity.
  - vm_compute; reflexivity.
  - destruct (H eq_refl) as (b & w' & Hp & Hf & _).
    exists b, w'. split; [exact Hp | exact Hf].
Defined.

Lemma meta_report_fields_reach_bundle_witness :
  exists b w',
    MetaAgent.meta_process Fixture.cfg Fixture.lib
      Fixture.svc_meta_overwrites "s1" ["up/n.txt"] None None 0%nat
    = (Ok b, w')
    /\ PyDict.get "results" b = Some (JList [])
    /\ PyDict.get "session_id" b = Some (JStr "s1").
Proof.
  edestruct (meta_report_fields_reach_bundle
               Fixture.cfg Fixture.lib Fixture.svc_meta_overwrites
               "s1" ["up/n.txt"] None None 0%nat)
    as (b & w' & Hp & Hk).
  - vm_compute; reflexivity.
  - vm_compute; reflexivity.
  - repeat constructor. simpl. tauto.
  - exists b, w'. split; [exact Hp |].
    split; rewrite Hk by discriminate; reflexivity.
Defined.

Lemma image_sessions_send_no_evidence_witness :
  exists g w1,
    MetaAgent.dispatch Fixture.cfg Fixture.lib Fixture.svc
      (_parse_priority_from_instructions (Some "check the photos"))
      (MetaAgent.classify ["up/a.png"; "up/b.JPG"; "up/c.exe"]) []
      MetaAgent.nothing_gathered 0%nat = (Ok g, w1)
    /\ List.length (MetaAgent.results_list g) = 2%nat
    /\ MetaAgent.aggregate_text_parts g = []
    /\ MetaAgent.file_summaries g = [].
Proof.
  destruct (image_sessions_send_no_evidence
              Fixture.cfg Fixture.lib Fixture.svc "s1"
              ["up/a.png"; "up/b.JPG"; "up/c.exe"]
              (Some "check the photos") None 0%nat)
    as (g & w1 & Hd & Hl & Hp & Hs & _).
  - intros p Hin. simpl in Hin.
    destruct Hin as [<- | [<- | [<- | []]]]; vm_compute; tauto.
  - exists g, w1. repeat split; assumption.
Defined.

Lemma video_counts_are_consistent_witness :
  exists visuals w',
    VideoAgent.analyze_video_frames Fixture.lib Scenario.svc_five_frames
      "clip.mp4" 0%nat = (Ok visuals, w')
    /\ py_get visuals "frames_analyzed" (JInt 0) = Ok (JInt 3)
    /\ py_get visuals "fake_frames_count" (JInt 0) = Ok (JInt 3).
Proof.
  destruct (video_counts_are_consistent
              Fixture.lib Scenario.svc_five_frames "clip.mp4" 0%nat 1%nat
              (Fixture.clip 1 [70; 70; 70; 70; 70]) eq_refl)
    as (visuals & w' & n & k & ratio & q & m & Hv & _).
  - vm_compute. discriminate.
  - exists visuals, w'. split; [exact Hv |].
    vm_compute in Hv. injection Hv as <- _. split; reflexivity.
Defined.

Lemma image_service_outage_reads_as_original_witness :
  exists report w',
    VideoAgent.run_video_forensics Fixture.lib Scenario.svc_rd_down
      "clip.mp4" 0%nat = (Ok report, w')
    /\ verdict_of_report report = Some "Likely Original".
Proof.
  destruct (image_service_outage_reads_as_original
              Fixture.lib Scenario.svc_rd_down "clip.mp4" 0%nat 2%nat
              (Fixture.clip 30 [10]))
    as (report & w' & a & visuals & m & Hr & Hv & _).
  - intros name w0. do 2 eexists. reflexivity.
  - reflexivity.
  - vm_compute. discriminate.
  - exists report, w'. split; [exact Hr | exact Hv].
Defined.

Lemma every_sampled_frame_is_counted_witness :
  exists visuals w',
    VideoAgent.analyze_video_frames Fixture.lib Scenario.svc_five_frames
      "clip.mp4" 0%nat = (Ok visuals, w')
    /\ py_get visuals "frames_analyzed" (JInt 0) = Ok (JInt 3).
Proof.
  apply (every_sampled_frame_is_counted
           Fixture.lib Scenario.svc_five_frames "clip.mp4" 0%nat 1%nat
           (Fixture.clip 1 [70; 70; 70; 70; 70])).
  - intros p f w0. eexists. reflexivity.
  - reflexivity.
  - vm_compute. discriminate.
Defined.

Lemma unmatched_suffix_document_is_never_read_witness :
  MetaAgent.category_of "up/NOTES.TXT" = "documents"
  /\ MetaAgent._run_pipeline_for_file Fixture.cfg Fixture.lib Fixture.svc
       "up/NOTES.TXT" "documents" [] 0%nat
     = (Ok [("file", JStr "NOTES.TXT"); ("type", JStr "document");
            ("report", DocAgent.empty_structure); ("text", JStr "")],
        0%nat).
Proof.
  split; [reflexivity |].
  apply (unmatched_suffix_document_is_never_read
           Fixture.cfg Fixture.lib Fixture.svc "up/NOTES.TXT" []
           MetaAgent.nothing_gathered 0%nat); reflexivity.
Defined.

Lemma unreadable_text_file_scores_zero_witness :
  MetaAgent._run_pipeline_for_file Fixture.cfg Fixture.lib
    Scenario.svc_unreadable "up/notes.txt" "documents" [] 0%nat
  = (Ok [("file", JStr "notes.txt"); ("type", JStr "document");
         ("report", DocAgent.empty_structure); ("text", JStr "")],
     1%nat).
Proof.
  apply (unreadable_text_file_scores_zero
           Fixture.cfg Fixture.lib Scenario.svc_unreadable "up/notes.txt" []
           0%nat 1%nat (mk_exn OtherException "Permission denied"));
    reflexivity.
Defined.

Lemma unreadable_pdf_header_reaches_model_witness :
  exists report,
    MetaAgent._run_pipeline_for_file Fixture.cfg Fixture.lib
      Scenario.svc_unreadable "up/scan.pdf" "documents" [] 0%nat
    = (Ok [("file", JStr "scan.pdf"); ("type", JStr "document");
           ("report", report);
           ("text", JStr (DocAgent.file_block "up/scan.pdf" ""))],
       2%nat).
Proof.
  destruct (unreadable_pdf_header_reaches_model
              Fixture.cfg Fixture.lib Scenario.svc_unreadable "up/scan.pdf"
              [] 0%nat 1%nat (mk_exn OtherException "EOF marker not found")
              eq_refl eq_refl eq_refl eq_refl eq_refl)
    as (_ & _ & _ & report & w2 & Hr & Hp).
  exists report. rewrite Hp. f_equal.
  vm_compute in Hr. now injection Hr.
Defined.

Lemma documents_need_model_key_witness :
  exists w1,
    MetaAgent._run_pipeline_for_file Scenario.cfg_no_gemini Fixture.lib
      Fixture.svc "up/notes.txt" "documents" [] 0%nat
    = (Ok [("file", JStr "notes.txt"); ("type", JStr "documents");
           ("error",
            JStr "GEMINI_API_KEY environment variable not set.")], w1).
Proof.
  destruct (documents_need_model_key
              Scenario.cfg_no_gemini Fixture.lib Fixture.svc "up/notes.txt"
              [] 0%nat eq_refl eq_refl)
    as (_ & text & w1 & _ & Hp).
  exists w1. exact Hp.
Defined.

Lemma model_answer_is_passed_through_witness :
  DocAgent.run_gemini_analysis Fixture.cfg Fixture.lib Fixture.svc
    "some text" 0%nat = (Ok (JDict []), 1%nat).
Proof.
  apply (model_answer_is_passed_through
           Fixture.cfg Fixture.lib Fixture.svc "some text" "{}" "notes.txt"
           [] (JInt 0) MetaAgent.nothing_gathered 0%nat 1%nat);
    reflexivity.
Defined.

Lemma audio_without_key_makes_no_call_witness :
  exists msg,
    MetaAgent._run_pipeline_for_file Scenario.cfg_no_assemblyai Fixture.lib
      Fixture.svc "up/call.mp3" "audio" [("assemblyai", None)] 0%nat
    = (Ok [("file", JStr "call.mp3"); ("type", JStr "audio");
           ("error", JStr msg)], 0%nat).
Proof.
  destruct (audio_without_key_makes_no_call
              Scenario.cfg_no_assemblyai Fixture.lib Fixture.svc
              "up/call.mp3" [("assemblyai", None)] 0%nat
              eq_refl eq_refl eq_refl) as (msg & _ & Hp).
  exists msg. exact Hp.
Defined.

Lemma missing_request_id_stops_before_polling_witness :
  exists report,
    ImageAgent.analyze_image_with_rd_and_gemini Fixture.lib
      Scenario.svc_no_request_id "up/a.png" 0%nat = (Ok report, 2%nat)
    /\ verdict_of_report report = Some "Error".
Proof.
  eexists. split.
  - apply (missing_request_id_stops_before_polling
             Fixture.lib Scenario.svc_no_request_id "up/a.png"
             "https://rd/a.png" 0%nat 1%nat 2%nat); reflexivity.
  - reflexivity.
Defined.

Lemma unopenable_video_reads_as_original_witness :
  exists report,
    VideoAgent.run_video_forensics Fixture.lib Scenario.svc_no_video
      "up/clip.mp4" 0%nat = (Ok report, 2%nat)
    /\ verdict_of_report report = Some "Likely Original".
Proof.
  destruct (unopenable_video_reads_as_original
              Fixture.cfg Fixture.lib Scenario.svc_no_video "up/clip.mp4" []
              MetaAgent.nothing_gathered 0%nat 1%nat 2%nat eq_refl eq_refl)
    as (report & a & Hr & Hv & _).
  exists report. split; [exact Hr | exact Hv].
Defined.

Lemma ledger_receipt_names_the_hash_witness :
  exists d,
    BlockchainAgent.log_verification_hash Scenario.ledger_configured
      Scenario.node_ok "0xabcdef" 0%nat = (Ok (JDict d), 6%nat)
    /\ PyDict.get "proof_hash" d = Some (JStr "0xabcdef")
    /\ PyDict.get "tx_hash" d = Some (JStr "0xfeed").
Proof.
  edestruct (ledger_receipt_names_the_hash
               Scenario.ledger_configured Scenario.node_ok "0xabcdef"
               0%nat) as (d & t & Hr & Hp & Ht & _).
  - vm_compute; reflexivity.
  - exists d. injection Hr as <-. repeat split.
Defined.

Lemma unconfigured_ledger_returns_stub_witness :
  BlockchainAgent.log_verification_hash Scenario.ledger_unconfigured
    Scenario.node_ok "0x0123456789abcdef0123" 0%nat
  = (Ok (JDict [("tx_hash", JStr "mock_tx_0x0x0123456789abcd");
                ("chain_id", JStr "STUB_TESTNET");
                ("proof_hash", JStr "0x0123456789abcdef0123")]), 0%nat).
Proof.
  destruct (unconfigured_ledger_returns_stub
              Fixture.cfg Fixture.lib Fixture.svc
              Scenario.ledger_unconfigured Scenario.node_ok [] 0%nat eq_refl)
    as [H _].
  exact (H "0x0123456789abcdef0123" 0%nat).
Defined.

Lemma live_failures_become_error_receipts_witness :
  BlockchainAgent.log_verification_hash Scenario.ledger_configured
    Scenario.node_chain_down "0xabcdef" 0%nat
  = (Ok (JDict [("error", JStr "Live TX failed: read timed out");
                ("tx_hash", JStr "mock_tx_0xerror");
                ("proof_hash", JStr "0xabcdef")]), 6%nat).
Proof.
  destruct (live_failures_become_error_receipts
              Scenario.ledger_configured Scenario.node_chain_down
              "0xabcdef" "0xabc" "0xabcdef" None 0%nat 1%nat
              eq_refl eq_refl eq_refl) as (_ & _ & H & _).
  apply (H "0xfeed" 5%nat (mk_exn Timeout "read timed out") 6%nat);
    reflexivity.
Defined.

Lemma unread_upload_gets_clean_report_witness :
  App.allowed_file "evidence.json" = true
  /\ exists report w',
       App.run_forensight_pipeline_document Fixture.cfg Fixture.lib
         Fixture.svc Scenario.rag "up/evidence.json" (Some "case-1") 0%nat
       = (Ok report, w')
       /\ PyDict.get "verdict" report = Some (JStr "Danger Score: 0/100").
Proof.
  split; [reflexivity |].
  destruct (unread_upload_gets_clean_report
              Fixture.cfg Fixture.lib Fixture.svc Scenario.rag
              "up/evidence.json" (Some "case-1") 0%nat
              eq_refl eq_refl eq_refl eq_refl)
    as (a & _ & _ & report & w' & Hp & Hv & _).
  exists report, w'. split; [exact Hp | exact Hv].
Defined.

Lemma nonnumeric_danger_score_fails_upload_witness :
  exists e w3,
    App.run_forensight_pipeline_document Fixture.cfg Scenario.lib_worded
      Scenario.svc_worded Scenario.rag "up/notes.txt" (Some "case-1") 0%nat
    = (Raise e, w3)
    /\ exn_cls e = TypeError.
Proof.
  edestruct (nonnumeric_danger_score_fails_upload
               Fixture.cfg Scenario.lib_worded Scenario.svc_worded
               Scenario.rag "up/notes.txt"
               (DocAgent.file_block "up/notes.txt" "some text")
               (Some "case-1") 0%nat)
    as (w3 & _ & Hp & He).
  - vm_compute; reflexivity.
  - vm_compute; reflexivity.
  - vm_compute; reflexivity.
  - vm_compute; reflexivity.
  - vm_compute; reflexivity.
  - do 2 eexists. split; [exact Hp | exact He].
Defined.

Lemma upload_report_hash_ignores_insertion_order_witness :
  App.create_report_hash Fixture.lib
    (JDict [("verdict", JStr "Likely Original");
            ("authenticity_score", JFloat 1);
            ("details", JDict [("file_type", JStr "Image")])])
  = App.create_report_hash Fixture.lib
      (JDict [("details", JDict [("file_type", JStr "Image")]);
              ("authenticity_score", JFloat 1);
              ("verdict", JStr "Likely Original")]).
Proof.
  apply upload_report_hash_ignores_insertion_order.
  - repeat (constructor; simpl; try (intuition discriminate)).
  - eapply same_dict.
    + apply Permutation_rev.
    + simpl. repeat (constructor; simpl; auto using same_value).
Defined.
